(** * banks_project.py: the ETL pipeline for the largest-banks table

    A shallow embedding of [Python/2ETL/Project_3/banks_project.py].

    - Market capitalisations are binary64 numbers: Rocq's primitive floats.
      A column of numbers is a float64 column, as [pd.concat] of pandas 2
      leaves it (the empty frame has no say in the dtype), and [round] on
      it is numpy's.
    - A [DataFrame] is an ordered list of named columns.  Frames are Python
      objects with identity: they live in a heap and the stage functions
      receive references, so that in-place column assignment is visible
      through every alias.
    - Every function of the script runs in the monad [M]: it threads the
      state of the process and of the files it touches, and either returns
      a value or raises an exception.  A raised exception keeps the state
      reached so far, as in Python.
    - What the script gets from outside (the clock, the web page and its
      parser, [float], the exchange-rate file, faults of the file system
      and of [sqlite3.connect]) is gathered in the record [Env]. *)

Set Warnings "-inexact-float".
From Stdlib Require Import ZArith String Ascii List Bool Lia.
From Stdlib Require Import DecimalString Uint63.
From Stdlib Require Import Floats.PrimFloat Floats.SpecFloat Floats.FloatOps.
From Stdlib Require Import Floats.FloatAxioms.
From stdpp Require Import gmap strings list.
Import ListNotations.
Local Open Scope string_scope.
Local Open Scope list_scope.

(** ** Exceptions *)

Inductive ExnClass : Type :=
  | IndexError
  | KeyError
  | ValueError
  | TypeError
  | NameError
  | OSError
  | InvalidIndexError
  | DatabaseError
  | ProgrammingError
  | OperationalError.

(** An exception: its class and [str(e)]. *)
Record Exn : Type := mkExn { exn_class : ExnClass; exn_str : string }.

(** [issubclass(type(e), LookupError)]. *)
Definition is_LookupError (e : Exn) : bool :=
  match exn_class e with
  | IndexError | KeyError => true
  | _ => false
  end.

(** ** Data frames *)

Inductive Cell : Type :=
  | CStr (s : string)
  | CNum (x : float)
  | CInt (n : nat)
  | CNull.

Definition Frame : Type := list (string * list Cell).

(** ** What is printed *)

Inductive Out : Type :=
  | OutStr (s : string)
  | OutFrame (df : Frame)
  | OutCell (label : string) (c : Cell).

(** ** State of the process and of the files it writes *)

Record State : Type := mkState {
  (** [code_log.txt]: [inr lines] when it can be opened for appending,
      [inl e] when [open(log_file, "a")] or the write raises [e]. *)
  log_sink : Exn + list string;
  (** number of calls of [datetime.now()] made so far *)
  ticks : nat;
  stdout : list Out;
  (** the DataFrame objects; a reference is a position in this list *)
  heap : list Frame;
  (** the files written by [to_csv], by path *)
  csv_files : gmap string Frame;
  (** the tables of [Banks.db], by name *)
  db : gmap string Frame;
  (** the sqlite3 connections made so far; [true] while open *)
  conns : list bool;
  (** the names bound at the top level of the script, with the object
      (frame or connection) each is bound to *)
  globals : gmap string nat
}.

Definition set_log (l : Exn + list string) (s : State) : State :=
  mkState l (ticks s) (stdout s) (heap s) (csv_files s) (db s) (conns s) (globals s).
Definition set_ticks (n : nat) (s : State) : State :=
  mkState (log_sink s) n (stdout s) (heap s) (csv_files s) (db s) (conns s) (globals s).
Definition set_stdout (o : list Out) (s : State) : State :=
  mkState (log_sink s) (ticks s) o (heap s) (csv_files s) (db s) (conns s) (globals s).
Definition set_heap (h : list Frame) (s : State) : State :=
  mkState (log_sink s) (ticks s) (stdout s) h (csv_files s) (db s) (conns s) (globals s).
Definition set_csv_files (f : gmap string Frame) (s : State) : State :=
  mkState (log_sink s) (ticks s) (stdout s) (heap s) f (db s) (conns s) (globals s).
Definition set_db (d : gmap string Frame) (s : State) : State :=
  mkState (log_sink s) (ticks s) (stdout s) (heap s) (csv_files s) d (conns s)
    (globals s).
Definition set_conns (c : list bool) (s : State) : State :=
  mkState (log_sink s) (ticks s) (stdout s) (heap s) (csv_files s) (db s) c
    (globals s).
Definition set_globals (g : gmap string nat) (s : State) : State :=
  mkState (log_sink s) (ticks s) (stdout s) (heap s) (csv_files s) (db s)
    (conns s) g.

(** The lines of the log file ([[]] when it cannot be opened). *)
Definition log_lines (s : State) : list string :=
  match log_sink s with
  | inr l => l
  | inl _ => []
  end.

(** ** The monad of the script *)

Definition M (A : Type) : Type := State -> (Exn + A) * State.

Definition ret {A} (a : A) : M A := fun s => (inr a, s).
Definition raise {A} (e : Exn) : M A := fun s => (inl e, s).
Definition bind {A B} (m : M A) (k : A -> M B) : M B :=
  fun s =>
    match m s with
    | (inr a, s1) => k a s1
    | (inl e, s1) => (inl e, s1)
    end.

Notation "'let*' x ':=' m 'in' k" := (bind m (fun x => k))
  (at level 10, x name, m at level 100, k at level 200, only parsing).
Notation "m ';;' k" := (bind m (fun _ => k))
  (at level 100, k at level 200, right associativity, only parsing).

(** [try: body except Exception as e: handler e]. *)
Definition try_except {A} (body : M A) (handler : Exn -> M A) : M A :=
  fun s =>
    match body s with
    | (inl e, s1) => handler e s1
    | r => r
    end.

(** [try: body finally: final].  The [finally] block runs on every exit;
    an exception raised by it replaces the outcome of the body. *)
Definition try_finally {A} (body : M A) (final : M unit) : M A :=
  fun s =>
    let (r, s1) := body s in
    match final s1 with
    | (inr _, s2) => (r, s2)
    | (inl e, s2) => (inl e, s2)
    end.

(** [print(x)] *)
Definition print (o : Out) : M unit :=
  fun s => (inr tt, set_stdout (stdout s ++ [o]) s).

(** ** The environment *)

#[warnings="-register-all"]
Inductive Node : Type :=
  | Tag (name : string) (attrs : gmap string string) (contents : list Node)
  | NavigableString (text : string).

Record Env : Type := mkEnv {
  (** [datetime.now().strftime("%Y-%h-%d-%H:%M:%S")] at the k-th call *)
  now : nat -> string;
  (** [BeautifulSoup(requests.get(url).text, "html.parser")] *)
  get_soup : string -> Exn + Node;
  (** the builtin [float] on a [str]; [None] is [ValueError] *)
  py_float : string -> option float;
  (** [str(x)] of a float *)
  float_str : float -> string;
  (** [pd.read_csv(path).set_index("Currency")["Rate"]] *)
  read_rates : string -> Exn + gmap string float;
  (** [df.to_csv(path, index=False)]: the error it raises, if any *)
  to_csv_fault : string -> option Exn;
  (** [sqlite3.connect('Banks.db')]: the error it raises, if any *)
  connect_fault : option Exn;
  (** what SQLite answers, on the tables given, to a statement that is
      not of one of the shapes the script uses *)
  sqlite_other : gmap string Frame -> string -> Exn + Frame
}.

Definition nl : string := String (ascii_of_nat 10) EmptyString.

(** ** Task 1: the logger *)

Definition log_file_append (line : string) : M unit :=
  fun s =>
    match log_sink s with
    | inl e => (inl e, s)
    | inr lines => (inr tt, set_log (inr (lines ++ [line])) s)
    end.

Definition datetime_now_strftime (E : Env) : M string :=
  fun s => (inr (now E (ticks s)), set_ticks (S (ticks s)) s).

Definition log_progress (E : Env) (message : string) : M unit :=
  let* timestamp := datetime_now_strftime E in
  log_file_append (timestamp +:+ " : " +:+ message +:+ nl).

(** ** Pure steps that may raise *)

Notation "'let?' x ':=' m 'in' k" :=
  (match m with inr x => k | inl e => inl e end)
  (at level 10, x name, m at level 100, k at level 200, only parsing).

Definition lift {A} (r : Exn + A) : M A := fun s => (r, s).

(** [l[i]] on a Python list, for an index [i >= 0]. *)
Definition py_index {A} (l : list A) (i : nat) : Exn + A :=
  match l !! i with
  | Some x => inr x
  | None => inl (mkExn IndexError "list index out of range")
  end.

(** [s[:-1]] on a [str]. *)
Fixpoint drop_last (s : string) : string :=
  match s with
  | EmptyString => EmptyString
  | String c EmptyString => EmptyString
  | String c r => String c (drop_last r)
  end.

(** [repr(s)] of a [str] without quotes or escapes in it. *)
Definition repr (s : string) : string := "'" +:+ s +:+ "'".

(** ** The parsed page (BeautifulSoup) *)

(** All nodes below [n], in document order. *)
Fixpoint descendants (n : Node) : list Node :=
  match n with
  | Tag _ _ cs => flat_map (fun c => c :: descendants c) cs
  | NavigableString _ => []
  end.

Definition is_tag (name : string) (n : Node) : bool :=
  match n with
  | Tag t _ _ => String.eqb t name
  | NavigableString _ => false
  end.

(** [n.find_all(name)] *)
Definition find_all (name : string) (n : Node) : list Node :=
  List.filter (is_tag name) (descendants n).

(** [n[key]]: the value of an attribute of a tag. *)
Definition get_attr (n : Node) (key : string) : Exn + string :=
  match n with
  | Tag _ attrs _ =>
      match attrs !! key with
      | Some v => inr v
      | None => inl (mkExn KeyError (repr key))
      end
  | NavigableString _ =>
      inl (mkExn TypeError "string indices must be integers")
  end.

(** [n.contents] *)
Definition contents (n : Node) : list Node :=
  match n with
  | Tag _ _ cs => cs
  | NavigableString _ => []
  end.

(** [n[:-1]]: a slice of a string is a string; a tag is indexed by
    attribute names only and rejects a slice. *)
Definition slice_to_last (n : Node) : Exn + string :=
  match n with
  | NavigableString s => inr (drop_last s)
  | Tag _ _ _ => inl (mkExn TypeError "unhashable type: 'slice'")
  end.

(** [float(s)] *)
Definition float_of_str (E : Env) (s : string) : Exn + float :=
  match py_float E s with
  | Some x => inr x
  | None =>
      inl (mkExn ValueError ("could not convert string to float: " +:+ repr s))
  end.

(** ** pandas frames *)

(** [pd.DataFrame(columns=cols)] *)
Definition DataFrame_columns (cols : list string) : Frame :=
  map (fun c => (c, [])) cols.

(** [len(df)] *)
Definition nrows (df : Frame) : nat :=
  match df with
  | [] => 0
  | (_, c) :: _ => length c
  end.

Definition columns (df : Frame) : list string := map fst df.

(** The column labelled [c], if there is one (the first, should the
    label be repeated). *)
Fixpoint column (df : Frame) (c : string) : option (list Cell) :=
  match df with
  | [] => None
  | (c', v) :: rest => if String.eqb c' c then Some v else column rest c
  end.

Definition column_or_nan (df : Frame) (c : string) : list Cell :=
  match column df c with
  | Some v => v
  | None => repeat (CNum nan) (nrows df)
  end.

Definition mem_string (c : string) (l : list string) : bool :=
  existsb (String.eqb c) l.

(** [pd.concat([a, b], ignore_index=True)]: rows of [a] then rows of [b];
    the columns are those of [a] followed by the new ones of [b], a column
    absent from one frame being filled with NaN.  Aligning frames whose
    column labels differ needs unique labels. *)
Definition concat (a b : Frame) : Exn + Frame :=
  if bool_decide (columns a = columns b)
  then inr (map (fun '(c, v) => (c, v ++ column_or_nan b c)) a)
  else if bool_decide (NoDup (columns a)) && bool_decide (NoDup (columns b))
  then
    let labels :=
      columns a ++ List.filter (fun c => negb (mem_string c (columns a))) (columns b) in
    inr (map (fun c => (c, column_or_nan a c ++ column_or_nan b c)) labels)
  else
    inl (mkExn InvalidIndexError
           "Reindexing only valid with uniquely valued Index objects").

(** ** Task 2: extraction *)

(** The [data_dict] of one row with data cells [col]. *)
Definition data_dict (E : Env) (col : list Node) : Exn + Frame :=
  let? c1 := py_index col 1 in
  let? a := py_index (find_all "a" c1) 1 in
  let? title := get_attr a "title" in
  let? c2 := py_index col 2 in
  let? first := py_index (contents c2) 0 in
  let? text := slice_to_last first in
  let? mc := float_of_str E text in
  inr [("Name", [CStr title]); ("MC_USD_Billion", [CNum mc])].

(** The body of [for row in rows]. *)
Fixpoint extract_rows (E : Env) (rows : list Node) (df : Frame) : Exn + Frame :=
  match rows with
  | [] => inr df
  | row :: rest =>
      let col := find_all "td" row in
      if negb (Nat.eqb (length col) 0) then
        let? df1 := data_dict E col in
        let? df' := concat df df1 in
        extract_rows E rest df'
      else extract_rows E rest df
  end.

(** A new DataFrame object. *)
Definition new_frame (df : Frame) : M nat :=
  fun s => (inr (length (heap s)), set_heap (heap s ++ [df]) s).

Definition extract (E : Env) (url : string) (table_attribs : list string) : M nat :=
  log_progress E "Starting data extraction" ;;
  let* soup := lift (get_soup E url) in
  let df := DataFrame_columns table_attribs in
  let tables := find_all "tbody" soup in
  let* tbody := lift (py_index tables 0) in
  let rows := find_all "tr" tbody in
  let* df := lift (extract_rows E rows df) in
  log_progress E "Data extraction complete" ;;
  new_frame df.

(** ** Frames as objects *)

(** The frame a reference denotes; any other object cannot be
    subscripted as a frame. *)
Definition get_frame (df : nat) : M Frame :=
  fun s =>
    match heap s !! df with
    | Some f => (inr f, s)
    | None => (inl (mkExn TypeError "object is not a DataFrame"), s)
    end.

Definition put_frame (df : nat) (f : Frame) : M unit :=
  fun s => (inr tt, set_heap (<[df := f]> (heap s)) s).

(** [df[c]] *)
Definition getitem (f : Frame) (c : string) : Exn + list Cell :=
  match column f c with
  | Some v => inr v
  | None => inl (mkExn KeyError (repr c))
  end.

(** The frame after [df[c] = v]: an existing column is replaced where it
    stands, a new one is added last. *)
Fixpoint set_column (f : Frame) (c : string) (v : list Cell) : Frame :=
  match f with
  | [] => [(c, v)]
  | (c', v') :: rest =>
      if String.eqb c' c then (c, v) :: rest
      else (c', v') :: set_column rest c v
  end.

(** [df[c] = v]: the object itself is updated. *)
Definition setitem (df : nat) (c : string) (v : list Cell) : M unit :=
  let* f := get_frame df in
  put_frame df (set_column f c v).

(** ** Arithmetic on columns *)

Definition float_of_int (n : nat) : float :=
  PrimFloat.of_uint63 (Uint63.of_Z (Z.of_nat n)).

(** [x * rate] for one cell; [None] counts as missing and gives NaN. *)
Definition cell_mul (c : Cell) (rate : float) : Exn + float :=
  match c with
  | CNum x => inr (PrimFloat.mul x rate)
  | CInt n => inr (PrimFloat.mul (float_of_int n) rate)
  | CStr _ =>
      inl (mkExn TypeError "can't multiply sequence by non-int of type 'float'")
  | CNull => inr PrimFloat.nan
  end.

(** [series * rate] *)
Fixpoint series_mul (v : list Cell) (rate : float) : Exn + list float :=
  match v with
  | [] => inr []
  | c :: rest =>
      let? x := cell_mul c rate in
      let? xs := series_mul rest rate in
      inr (x :: xs)
  end.

(** The integer nearest to [num / den], the even one when two are
    equally near. *)
Definition nearest_even (num den : Z) : Z :=
  let q := (num / den)%Z in
  let r := (num mod den)%Z in
  if (2 * r <? den)%Z then q
  else if (den <? 2 * r)%Z then (q + 1)%Z
  else if Z.even q then q else (q + 1)%Z.

(** The float of the integer [n], below [2^53], with the sign [neg]. *)
Definition integer_float (neg : bool) (n : Z) : float :=
  let a := PrimFloat.of_uint63 (Uint63.of_Z n) in
  if neg then PrimFloat.opp a else a.

(** [rint]: the nearest integer, ties to even, with the sign of [x].  A
    finite float is [m * 2^e]; it has a fractional part only when [e < 0].
    Zeros, infinities and NaN come back as they are. *)
Definition rint (x : float) : float :=
  match Prim2SF x with
  | S754_finite neg m e =>
      if (e <? 0)%Z then integer_float neg (nearest_even (Z.pos m) (2 ^ (- e)))
      else x
  | _ => x
  end.

(** [x.round(2)] of numpy: scale by [10**2], [rint], scale back. *)
Definition round2 (x : float) : float :=
  PrimFloat.div (rint (PrimFloat.mul x 100%float)) 100%float.

(** [series.round(2)] *)
Definition series_round2 (v : list float) : list Cell :=
  map (fun x => CNum (round2 x)) v.

(** ** Task 3: transformation *)

Definition currencies : list string := ["GBP"; "EUR"; "INR"].

(** [exchange_rate[currency]] *)
Definition rate_of (exchange_rate : gmap string float) (currency : string)
  : Exn + float :=
  match exchange_rate !! currency with
  | Some r => inr r
  | None => inl (mkExn KeyError (repr currency))
  end.

(** [f"MC_{currency}_Billion"] *)
Definition mc_label (currency : string) : string :=
  "MC_" +:+ currency +:+ "_Billion".

(** The body of [for currency in currencies]. *)
Definition convert (df : nat) (exchange_rate : gmap string float)
    (currency : string) : M unit :=
  let* f := get_frame df in
  let* usd := lift (getitem f "MC_USD_Billion") in
  let* rate := lift (rate_of exchange_rate currency) in
  let* product := lift (series_mul usd rate) in
  setitem df (mc_label currency) (series_round2 product).

Fixpoint for_each {A} (l : list A) (body : A -> M unit) : M unit :=
  match l with
  | [] => ret tt
  | x :: rest => body x ;; for_each rest body
  end.

Definition transform_body (E : Env) (df : nat) (csv_path : string) : M nat :=
  log_progress E "Starting data transformation" ;;
  let* exchange_rate := lift (read_rates E csv_path) in
  for_each currencies (convert df exchange_rate) ;;
  log_progress E "Data transformation complete" ;;
  ret df.

Definition transform (E : Env) (df : nat) (csv_path : string) : M nat :=
  try_except (transform_body E df csv_path)
    (fun e =>
       log_progress E ("Error during transformation: " +:+ exn_str e) ;;
       raise e).

(** ** Task 4: loading to CSV *)

(** [df.to_csv(output_path, index=False)] *)
Definition to_csv (E : Env) (df : nat) (output_path : string) : M unit :=
  let* f := get_frame df in
  match to_csv_fault E output_path with
  | Some e => raise e
  | None => fun s => (inr tt, set_csv_files (<[output_path := f]> (csv_files s)) s)
  end.

Definition load_to_csv_body (E : Env) (df : nat) (output_path : string) : M unit :=
  log_progress E "Saving data to CSV file" ;;
  to_csv E df output_path ;;
  log_progress E ("Data saved to CSV file: " +:+ output_path).

Definition load_to_csv (E : Env) (df : nat) (output_path : string) : M unit :=
  try_except (load_to_csv_body E df output_path)
    (fun e =>
       log_progress E ("Error while saving to CSV: " +:+ exn_str e) ;;
       raise e).

(** ** The relational store

    The engine is outside the repository.  What follows is the meaning of
    the calls the script makes: [to_sql] with [if_exists='replace'], and
    the five shapes of [SELECT] statement it issues.  A statement of any
    other shape is answered with [DatabaseError]. *)

Definition closed_database : Exn :=
  mkExn ProgrammingError "Cannot operate on a closed database.".

(** [sqlite3.connect('Banks.db')] *)
Definition sqlite3_connect (E : Env) : M nat :=
  fun s =>
    match connect_fault E with
    | Some e => (inl e, s)
    | None => (inr (length (conns s)), set_conns (conns s ++ [true]) s)
    end.

(** [sql_connection.close()]; closing twice is allowed. *)
Definition connection_close (conn : nat) : M unit :=
  fun s => (inr tt, set_conns (<[conn := false]> (conns s)) s).

Definition check_open (conn : nat) : M unit :=
  fun s =>
    match conns s !! conn with
    | Some true => (inr tt, s)
    | _ => (inl closed_database, s)
    end.

(** A value as the store keeps it: NaN is stored as NULL. *)
Definition sql_value (c : Cell) : Cell :=
  match c with
  | CNum x => if PrimFloat.is_nan x then CNull else CNum x
  | _ => c
  end.

Definition sql_table (f : Frame) : Frame :=
  map (fun '(c, v) => (c, map sql_value v)) f.

(** [df.to_sql(name=table_name, con=sql_connection, if_exists='replace',
    index=False, dtype=...)]: a table of that name is dropped, and the
    table is created from the frame. *)
Definition to_sql_replace (df : nat) (conn : nat) (table_name : string) : M unit :=
  let* f := get_frame df in
  check_open conn ;;
  fun s => (inr tt, set_db (<[table_name := sql_table f]> (db s)) s).

(** The errors of [sqlite3] on a statement. *)
Definition no_such_table (t : string) : Exn :=
  mkExn OperationalError ("no such table: " +:+ t).
Definition no_such_column (c : string) : Exn :=
  mkExn OperationalError ("no such column: " +:+ c).

Definition table_of (d : gmap string Frame) (t : string) : Exn + Frame :=
  match d !! t with
  | Some f => inr f
  | None => inl (no_such_table t)
  end.

(** [LIMIT n] *)
Definition limit (n : nat) (f : Frame) : Frame :=
  map (fun '(c, v) => (c, take n v)) f.

(** The number a value counts for in an aggregate; [None] for NULL. Text
    counts as zero (the REAL columns of this pipeline hold no text). *)
Definition sql_number (c : Cell) : option float :=
  match c with
  | CNum x => Some x
  | CInt n => Some (float_of_int n)
  | CStr _ => Some 0%float
  | CNull => None
  end.

(** [AVG] of a column: the sum of the values that are not NULL over
    their number, NULL when there is none. *)
Definition sql_avg (v : list Cell) : Cell :=
  let xs := omap sql_number v in
  match xs with
  | [] => CNull
  | _ => CNum (PrimFloat.div (fold_left PrimFloat.add xs 0%float)
                             (float_of_int (length xs)))
  end.

(** [tok] is [f(arg)]: the argument. *)
Definition call_arg (f : string) (tok : string) : option string :=
  let n := String.length f in
  let m := String.length tok in
  if String.prefix (f +:+ "(") tok && String.eqb (substring (m - 1) 1 tok) ")"
  then Some (substring (n + 1) (m - n - 2) tok)
  else None.

Definition nat_of_string (s : string) : option nat :=
  Nat.of_uint <$> NilZero.uint_of_string s.

Definition string_of_nat (n : nat) : string :=
  NilZero.string_of_uint (Nat.to_uint n).

(** What SQLite answers to the statements of the script, on the tables
    [d]: the rows, or its error.  Names are compared as they are written.
    [None] for a statement of another shape. *)
Definition select (d : gmap string Frame) (query : string) : option (Exn + Frame) :=
  match String.words query with
  | ["SELECT"; "*"; "FROM"; t] => Some (table_of d t)
  | ["SELECT"; what; "FROM"; t; "LIMIT"; n] =>
      match nat_of_string n with
      | None => None
      | Some n =>
          Some (let? f := table_of d t in
                if String.eqb what "*" then inr (limit n f)
                else
                  match column f what with
                  | Some v => inr [(what, take n v)]
                  | None => inl (no_such_column what)
                  end)
      end
  | ["SELECT"; agg; "AS"; alias; "FROM"; t] =>
      if String.eqb agg "COUNT(*)" then
        Some (let? f := table_of d t in
              inr [(alias, [CInt (nrows f)])])
      else
        match call_arg "AVG" agg with
        | Some c =>
            Some (let? f := table_of d t in
                  match column f c with
                  | Some v => inr [(alias, [sql_avg v])]
                  | None => inl (no_such_column c)
                  end)
        | None => None
        end
  | _ => None
  end.

(** The error [pd.read_sql] makes of an error of [sqlite3]. *)
Definition execution_failed (query : string) (e : Exn) : Exn :=
  mkExn DatabaseError
    ("Execution failed on sql '" +:+ query +:+ "': " +:+ exn_str e).

Definition is_number (c : Cell) : bool :=
  match c with
  | CNum _ | CInt _ => true
  | _ => false
  end.

Definition is_null (c : Cell) : bool :=
  match c with
  | CNull => true
  | _ => false
  end.

(** A column as [pd.read_sql] hands it over.  Fetched values are Python
    objects, NULL being [None]; a column of numbers and [None], with a
    number in it, is made a float64 column, where [None] is NaN. *)
Definition fetched_column (v : list Cell) : list Cell :=
  if existsb is_number v && existsb is_null v
     && forallb (fun c => is_number c || is_null c) v
  then map (fun c => match c with
                     | CNull => CNum PrimFloat.nan
                     | CInt n => CNum (float_of_int n)
                     | _ => c
                     end) v
  else v.

Definition fetched (f : Frame) : Frame :=
  map (fun '(c, v) => (c, fetched_column v)) f.

(** [pd.read_sql(query, sql_connection)] *)
Definition read_sql (E : Env) (query : string) (conn : nat) : M Frame :=
  check_open conn ;;
  fun s =>
    let answer :=
      match select (db s) query with
      | Some r => r
      | None => sqlite_other E (db s) query
      end in
    (match answer with
     | inr f => inr (fetched f)
     | inl e => inl (execution_failed query e)
     end, s).

(** [result.iloc[0, 0]] *)
Definition iloc00 (f : Frame) : Exn + Cell :=
  match f with
  | (_, c :: _) :: _ => inr c
  | _ => inl (mkExn IndexError "single positional indexer is out-of-bounds")
  end.

(** [str(c)] *)
Definition cell_str (E : Env) (c : Cell) : string :=
  match c with
  | CStr s => s
  | CNum x => float_str E x
  | CInt n => string_of_nat n
  | CNull => "None"
  end.

(** ** Task 5: loading to the database *)

Definition load_to_db_body (E : Env) (df conn : nat) (table_name : string) : M unit :=
  log_progress E ("Starting to load data to " +:+ table_name +:+ " table") ;;
  to_sql_replace df conn table_name ;;
  log_progress E ("Data successfully loaded to " +:+ table_name +:+ " table") ;;
  let query := "SELECT COUNT(*) AS row_count FROM " +:+ table_name in
  let* result := read_sql E query conn in
  let* count := lift (iloc00 result) in
  log_progress E
    ("Verified " +:+ cell_str E count +:+ " rows loaded to " +:+ table_name).

Definition load_to_db (E : Env) (df conn : nat) (table_name : string) : M unit :=
  try_except (load_to_db_body E df conn table_name)
    (fun e =>
       log_progress E ("Error loading data to database: " +:+ exn_str e) ;;
       raise e).

(** ** Task 6: queries *)

Definition run_queries_body (E : Env) (query : string) (conn : nat) : M Frame :=
  log_progress E ("Executing query: " +:+ query) ;;
  let* result := read_sql E query conn in
  print (OutStr (nl +:+ "Query: " +:+ query)) ;;
  print (OutStr "Result:") ;;
  print (OutFrame result) ;;
  log_progress E "Query executed successfully" ;;
  ret result.

Definition run_queries (E : Env) (query : string) (conn : nat) : M Frame :=
  try_except (run_queries_body E query conn)
    (fun e =>
       log_progress E ("Query failed: " +:+ exn_str e) ;;
       print (OutStr ("Error executing query: " +:+ exn_str e)) ;;
       raise e).

(** ** The script *)

(** [name = x] at the top level. *)
Definition assign (name : string) (x : nat) : M unit :=
  fun s => (inr tt, set_globals (<[name := x]> (globals s)) s).

(** Reading the name [name]. *)
Definition global (name : string) : M nat :=
  fun s =>
    match globals s !! name with
    | Some x => (inr x, s)
    | None => (inl (mkExn NameError ("name " +:+ repr name +:+ " is not defined")), s)
    end.

(** [if name in locals(): body] *)
Definition if_bound (name : string) (body : M unit) : M unit :=
  fun s =>
    match globals s !! name with
    | Some _ => body s
    | None => (inr tt, s)
    end.

Definition url : string :=
  "https://web.archive.org/web/20230908091635/https://en.wikipedia.org/wiki/List_of_largest_banks".
Definition table_attribs : list string := ["Name"; "MC_USD_Billion"].
Definition output_csv_path : string := "Largest_banks_data.csv".
Definition sample_query : string := "SELECT * FROM Largest_banks LIMIT 5".
Definition query1 : string := "SELECT * FROM Largest_banks".
Definition query2 : string :=
  "SELECT AVG(MC_GBP_Billion) AS Avg_MC_GBP_Billion FROM Largest_banks".
Definition query3 : string := "SELECT Name FROM Largest_banks LIMIT 5".

(** [series.iloc[i]] *)
Definition iloc (v : list Cell) (i : nat) : Exn + Cell :=
  match v !! i with
  | Some c => inr c
  | None => inl (mkExn IndexError "single positional indexer is out-of-bounds")
  end.

(** [print(df)] shows the frame as it is at that moment. *)
Definition print_frame (df : nat) : M unit :=
  let* f := get_frame df in
  print (OutFrame f).

(** Lines 62-63: extraction; no handler around it. *)
Definition extraction (E : Env) : M unit :=
  let* df := extract E url table_attribs in
  assign "df_extracted" df ;;
  let* df_extracted := global "df_extracted" in
  print_frame df_extracted.

(** Lines 87-92. *)
Definition transformation_body (E : Env) : M unit :=
  let* df_extracted := global "df_extracted" in
  let* df := transform E df_extracted "exchange_rate.csv" in
  assign "df_transformed" df ;;
  let* df_transformed := global "df_transformed" in
  print_frame df_transformed ;;
  let* df_transformed := global "df_transformed" in
  let* f := get_frame df_transformed in
  let* eur := lift (getitem f "MC_EUR_Billion") in
  let* x := lift (iloc eur 4) in
  print (OutCell (nl +:+ "5th bank EUR value:") x).

Definition transformation (E : Env) : M unit :=
  try_except (transformation_body E)
    (fun e => print (OutStr ("Error during transformation: " +:+ exn_str e))).

(** Line 111: saving the file; no handler around it. *)
Definition file_save (E : Env) : M unit :=
  let* df_transformed := global "df_transformed" in
  load_to_csv E df_transformed output_csv_path.

(** Lines 150-177. *)
Definition store_load_body (E : Env) : M unit :=
  log_progress E "Initiating SQLite database connection" ;;
  let* c := sqlite3_connect E in
  assign "sql_connection" c ;;
  log_progress E "Successfully connected to Banks.db" ;;
  let* df_transformed := global "df_transformed" in
  let* sql_connection := global "sql_connection" in
  load_to_db E df_transformed sql_connection "Largest_banks" ;;
  let* sql_connection := global "sql_connection" in
  let* sample_data := read_sql E sample_query sql_connection in
  print (OutStr (nl +:+ "Sample data from database:")) ;;
  print (OutFrame sample_data) ;;
  log_progress E "Database operations completed successfully".

Definition store_load_finally (E : Env) : M unit :=
  if_bound "sql_connection"
    (let* sql_connection := global "sql_connection" in
     connection_close sql_connection ;;
     log_progress E "Database connection closed" ;;
     print (OutStr "Database connection closed")).

Definition store_load (E : Env) : M unit :=
  try_finally
    (try_except (store_load_body E)
       (fun e =>
          log_progress E ("Database operation failed: " +:+ exn_str e) ;;
          print (OutStr ("Error: " +:+ exn_str e))))
    (store_load_finally E).

(** Lines 207-231. *)
Definition queries_body (E : Env) : M unit :=
  log_progress E "Reconnecting to database for queries" ;;
  let* c := sqlite3_connect E in
  assign "sql_connection" c ;;
  let* sql_connection := global "sql_connection" in
  run_queries E query1 sql_connection ;;
  let* sql_connection := global "sql_connection" in
  run_queries E query2 sql_connection ;;
  let* sql_connection := global "sql_connection" in
  run_queries E query3 sql_connection ;;
  log_progress E "All queries executed".

Definition queries_finally (E : Env) : M unit :=
  if_bound "sql_connection"
    (let* sql_connection := global "sql_connection" in
     connection_close sql_connection ;;
     log_progress E "Database connection closed").

Definition queries (E : Env) : M unit :=
  try_finally
    (try_except (queries_body E)
       (fun e => log_progress E ("Database query error: " +:+ exn_str e)))
    (queries_finally E).

(** Lines 234-236: the log is read back and printed. *)
Definition verify_log : M unit :=
  fun s =>
    match log_sink s with
    | inl e => (inl e, s)
    | inr lines =>
        (inr tt, set_stdout (stdout s ++ [OutStr (String.concat "" lines)]) s)
    end.

(** The statements of the module, in order.  An exception that reaches
    this level ends the process. *)
Definition script (E : Env) : M unit :=
  extraction E ;;
  transformation E ;;
  file_save E ;;
  store_load E ;;
  queries E ;;
  verify_log.

(** ** A sample environment and sample inputs *)

Module Sample.

(** Numerals of the form [digits] or [digits.digits], read exactly when
    they are short enough for one division to round correctly. *)
Fixpoint scan (s : string) (m : N) (frac : option nat) : option (N * nat) :=
  match s with
  | EmptyString => Some (m, default 0 frac)
  | String c rest =>
      if Ascii.eqb c "." then
        match frac with
        | None => scan rest m (Some 0)
        | Some _ => None
        end
      else
        let d := (N_of_ascii c - 48)%N in
        if (N.leb 48 (N_of_ascii c) && N.leb d 9)%bool
        then scan rest (10 * m + d)%N (S <$> frac)
        else None
  end.

Definition decimal (s : string) : option float :=
  match s with
  | EmptyString => None
  | _ =>
      match scan s 0%N None with
      | Some (m, k) =>
          if (N.ltb m (2 ^ 53) && Nat.leb k 22)%bool
          then Some (PrimFloat.div (PrimFloat.of_uint63 (Uint63.of_Z (Z.of_N m)))
                       (PrimFloat.of_uint63 (Uint63.of_Z (10 ^ Z.of_nat k))))
          else None
      | None => None
      end
  end.

Definition stamp (k : nat) : string :=
  "2023-Sep-08-09:16:" +:+ (if Nat.ltb k 10 then "0" else "") +:+ string_of_nat k.

Definition rates : gmap string float :=
  <["GBP" := 0.8%float]> (<["EUR" := 0.93%float]> (<["INR" := 82.5%float]> ∅)).

Definition text (s : string) : Node := NavigableString s.
Definition elem (name : string) (cs : list Node) : Node := Tag name ∅ cs.
Definition link (title : string) (cs : list Node) : Node :=
  Tag "a" (<["title" := title]> ∅) cs.

(** A row of the table of banks: rank, flag and bank links, market
    capitalisation followed by a line break. *)
Definition bank_row (rank country bank mc : string) : Node :=
  elem "tr"
    [ elem "td" [text rank];
      elem "td" [elem "span" [link country []]; text " "; link bank [text bank]];
      elem "td" [text (mc +:+ nl)] ].

Definition header_row : Node :=
  elem "tr" [elem "th" [text "Rank"]; elem "th" [text "Bank name"];
             elem "th" [text "Market cap"]].

Definition table_body : Node :=
  elem "tbody"
    [ header_row;
      bank_row "1" "United States" "JPMorgan Chase" "100.0";
      bank_row "2" "United States" "Bank of America" "50.0";
      bank_row "3" "China" "ICBC" "10.0" ].

Definition page : Node := elem "[document]" [elem "table" [table_body]].

(** A page without any table. *)
Definition empty_page : Node := elem "[document]" [elem "p" [text "moved"]].

(** The outside world: a clock, the page served, the exchange-rate file,
    and the errors, if any, of writing the CSV file and of opening
    [Banks.db]. *)
Definition env_with_faults (soup : Exn + Node) (r : Exn + gmap string float)
    (csv_fault connect : option Exn) : Env :=
  {| now := stamp;
     get_soup := fun _ => soup;
     py_float := decimal;
     float_str := fun _ => "?";
     read_rates := fun _ => r;
     to_csv_fault := fun _ => csv_fault;
     connect_fault := connect;
     sqlite_other := fun _ _ => inl (mkExn OperationalError "syntax error") |}.

Definition env (soup : Exn + Node) (r : Exn + gmap string float) : Env :=
  env_with_faults soup r None None.

(** The sample page and the rates of the scenario; nothing fails. *)
Definition world : Env := env (inr page) (inr rates).

(** A rate table that has GBP only. *)
Definition gbp_only : gmap string float := <["GBP" := 0.8%float]> ∅.

Definition world_gbp_only : Env := env (inr page) (inr gbp_only).

(** A page without any table is served. *)
Definition world_empty_page : Env := env (inr empty_page) (inr rates).

Definition unable_to_open : Exn :=
  mkExn DatabaseError "unable to open database file".

(** [Banks.db] is out of reach. *)
Definition world_without_database : Env :=
  env_with_faults (inr page) (inr rates) None (Some unable_to_open).

Definition disk_full : Exn := mkExn OSError "[Errno 28] No space left on device".

(** The CSV file cannot be written. *)
Definition world_disk_full : Env :=
  env_with_faults (inr page) (inr rates) (Some disk_full) None.

(** The process at its start, the log file empty and writable. *)
Definition start : State :=
  {| log_sink := inr []; ticks := 0; stdout := []; heap := [];
     csv_files := ∅; db := ∅; conns := []; globals := ∅ |}.

Definition permission_denied : Exn :=
  mkExn OSError "[Errno 13] Permission denied: 'code_log.txt'".

(** The process at its start, the log file not writable. *)
Definition start_readonly : State := set_log (inl permission_denied) start.

(** The frame of extracted records with the given names and values. *)
Definition extracted (names : list string) (usd : list float) : Frame :=
  [("Name", map CStr names); ("MC_USD_Billion", map CNum usd)].

(** One extracted record. *)
Definition one_bank : Frame := extracted ["ICBC"] [10%float].

(** The process holding one extracted frame. *)
Definition holding (f : Frame) : State := set_heap [f] start.

(** The process holding one frame and an open connection. *)
Definition connected (f : Frame) : State := set_conns [true] (holding f).

End Sample.

(** ** Vocabulary of the statements *)

(** The line written for [message] at the k-th reading of the clock. *)
Definition log_line (E : Env) (k : nat) (message : string) : string :=
  now E k +:+ " : " +:+ message +:+ nl.

(** The log file accepts writes. *)
Definition writable (s : State) : Prop := exists lines, log_sink s = inr lines.

(** [(usd * rate).round(2)] on a column of floats. *)
Definition derived (usd : list float) (rate : float) : list Cell :=
  map (fun x => CNum (round2 (PrimFloat.mul x rate))) usd.

(** [df[c].iloc[i]], when the column and the row exist. *)
Definition cell (f : Frame) (c : string) (i : nat) : option Cell :=
  match column f c with
  | Some v => v !! i
  | None => None
  end.

(** The rows of a table body that hold data cells, in page order. *)
Definition data_rows (tbody : Node) : list Node :=
  List.filter (fun row => negb (Nat.eqb (length (find_all "td" row)) 0))
    (find_all "tr" tbody).

(** The frame of one record, as [data_dict] builds it. *)
Abbreviation row_frame t x := [("Name", [CStr t]); ("MC_USD_Billion", [CNum x])].

(** [len(row.find_all("td")) != 0] *)
Abbreviation has_td :=
  (fun row : Node => negb (Nat.eqb (length (find_all "td" row)) 0)).

(** Every column of the frame has as many cells as the frame has rows. *)
Definition rectangular (f : Frame) : Prop :=
  Forall (fun p => length (snd p) = nrows f) f.

(** Running [m] leaves a writable log file writable. *)
Definition keeps {A} (m : M A) : Prop :=
  forall s, writable s -> writable (snd (m s)).

(** With a writable log file, [m] returns and leaves it writable. *)
Definition safe {A} (m : M A) : Prop :=
  forall s, writable s -> exists a s', m s = (inr a, s') /\ writable s'.

(** [n] is the integer nearest to [num / den], the even one when two are
    equally near. *)
Definition nearest_integer (num den n : Z) : Prop :=
  (2 * Z.abs (num - n * den) <= den)%Z /\
  ((2 * Z.abs (num - n * den) = den)%Z -> Z.even n = true).

(** [y] is [x] to two decimals the way [round(2)] gets there on a float64
    column.  With [c] the binary64 product [x * 100], which is [m * 2^e]:
    when [c] has a fractional part, [y] is the quotient by 100 of the
    integer nearest to [c], the even one on a tie; otherwise [y] is
    [c / 100]. *)
Definition rounded_by_scaling (x y : float) : Prop :=
  let c := PrimFloat.mul x 100 in
  match Prim2SF c with
  | S754_finite neg m e =>
      if (e <? 0)%Z then
        exists n : Z,
          nearest_integer (Z.pos m) (2 ^ (- e)) n /\
          y = PrimFloat.div (integer_float neg n) 100
      else y = PrimFloat.div c 100
  | _ => y = PrimFloat.div c 100
  end.

(** [round(x, 2 decimal places)] in the words of the specification, as
    Python's [round] gives it: the quotient by 100 of the integer nearest to
    [100 * x], the product taken exactly.  For magnitudes below [2^46]. *)
Definition round_2_decimal_places (x : float) : float :=
  match Prim2SF x with
  | S754_finite neg m e =>
      if (e <? 0)%Z then
        PrimFloat.div
          (integer_float neg (nearest_even (100 * Z.pos m) (2 ^ (- e)))) 100
      else x
  | _ => x
  end.

(** The part [proj] of the state is the same after [m] as before, whether
    [m] returns or raises. *)
Definition untouched {A X} (proj : State -> X) (m : M A) : Prop :=
  forall s, proj (snd (m s)) = proj s.

(** [proj] does not look at the field written by [set]. *)
Definition ignores {V X} (set : V -> State -> State) (proj : State -> X) : Prop :=
  forall v s, proj (set v s) = proj s.

(** The list [proj] of the state only gets longer through [m]: what it
    held stays, in place. *)
Definition grows {A X} (proj : State -> list X) (m : M A) : Prop :=
  forall s, proj s `prefix_of` proj (snd (m s)).

(** A frame of bank records: no label twice, as many cells in every
    column, the names as text under [Name] and numbers under every other
    label. *)
Definition bank_records (f : Frame) (names : list string) : Prop :=
  NoDup (columns f) /\ rectangular f /\
  column f "Name" = Some (map CStr names) /\
  forall c v, (c, v) ∈ f -> c <> "Name" -> exists xs, v = map CNum xs.

(** * Properties *)

(** ** The model at work *)

(** [rint] rounds halves to the even neighbour and keeps the sign. *)
Example rint_ties_to_even :
  rint 2.5%float = 2%float /\ rint 3.5%float = 4%float /\
  rint (-2.5)%float = (-2)%float /\ rint (-0.3)%float = (-0)%float.
Proof. repeat split. Qed.

(** [round(2)] scales, rounds and scales back: 0.125 goes to 0.12, and
    2.675, whose product with 100 rounds up to 267.5, goes to 2.68. *)
Example round2_samples :
  round2 0.125%float = 0.12%float /\ round2 2.675%float = 2.68%float /\
  round2 (PrimFloat.mul 10 0.93)%float = 9.3%float.
Proof. repeat split. Qed.

(** Rounding the number itself: 2.675 is a little below 2.675 in binary64
    and goes to 2.67. *)
Example round_2_decimal_places_samples :
  round_2_decimal_places 0.125%float = 0.12%float /\
  round_2_decimal_places 2.675%float = 2.67%float /\
  round_2_decimal_places (PrimFloat.mul 10 0.93)%float = 9.3%float.
Proof. repeat split. Qed.

Example drop_last_samples :
  drop_last ("432.92" +:+ nl) = "432.92" /\ drop_last "" = "".
Proof. split; reflexivity. Qed.

(** [find_all] looks below the cells too, in document order: the second
    hyperlink of a bank's cell is the bank, the first being the flag. *)
Example second_link_of_sample_row :
  find_all "a"
    (Sample.elem "td"
       [Sample.elem "span" [Sample.link "China" []]; Sample.text " ";
        Sample.link "ICBC" [Sample.text "ICBC"]]) !! 1
  = Some (Sample.link "ICBC" [Sample.text "ICBC"]).
Proof. reflexivity. Qed.

(** On the sample page the whole script runs to its end. *)
Example script_completes_on_sample_page :
  fst (script Sample.world Sample.start)
  = inr tt.
Proof. vm_compute. reflexivity. Qed.

(** ** Running a computation step by step *)

Lemma bind_ok {A B} (m : M A) (k : A -> M B) s a s1 :
  m s = (inr a, s1) -> bind m k s = k a s1.
Proof. intros H. unfold bind. rewrite H. reflexivity. Qed.

Lemma bind_raise {A B} (m : M A) (k : A -> M B) s e s1 :
  m s = (inl e, s1) -> bind m k s = (inl e, s1).
Proof. intros H. unfold bind. rewrite H. reflexivity. Qed.

Lemma bind_assoc {A B C} (m : M A) (k : A -> M B) (k' : B -> M C) s :
  bind (bind m k) k' s = bind m (fun a => bind (k a) k') s.
Proof. unfold bind. destruct (m s) as [[e|a] s1]; reflexivity. Qed.

Lemma try_except_returns {A} (body : M A) handler s a s1 :
  body s = (inr a, s1) -> try_except body handler s = (inr a, s1).
Proof. intros H. unfold try_except. rewrite H. reflexivity. Qed.

Lemma try_except_handles {A} (body : M A) handler s e s1 :
  body s = (inl e, s1) -> try_except body handler s = handler e s1.
Proof. intros H. unfold try_except. rewrite H. reflexivity. Qed.

(** ** The logger *)

Lemma log_progress_writable E message s lines :
  log_sink s = inr lines ->
  log_progress E message s =
    (inr tt, set_log (inr (lines ++ [log_line E (ticks s) message]))
               (set_ticks (S (ticks s)) s)).
Proof.
  intros H. unfold log_progress, bind, datetime_now_strftime, log_file_append.
  simpl. rewrite H. reflexivity.
Qed.

Lemma log_progress_broken E message s e :
  log_sink s = inl e ->
  log_progress E message s = (inl e, set_ticks (S (ticks s)) s).
Proof.
  intros H. unfold log_progress, bind, datetime_now_strftime, log_file_append.
  simpl. rewrite H. reflexivity.
Qed.

(** The handler shared by the stages: log, then re-raise. *)
Lemma log_then_raise {A} E message e s lines :
  log_sink s = inr lines ->
  (log_progress E message ;; @raise A e) s =
    (inl e, set_log (inr (lines ++ [log_line E (ticks s) message]))
              (set_ticks (S (ticks s)) s)).
Proof.
  intros H. rewrite (bind_ok _ _ _ _ _ (log_progress_writable _ _ _ _ H)).
  reflexivity.
Qed.

(** C8, as the code has it: [log_progress] appends the line
    ["<timestamp> : <message>\n"] and returns when the log file accepts the
    write; when opening or writing the file raises an error, nothing is
    swallowed: [log_progress] raises that error to its caller and the file
    is left as it was.  Nothing else is touched in either case. *)
Theorem log_progress_appends_or_raises (E : Env) (message : string) (s : State) :
  (forall lines, log_sink s = inr lines ->
     exists s', log_progress E message s = (inr tt, s') /\
       log_sink s' = inr (lines ++ [now E (ticks s) +:+ " : " +:+ message +:+ nl])) /\
  (forall e, log_sink s = inl e ->
     exists s', log_progress E message s = (inl e, s') /\ log_sink s' = inl e) /\
  (let s' := snd (log_progress E message s) in
   stdout s' = stdout s /\ heap s' = heap s /\ csv_files s' = csv_files s /\
   db s' = db s /\ conns s' = conns s /\ globals s' = globals s).
Proof.
  split; [|split].
  - intros lines H. rewrite (log_progress_writable _ _ _ _ H). eauto.
  - intros e H. rewrite (log_progress_broken _ _ _ _ H).
    eexists. split; [reflexivity|]. exact H.
  - destruct (log_sink s) as [e|lines] eqn:H.
    + rewrite (log_progress_broken _ _ _ _ H). simpl. tauto.
    + rewrite (log_progress_writable _ _ _ _ H). simpl. tauto.
Qed.

Lemma log_progress_appends_or_raises_witness :
  (exists s', log_progress Sample.world
                "Starting data extraction" Sample.start = (inr tt, s') /\
     log_sink s' = inr ["2023-Sep-08-09:16:00 : Starting data extraction" +:+ nl]) /\
  (exists s', log_progress Sample.world
                "Starting data extraction" Sample.start_readonly
              = (inl Sample.permission_denied, s') /\
     log_sink s' = inl Sample.permission_denied).
Proof.
  split.
  - apply (proj1 (log_progress_appends_or_raises
                    Sample.world
                    "Starting data extraction" Sample.start) []).
    reflexivity.
  - apply (proj1 (proj2 (log_progress_appends_or_raises
                    Sample.world
                    "Starting data extraction" Sample.start_readonly))
             Sample.permission_denied).
    reflexivity.
Defined.

(** C8 fails as stated: with a log file that cannot be opened for
    appending, [log_progress] does not complete normally; the [OSError]
    reaches the caller. *)
Lemma log_progress_raises_on_readonly_log :
  fst (log_progress Sample.world
         "Starting data extraction" Sample.start_readonly)
  = inl Sample.permission_denied /\
  ~ (exists s', log_progress Sample.world
                  "Starting data extraction" Sample.start_readonly = (inr tt, s')).
Proof.
  split; [reflexivity|]. intros [s' H]. discriminate H.
Qed.

(** ** Frames and the transformation *)

Lemma column_set_column f c v c' :
  column (set_column f c v) c' = if String.eqb c c' then Some v else column f c'.
Proof.
  induction f as [|[c0 v0] rest IH]; simpl.
  - reflexivity.
  - destruct (String.eqb_spec c0 c) as [->|Hne]; simpl.
    + destruct (String.eqb_spec c c'); reflexivity.
    + rewrite IH. destruct (String.eqb_spec c0 c') as [->|]; [|reflexivity].
      destruct (String.eqb_spec c c'); [congruence|reflexivity].
Qed.

Lemma series_mul_floats usd rate :
  series_mul (map CNum usd) rate = inr (map (fun x => PrimFloat.mul x rate) usd).
Proof.
  induction usd as [|x xs IH]; simpl; [reflexivity|]. rewrite IH. reflexivity.
Qed.

Lemma convert_present df rates c r s f usd :
  heap s !! df = Some f ->
  column f "MC_USD_Billion" = Some (map CNum usd) ->
  rates !! c = Some r ->
  convert df rates c s =
    (inr tt, set_heap (<[df := set_column f (mc_label c) (derived usd r)]> (heap s)) s).
Proof.
  intros Hf Hc Hr.
  unfold convert, bind, get_frame, lift, getitem, rate_of, setitem, bind, get_frame, put_frame.
  rewrite Hf, Hc, Hr, series_mul_floats, Hf. unfold series_round2, derived.
  rewrite map_map. reflexivity.
Qed.

Lemma convert_missing df rates c s f usd :
  heap s !! df = Some f ->
  column f "MC_USD_Billion" = Some (map CNum usd) ->
  rates !! c = None ->
  convert df rates c s = (inl (mkExn KeyError (repr c)), s).
Proof.
  intros Hf Hc Hr.
  unfold convert, bind, get_frame, lift, getitem, rate_of.
  rewrite Hf, Hc, Hr. reflexivity.
Qed.

Lemma heap_insert_lookup (h : list Frame) df f f' :
  h !! df = Some f -> <[df := f']> h !! df = Some f'.
Proof. intros H. apply list_lookup_insert_eq. eapply lookup_lt_Some, H. Qed.

Lemma transform_body_returns E df csv_path s lines f usd rates g e i :
  log_sink s = inr lines ->
  heap s !! df = Some f ->
  column f "MC_USD_Billion" = Some (map CNum usd) ->
  read_rates E csv_path = inr rates ->
  rates !! "GBP" = Some g -> rates !! "EUR" = Some e -> rates !! "INR" = Some i ->
  transform_body E df csv_path s =
    (inr df,
     mkState
       (inr (lines ++ [log_line E (ticks s) "Starting data transformation";
                       log_line E (S (ticks s)) "Data transformation complete"]))
       (S (S (ticks s))) (stdout s)
       (<[df := set_column
                  (set_column (set_column f "MC_GBP_Billion" (derived usd g))
                     "MC_EUR_Billion" (derived usd e))
                  "MC_INR_Billion" (derived usd i)]> (heap s))
       (csv_files s) (db s) (conns s) (globals s)).
Proof.
  intros Hlog Hf Husd Hr Hg He Hi.
  unfold transform_body.
  rewrite (bind_ok _ _ _ _ _ (log_progress_writable _ _ _ _ Hlog)).
  unfold lift at 1. unfold bind at 1. rewrite Hr.
  unfold currencies. cbn [for_each].
  set (s1 := set_log _ _).
  assert (H1 : heap s1 !! df = Some f) by exact Hf.
  rewrite bind_assoc.
  rewrite (bind_ok _ _ _ _ _ (convert_present _ _ _ _ _ _ _ H1 Husd Hg)).
  rewrite bind_assoc.
  set (f1 := set_column f _ _) in *.
  set (s2 := set_heap _ s1).
  assert (H2 : heap s2 !! df = Some f1) by (eapply heap_insert_lookup, Hf).
  assert (Hu1 : column f1 "MC_USD_Billion" = Some (map CNum usd))
    by (unfold f1; rewrite column_set_column; exact Husd).
  rewrite (bind_ok _ _ _ _ _ (convert_present _ _ _ _ _ _ _ H2 Hu1 He)).
  rewrite bind_assoc.
  set (f2 := set_column f1 _ _) in *.
  set (s3 := set_heap _ s2).
  assert (H3 : heap s3 !! df = Some f2) by (eapply heap_insert_lookup, H2).
  assert (Hu2 : column f2 "MC_USD_Billion" = Some (map CNum usd))
    by (unfold f2; rewrite column_set_column; exact Hu1).
  rewrite (bind_ok _ _ _ _ _ (convert_present _ _ _ _ _ _ _ H3 Hu2 Hi)).
  rewrite (bind_ok _ _ _ _ _ (eq_refl : ret tt _ = (inr tt, _))).
  set (s4 := set_heap _ s3).
  assert (H4 : log_sink s4 = inr (lines ++ [log_line E (ticks s) "Starting data transformation"]))
    by reflexivity.
  rewrite (bind_ok _ _ _ _ _ (log_progress_writable _ _ _ _ H4)).
  unfold ret. f_equal. subst s4 s3 s2 s1.
  cbn [set_log set_heap set_ticks log_sink ticks stdout heap csv_files db conns
       globals].
  rewrite <- app_assoc, !list_insert_insert_eq. reflexivity.
Qed.

Lemma transform_body_raises E df csv_path s lines f usd rates pre c post :
  log_sink s = inr lines ->
  heap s !! df = Some f ->
  column f "MC_USD_Billion" = Some (map CNum usd) ->
  read_rates E csv_path = inr rates ->
  currencies = pre ++ c :: post ->
  Forall (fun c' => is_Some (rates !! c')) pre ->
  rates !! c = None ->
  exists f',
    transform_body E df csv_path s =
      (inl (mkExn KeyError (repr c)),
       mkState (inr (lines ++ [log_line E (ticks s) "Starting data transformation"]))
         (S (ticks s)) (stdout s) (<[df := f']> (heap s))
         (csv_files s) (db s) (conns s) (globals s)) /\
    (forall c' r, c' ∈ pre -> rates !! c' = Some r ->
       column f' (mc_label c') = Some (derived usd r)) /\
    (forall label, label ∉ map mc_label pre -> column f' label = column f label).
Proof.
  intros Hlog Hf Husd Hr Hcs Hpre Hc.
  unfold transform_body.
  rewrite (bind_ok _ _ _ _ _ (log_progress_writable _ _ _ _ Hlog)).
  unfold lift at 1. unfold bind at 1. rewrite Hr.
  set (s1 := set_log _ _).
  assert (H1 : heap s1 !! df = Some f) by exact Hf.
  unfold currencies in Hcs. unfold currencies. cbn [for_each].
  destruct pre as [|p1 pre]; simpl in Hcs; injection Hcs as ? Hcs; subst.
  { (* GBP is missing: nothing is added *)
    exists f. split; [|split].
    - rewrite bind_assoc.
      rewrite (bind_raise _ _ _ _ _ (convert_missing _ _ _ _ _ _ H1 Husd Hc)).
      unfold s1, set_log, set_ticks; simpl. rewrite (list_insert_id _ _ _ Hf).
      reflexivity.
    - intros c' r Hin. inversion Hin.
    - reflexivity. }
  apply Forall_cons in Hpre as [[g Hg] Hpre].
  rewrite bind_assoc.
  rewrite (bind_ok _ _ _ _ _ (convert_present _ _ _ _ _ _ _ H1 Husd Hg)).
  set (f1 := set_column f _ _) in *.
  set (s2 := set_heap _ s1).
  assert (H2 : heap s2 !! df = Some f1) by (eapply heap_insert_lookup, Hf).
  assert (Hu1 : column f1 "MC_USD_Billion" = Some (map CNum usd))
    by (unfold f1; rewrite column_set_column; exact Husd).
  destruct pre as [|p2 pre]; simpl in Hcs; injection Hcs as ? Hcs; subst.
  { (* EUR is missing: the GBP column stays *)
    exists f1. split; [|split].
    - rewrite bind_assoc.
      rewrite (bind_raise _ _ _ _ _ (convert_missing _ _ _ _ _ _ H2 Hu1 Hc)).
      reflexivity.
    - intros c' r Hin Hr'. apply list_elem_of_singleton in Hin as ->.
      unfold f1. rewrite column_set_column. simpl. congruence.
    - intros label Hl. unfold f1. rewrite column_set_column.
      destruct (String.eqb_spec (mc_label "GBP") label) as [<-|]; [|reflexivity].
      exfalso. apply Hl. left. }
  apply Forall_cons in Hpre as [[e He] Hpre].
  rewrite bind_assoc.
  rewrite (bind_ok _ _ _ _ _ (convert_present _ _ _ _ _ _ _ H2 Hu1 He)).
  set (f2 := set_column f1 _ _) in *.
  set (s3 := set_heap _ s2).
  assert (H3 : heap s3 !! df = Some f2) by (eapply heap_insert_lookup, H2).
  assert (Hu2 : column f2 "MC_USD_Billion" = Some (map CNum usd))
    by (unfold f2; rewrite column_set_column; exact Hu1).
  destruct pre as [|p3 pre]; simpl in Hcs; injection Hcs as ? Hcs; subst.
  { (* INR is missing: the GBP and EUR columns stay *)
    exists f2. split; [|split].
    - rewrite bind_assoc.
      rewrite (bind_raise _ _ _ _ _ (convert_missing _ _ _ _ _ _ H3 Hu2 Hc)).
      unfold s3, s2, s1, set_heap, set_log, set_ticks; simpl.
      rewrite list_insert_insert_eq. reflexivity.
    - intros c' r Hin Hr'. unfold f2, f1. rewrite !column_set_column.
      apply elem_of_cons in Hin as [->|Hin].
      + simpl. congruence.
      + apply list_elem_of_singleton in Hin as ->. simpl. congruence.
    - intros label Hl. unfold f2, f1. rewrite !column_set_column.
      destruct (String.eqb_spec (mc_label "EUR") label) as [<-|].
      { exfalso. apply Hl. right. left. }
      destruct (String.eqb_spec (mc_label "GBP") label) as [<-|]; [|reflexivity].
      exfalso. apply Hl. left. }
  destruct pre; discriminate.
Qed.

Lemma cell_derived f label usd rate k x :
  column f label = Some (derived usd rate) ->
  usd !! k = Some x ->
  cell f label k = Some (CNum (round2 (PrimFloat.mul x rate))).
Proof.
  intros Hc Hk. unfold cell. rewrite Hc. unfold derived.
  rewrite list_lookup_fmap, Hk. reflexivity.
Qed.

Lemma nearest_even_nearest num den :
  (0 < den)%Z -> nearest_integer num den (nearest_even num den).
Proof.
  intros Hden. unfold nearest_integer, nearest_even.
  pose proof (Z.div_mod num den ltac:(lia)) as Hdm.
  pose proof (Z.mod_pos_bound num den Hden) as Hr.
  set (q := (num / den)%Z) in *. set (r := (num mod den)%Z) in *.
  destruct (Z.ltb_spec (2 * r) den) as [H1|H1].
  { split; [nia|]. intros Heq. exfalso. nia. }
  destruct (Z.ltb_spec den (2 * r)) as [H2|H2].
  { split; [nia|]. intros Heq. exfalso. nia. }
  destruct (Z.even q) eqn:Hq.
  - split; [nia|]. intros _. exact Hq.
  - split; [nia|]. intros _.
    rewrite Z.even_add, Hq. reflexivity.
Qed.

(** [round2] gives the quotient by 100 of the integer nearest to the
    scaled float. *)
Lemma round2_rounded_by_scaling x : rounded_by_scaling x (round2 x).
Proof.
  unfold rounded_by_scaling, round2, rint.
  destruct (Prim2SF (PrimFloat.mul x 100)) as [sg|sg| |neg m e];
    try reflexivity.
  destruct (Z.ltb_spec e 0) as [He|He]; [|reflexivity].
  exists (nearest_even (Z.pos m) (2 ^ (- e))). split; [|reflexivity].
  apply nearest_even_nearest. apply Z.pow_pos_nonneg; lia.
Qed.

(** C1, as the code has it: on a frame of bank records (a float64 column
    [MC_USD_Billion]) and an exchange-rate table that has a rate for GBP,
    EUR and INR, [transform] returns, and in the frame it returns every
    record has, for each of the three currencies, the column
    [MC_<currency>_Billion] holding [round(2)] of the binary64 product
    [MC_USD_Billion * rates[currency]]: the product is scaled by 100 in
    binary64, taken to the nearest integer (the even one on a tie) and
    divided by 100.  The sign of the rates plays no part. *)
Theorem transform_converts_each_currency
    (E : Env) (df : nat) (csv_path : string) (s : State) (lines : list string)
    (f : Frame) (usd : list float) (rates : gmap string float)
    (gbp eur inr_ : float) :
  log_sink s = inr lines ->
  heap s !! df = Some f ->
  column f "MC_USD_Billion" = Some (map CNum usd) ->
  read_rates E csv_path = inr rates ->
  rates !! "GBP" = Some gbp ->
  rates !! "EUR" = Some eur ->
  rates !! "INR" = Some inr_ ->
  exists out s' f',
    transform E df csv_path s = (inr out, s') /\
    heap s' !! out = Some f' /\
    forall k x, usd !! k = Some x ->
      cell f' "MC_USD_Billion" k = Some (CNum x) /\
      exists g e i,
        cell f' "MC_GBP_Billion" k = Some (CNum g) /\
        cell f' "MC_EUR_Billion" k = Some (CNum e) /\
        cell f' "MC_INR_Billion" k = Some (CNum i) /\
        rounded_by_scaling (PrimFloat.mul x gbp) g /\
        rounded_by_scaling (PrimFloat.mul x eur) e /\
        rounded_by_scaling (PrimFloat.mul x inr_) i.
Proof.
  intros Hlog Hf Husd Hr Hg He Hi.
  eexists df, _, _. split; [|split].
  - unfold transform. apply try_except_returns.
    eapply transform_body_returns; eassumption.
  - simpl. eapply heap_insert_lookup, Hf.
  - intros k x Hk. split.
    { unfold cell. rewrite !column_set_column. simpl. rewrite Husd.
      rewrite list_lookup_fmap, Hk. reflexivity. }
    exists (round2 (PrimFloat.mul x gbp)), (round2 (PrimFloat.mul x eur)),
      (round2 (PrimFloat.mul x inr_)).
    repeat split; try apply round2_rounded_by_scaling.
    + apply (cell_derived _ _ usd); [|exact Hk]. rewrite !column_set_column. reflexivity.
    + apply (cell_derived _ _ usd); [|exact Hk]. rewrite !column_set_column. reflexivity.
    + apply (cell_derived _ _ usd); [|exact Hk]. rewrite !column_set_column. reflexivity.
Qed.

Lemma transform_converts_each_currency_witness :
  exists out s' f',
    transform Sample.world 0 "exchange_rate.csv"
      (Sample.holding Sample.one_bank) = (inr out, s') /\
    heap s' !! out = Some f' /\
    forall k x, [10%float] !! k = Some x ->
      cell f' "MC_USD_Billion" k = Some (CNum x) /\
      exists g e i,
        cell f' "MC_GBP_Billion" k = Some (CNum g) /\
        cell f' "MC_EUR_Billion" k = Some (CNum e) /\
        cell f' "MC_INR_Billion" k = Some (CNum i) /\
        rounded_by_scaling (PrimFloat.mul x 0.8%float) g /\
        rounded_by_scaling (PrimFloat.mul x 0.93%float) e /\
        rounded_by_scaling (PrimFloat.mul x 82.5%float) i.
Proof.
  apply (transform_converts_each_currency Sample.world 0 "exchange_rate.csv"
           (Sample.holding Sample.one_bank) []
           Sample.one_bank [10%float] Sample.rates);
    reflexivity.
Defined.

(** C1 fails as stated: [round(2)] is not the product rounded to two
    decimal places.  For 0.5 billion USD at the rate 0.93 the binary64
    product lies a little above 0.465, so that 0.47 is the nearest number
    with two decimals; scaled by 100 it becomes 46.5 exactly, a tie, and
    [transform] stores 0.46. *)
Lemma transform_rounds_the_scaled_product :
  exists s' f',
    transform Sample.world 0 "exchange_rate.csv"
      (Sample.holding (Sample.extracted ["ICBC"] [0.5%float]))
    = (inr 0, s') /\
    heap s' !! 0 = Some f' /\
    cell f' "MC_USD_Billion" 0 = Some (CNum 0.5%float) /\
    cell f' "MC_EUR_Billion" 0 = Some (CNum 0.46%float) /\
    PrimFloat.mul (PrimFloat.mul 0.5 0.93) 100 = 46.5%float /\
    round_2_decimal_places (PrimFloat.mul 0.5 0.93) = 0.47%float.
Proof.
  eexists _, _. repeat split.
Qed.

(** C5 fails as stated: [transform] assigns the new columns to the frame
    it was passed and returns that very object.  After the call the frame
    passed in (object 0, still the only frame there is) holds the three
    derived columns next to [Name] and [MC_USD_Billion]. *)
Lemma transform_mutates_its_input :
  exists s',
    transform Sample.world 0 "exchange_rate.csv"
      (Sample.holding Sample.one_bank) = (inr 0, s') /\
    heap s' =
      [ [("Name", [CStr "ICBC"]); ("MC_USD_Billion", [CNum 10%float]);
         ("MC_GBP_Billion", [CNum 8%float]); ("MC_EUR_Billion", [CNum 9.3%float]);
         ("MC_INR_Billion", [CNum 825%float])] ] /\
    columns <$> heap s' !! 0 <> Some ["Name"; "MC_USD_Billion"].
Proof.
  eexists. split; [reflexivity|]. split; [reflexivity|]. discriminate.
Qed.

(** C5, as the code has it: [transform] makes no copy.  It returns the
    reference it was given; no frame is created and no other frame is
    touched; the frame passed in has received the three derived columns,
    and its columns under any other label ([Name], [MC_USD_Billion]) are what
    they were. *)
Theorem transform_enriches_in_place
    (E : Env) (df : nat) (csv_path : string) (s : State) (lines : list string)
    (f : Frame) (usd : list float) (rates : gmap string float)
    (gbp eur inr_ : float) :
  log_sink s = inr lines ->
  heap s !! df = Some f ->
  column f "MC_USD_Billion" = Some (map CNum usd) ->
  read_rates E csv_path = inr rates ->
  rates !! "GBP" = Some gbp ->
  rates !! "EUR" = Some eur ->
  rates !! "INR" = Some inr_ ->
  exists s' f',
    transform E df csv_path s = (inr df, s') /\
    length (heap s') = length (heap s) /\
    (forall other, other <> df -> heap s' !! other = heap s !! other) /\
    heap s' !! df = Some f' /\
    column f' "MC_GBP_Billion" = Some (derived usd gbp) /\
    column f' "MC_EUR_Billion" = Some (derived usd eur) /\
    column f' "MC_INR_Billion" = Some (derived usd inr_) /\
    (forall label,
       label ∉ ["MC_GBP_Billion"; "MC_EUR_Billion"; "MC_INR_Billion"] ->
       column f' label = column f label).
Proof.
  intros Hlog Hf Husd Hr Hg He Hi.
  eexists _, _. split.
  { unfold transform. apply try_except_returns.
    eapply transform_body_returns; eassumption. }
  simpl. split; [apply length_insert|].
  split; [intros other Hne; apply list_lookup_insert_ne; congruence|].
  split; [eapply heap_insert_lookup, Hf|].
  rewrite !column_set_column. simpl. repeat split.
  intros label Hl. rewrite !column_set_column.
  destruct (String.eqb_spec "MC_INR_Billion" label) as [<-|].
  { exfalso. apply Hl. set_solver. }
  destruct (String.eqb_spec "MC_EUR_Billion" label) as [<-|].
  { exfalso. apply Hl. set_solver. }
  destruct (String.eqb_spec "MC_GBP_Billion" label) as [<-|]; [|reflexivity].
  exfalso. apply Hl. set_solver.
Qed.

Lemma transform_enriches_in_place_witness :
  exists s' f',
    transform Sample.world 0 "exchange_rate.csv"
      (Sample.holding Sample.one_bank) = (inr 0, s') /\
    length (heap s') = 1 /\
    (forall other, other <> 0 ->
       heap s' !! other
       = heap (Sample.holding Sample.one_bank) !! other) /\
    heap s' !! 0 = Some f' /\
    column f' "MC_GBP_Billion" = Some (derived [10%float] 0.8%float) /\
    column f' "MC_EUR_Billion" = Some (derived [10%float] 0.93%float) /\
    column f' "MC_INR_Billion" = Some (derived [10%float] 82.5%float) /\
    (forall label,
       label ∉ ["MC_GBP_Billion"; "MC_EUR_Billion"; "MC_INR_Billion"] ->
       column f' label = column Sample.one_bank label).
Proof.
  apply (transform_enriches_in_place Sample.world 0 "exchange_rate.csv"
           (Sample.holding Sample.one_bank) []
           Sample.one_bank [10%float] Sample.rates);
    reflexivity.
Defined.

(** C2 fails as stated: with [rates = {GBP: 0.8}], [transform] raises
    [KeyError('EUR')], a [LookupError], but by then the GBP column has been
    assigned: the record passed in carries [MC_GBP_Billion] after the failed
    call. *)
Lemma transform_missing_eur_leaves_gbp_column :
  exists e s',
    transform Sample.world_gbp_only 0 "exchange_rate.csv"
      (Sample.holding Sample.one_bank) = (inl e, s') /\
    e = mkExn KeyError "'EUR'" /\
    is_LookupError e = true /\
    heap s' =
      [ [("Name", [CStr "ICBC"]); ("MC_USD_Billion", [CNum 10%float]);
         ("MC_GBP_Billion", [CNum 8%float])] ] /\
    (heap s' !! 0) ≫= (fun f => cell f "MC_GBP_Billion" 0) = Some (CNum 8%float).
Proof.
  eexists _, _. split; [reflexivity|]. repeat split.
Qed.

(** C2, as the code has it: when the exchange-rate table lacks one of the
    currencies GBP, EUR, INR, let [c] be the first one missing in that
    order.  [transform] logs the error and raises [KeyError(c)], a
    [LookupError], to its caller.  The frame passed in has by then received
    the derived column of every currency before [c], and only those: its
    columns under any other label are what they were.  So nothing is added
    when GBP is the missing one, and the enrichment is partial otherwise. *)
Theorem transform_missing_currency
    (E : Env) (df : nat) (csv_path : string) (s : State) (lines : list string)
    (f : Frame) (usd : list float) (rates : gmap string float)
    (pre : list string) (c : string) (post : list string) :
  log_sink s = inr lines ->
  heap s !! df = Some f ->
  column f "MC_USD_Billion" = Some (map CNum usd) ->
  read_rates E csv_path = inr rates ->
  currencies = pre ++ c :: post ->
  Forall (fun c' => is_Some (rates !! c')) pre ->
  rates !! c = None ->
  exists e s' f',
    transform E df csv_path s = (inl e, s') /\
    e = mkExn KeyError (repr c) /\
    is_LookupError e = true /\
    log_sink s' =
      inr (lines ++ [log_line E (ticks s) "Starting data transformation";
                     log_line E (S (ticks s))
                       ("Error during transformation: " +:+ repr c)]) /\
    heap s' !! df = Some f' /\
    (forall c' r, c' ∈ pre -> rates !! c' = Some r ->
       column f' (mc_label c') = Some (derived usd r)) /\
    (forall label, label ∉ map mc_label pre -> column f' label = column f label).
Proof.
  intros Hlog Hf Husd Hr Hcs Hpre Hc.
  destruct (transform_body_raises _ _ _ _ _ _ _ _ _ _ _ Hlog Hf Husd Hr Hcs Hpre Hc)
    as (f' & Hbody & Hin & Hout).
  eexists _, _, f'. split.
  { unfold transform. rewrite (try_except_handles _ _ _ _ _ Hbody).
    apply log_then_raise. reflexivity. }
  simpl. split; [reflexivity|]. split; [reflexivity|].
  split; [rewrite <- app_assoc; reflexivity|].
  split; [eapply heap_insert_lookup, Hf|]. split; assumption.
Qed.

Lemma transform_missing_currency_witness :
  exists e s' f',
    transform Sample.world_gbp_only 0 "exchange_rate.csv"
      (Sample.holding Sample.one_bank) = (inl e, s') /\
    e = mkExn KeyError (repr "EUR") /\
    is_LookupError e = true /\
    log_sink s' =
      inr ([] ++ [log_line Sample.world_gbp_only 0 "Starting data transformation";
                  log_line Sample.world_gbp_only 1
                    ("Error during transformation: " +:+ repr "EUR")]) /\
    heap s' !! 0 = Some f' /\
    (forall c' r, c' ∈ ["GBP"] -> Sample.gbp_only !! c' = Some r ->
       column f' (mc_label c') = Some (derived [10%float] r)) /\
    (forall label, label ∉ map mc_label ["GBP"] ->
       column f' label = column Sample.one_bank label).
Proof.
  apply (transform_missing_currency Sample.world_gbp_only 0 "exchange_rate.csv"
           (Sample.holding Sample.one_bank) []
           Sample.one_bank [10%float]
           Sample.gbp_only ["GBP"] "EUR" ["INR"]);
    try reflexivity.
  constructor; [exists 0.8%float; reflexivity | constructor].
Defined.

(** ** Concatenating a row *)

Lemma mem_string_elem_of c l : mem_string c l = true <-> c ∈ l.
Proof.
  unfold mem_string. rewrite existsb_exists. split.
  - intros (x & Hin & Heq). apply String.eqb_eq in Heq as ->.
    apply list_elem_of_In, Hin.
  - intros Hin. exists c. split; [apply list_elem_of_In, Hin|apply String.eqb_refl].
Qed.

Lemma column_of_labels (g : string -> list Cell) labels c :
  column (map (fun c => (c, g c)) labels) c =
    if mem_string c labels then Some (g c) else None.
Proof.
  induction labels as [|c0 rest IH]; simpl; [reflexivity|].
  rewrite (String.eqb_sym c c0).
  destruct (String.eqb_spec c0 c) as [->|]; simpl; [reflexivity|exact IH].
Qed.

Lemma length_column_or_nan f c :
  rectangular f -> length (column_or_nan f c) = nrows f.
Proof.
  intros Hrect. unfold column_or_nan.
  destruct (column f c) as [v|] eqn:Hc; [|apply repeat_length].
  unfold rectangular in Hrect. revert Hrect Hc. generalize (nrows f) as n.
  induction f as [|[c0 v0] rest IH]; simpl; intros n Hrect Hc; [discriminate|].
  apply Forall_cons in Hrect as [H0 Hrest].
  destruct (String.eqb c0 c); [injection Hc as <-; exact H0|].
  apply IH; assumption.
Qed.

Lemma nrows_of_labels (g : string -> list Cell) labels n :
  labels <> [] -> (forall c, length (g c) = n) ->
  nrows (map (fun c => (c, g c)) labels) = n /\
  rectangular (map (fun c => (c, g c)) labels).
Proof.
  intros Hne Hg. assert (Hn : nrows (map (fun c => (c, g c)) labels) = n).
  { destruct labels; [congruence|]. simpl. apply Hg. }
  split; [exact Hn|]. unfold rectangular. rewrite Hn.
  apply Forall_forall. intros [c v] Hin. apply list_elem_of_In, in_map_iff in Hin.
  destruct Hin as (c' & Heq & _). injection Heq as <- <-. simpl. apply Hg.
Qed.

Lemma NoDup_record_labels : NoDup ["Name"; "MC_USD_Billion"].
Proof.
  apply NoDup_cons. split; [|apply NoDup_singleton].
  intros Hin. apply list_elem_of_singleton in Hin. discriminate Hin.
Qed.


Lemma concat_row a t x a' :
  rectangular a ->
  concat a (row_frame t x) = inr a' ->
  rectangular a' /\ NoDup (columns a') /\ nrows a' = S (nrows a) /\
  column a' "Name" = Some (column_or_nan a "Name" ++ [CStr t]) /\
  column a' "MC_USD_Billion" = Some (column_or_nan a "MC_USD_Billion" ++ [CNum x]).
Proof.
  intros Hrect. unfold concat.
  case_bool_decide as Hcols.
  - (* the frame already has exactly the two columns of a record *)
    intros Heq. injection Heq as <-.
    destruct a as [|[c1 v1] [|[c2 v2] [|? ?]]]; try discriminate Hcols.
    simpl in Hcols. injection Hcols as -> ->.
    unfold rectangular in Hrect. simpl in Hrect.
    apply Forall_cons in Hrect as [_ Hrect]. apply Forall_cons in Hrect as [H2 _].
    simpl in H2. unfold column_or_nan. simpl. repeat split.
    + unfold rectangular. simpl. repeat constructor; simpl.
      rewrite !length_app, H2. reflexivity.
    + exact NoDup_record_labels.
    + rewrite length_app. simpl. lia.
  - destruct (bool_decide (NoDup (columns a)) &&
              bool_decide (NoDup (columns (row_frame t x)))) eqn:Hnd;
      [|discriminate].
    apply andb_prop in Hnd as [Hnd _]. apply bool_decide_eq_true in Hnd.
    match goal with |- inr (map _ ?l) = _ -> _ => set (labels := l) end.
    set (g := fun c => column_or_nan a c ++ column_or_nan (row_frame t x) c).
    intros Heq. injection Heq as <-.
    assert (Hg : forall c, length (g c) = S (nrows a)).
    { intros c. unfold g. rewrite length_app, (length_column_or_nan a c Hrect).
      rewrite (length_column_or_nan (row_frame t x) c); [simpl; lia|].
      unfold rectangular. simpl. repeat constructor. }
    assert (Hmem : forall c, c ∈ ["Name"; "MC_USD_Billion"] -> mem_string c labels = true).
    { intros c Hc. apply mem_string_elem_of. unfold labels.
      apply elem_of_app.
      destruct (mem_string c (columns a)) eqn:Hin.
      - left. apply mem_string_elem_of, Hin.
      - right. apply list_elem_of_In, filter_In. split.
        + apply list_elem_of_In. exact Hc.
        + rewrite Hin. reflexivity. }
    assert (Hne : labels <> []).
    { intros Heq. specialize (Hmem "Name"). rewrite Heq in Hmem.
      discriminate Hmem. left. }
    destruct (nrows_of_labels g labels _ Hne Hg) as [Hn Hr].
    split; [exact Hr|]. split.
    { unfold columns. rewrite map_map. simpl. rewrite map_id. unfold labels.
      apply NoDup_app. split; [exact Hnd|]. split.
      - intros c Hin Hin'. apply list_elem_of_In, filter_In in Hin' as [_ Hnot].
        apply mem_string_elem_of in Hin. rewrite Hin in Hnot. discriminate.
      - apply NoDup_ListNoDup, List.NoDup_filter, NoDup_ListNoDup.
        exact NoDup_record_labels. }
    split; [exact Hn|].
    rewrite !column_of_labels, !Hmem; [split; reflexivity | right; left | left].
Qed.

Lemma concat_row_total a t x :
  NoDup (columns a) -> exists a', concat a (row_frame t x) = inr a'.
Proof.
  intros Hnd. unfold concat. case_bool_decide; [eauto|].
  rewrite (bool_decide_eq_true_2 _ Hnd).
  rewrite bool_decide_eq_true_2; [eauto|]. exact NoDup_record_labels.
Qed.

(** ** One row *)

Lemma data_dict_inv E col fr :
  data_dict E col = inr fr <->
  exists c1 a title c2 text mc,
    col !! 1 = Some c1 /\
    find_all "a" c1 !! 1 = Some a /\
    get_attr a "title" = inr title /\
    col !! 2 = Some c2 /\
    contents c2 !! 0 = Some (NavigableString text) /\
    py_float E (drop_last text) = Some mc /\
    fr = row_frame title mc.
Proof.
  unfold data_dict, py_index, float_of_str. split.
  - destruct (col !! 1) as [c1|] eqn:H1; [|discriminate].
    destruct (find_all "a" c1 !! 1) as [a|] eqn:H2; [|discriminate].
    destruct (get_attr a "title") as [|title] eqn:H3; [discriminate|].
    destruct (col !! 2) as [c2|] eqn:H4; [|discriminate].
    destruct (contents c2 !! 0) as [[? ? ?|text]|] eqn:H5; try discriminate.
    simpl. destruct (py_float E (drop_last text)) as [mc|] eqn:Hmc; [|discriminate].
    intros [= <-]. exists c1, a, title, c2, text, mc. repeat split; assumption.
  - intros (c1 & a & title & c2 & text & mc & -> & -> & -> & -> & -> & Hmc & ->).
    simpl. rewrite Hmc. reflexivity.
Qed.


Lemma extract_rows_inv E rows : forall df df',
  rectangular df ->
  extract_rows E rows df = inr df' ->
  rectangular df' /\
  exists recs : list (string * float),
    Forall2 (fun row r => data_dict E (find_all "td" row) = inr (row_frame (fst r) (snd r)))
      (List.filter has_td rows) recs /\
    nrows df' = nrows df + length recs /\
    (recs = [] /\ df' = df \/
     column df' "Name"
       = Some (column_or_nan df "Name" ++ map (fun r => CStr (fst r)) recs) /\
     column df' "MC_USD_Billion"
       = Some (column_or_nan df "MC_USD_Billion" ++ map (fun r => CNum (snd r)) recs)).
Proof.
  induction rows as [|row rest IH]; intros df df' Hrect; simpl.
  - intros [= <-]. split; [exact Hrect|]. exists []. split; [constructor|].
    split; [simpl; lia|]. left. split; reflexivity.
  - destruct (negb (Nat.eqb (length (find_all "td" row)) 0)); [|apply IH, Hrect].
    destruct (data_dict E (find_all "td" row)) as [|df1] eqn:Hrow; [discriminate|].
    pose proof (proj1 (data_dict_inv _ _ _) Hrow)
      as (_ & _ & t & _ & _ & x & _ & _ & _ & _ & _ & _ & ->).
    destruct (concat df (row_frame t x)) as [|d1] eqn:Hcat; [discriminate|].
    destruct (concat_row _ _ _ _ Hrect Hcat) as (Hr1 & _ & Hn1 & Hname & Hmc).
    intros Hrest. destruct (IH _ _ Hr1 Hrest) as (Hr' & recs & Hall & Hn & Hcols).
    split; [exact Hr'|]. exists ((t, x) :: recs).
    split; [constructor; [exact Hrow|exact Hall]|].
    split; [simpl; lia|]. right.
    destruct Hcols as [[-> ->]|[Hname' Hmc']].
    + rewrite Hname, Hmc. split; reflexivity.
    + rewrite Hname', Hmc'. unfold column_or_nan at 1 3. rewrite Hname, Hmc.
      rewrite <- !app_assoc. split; reflexivity.
Qed.

Lemma extract_rows_total E rows : forall df,
  rectangular df -> NoDup (columns df) ->
  (forall row, row ∈ List.filter has_td rows ->
     exists fr, data_dict E (find_all "td" row) = inr fr) ->
  exists df', extract_rows E rows df = inr df'.
Proof.
  induction rows as [|row rest IH]; intros df Hrect Hnd Hrows; simpl; [eauto|].
  simpl in Hrows.
  destruct (negb (Nat.eqb (length (find_all "td" row)) 0)); [|apply IH; assumption].
  destruct (Hrows row) as [fr Hrow]; [left|]. rewrite Hrow.
  pose proof (proj1 (data_dict_inv _ _ _) Hrow)
    as (_ & _ & t & _ & _ & x & _ & _ & _ & _ & _ & _ & ->).
  destruct (concat_row_total df t x Hnd) as [d1 Hcat]. rewrite Hcat.
  destruct (concat_row _ _ _ _ Hrect Hcat) as (Hr1 & Hnd1 & _).
  apply IH; [exact Hr1|exact Hnd1|]. intros r Hin. apply Hrows. right. exact Hin.
Qed.

Lemma DataFrame_columns_empty attrs :
  rectangular (DataFrame_columns attrs) /\
  nrows (DataFrame_columns attrs) = 0 /\
  columns (DataFrame_columns attrs) = attrs /\
  forall c, column_or_nan (DataFrame_columns attrs) c = [].
Proof.
  assert (Hn : nrows (DataFrame_columns attrs) = 0) by (destruct attrs; reflexivity).
  split; [|split; [exact Hn|split]].
  - unfold rectangular. rewrite Hn. unfold DataFrame_columns.
    apply Forall_forall. intros [c v] Hin.
    apply list_elem_of_In, in_map_iff in Hin as (c' & [= <- <-] & _). reflexivity.
  - unfold columns, DataFrame_columns. rewrite map_map. apply map_id.
  - intros c. unfold column_or_nan. rewrite Hn.
    destruct (column (DataFrame_columns attrs) c) as [v|] eqn:Hc; [|reflexivity].
    induction attrs as [|a attrs IH]; simpl in Hc; [discriminate|].
    destruct (String.eqb a c); [injection Hc as <-; reflexivity|].
    apply IH; [destruct attrs; reflexivity|exact Hc].
Qed.

(** ** The whole extraction *)

Lemma extract_returns E url attrs s lines soup tbody f :
  log_sink s = inr lines ->
  get_soup E url = inr soup ->
  find_all "tbody" soup !! 0 = Some tbody ->
  extract_rows E (find_all "tr" tbody) (DataFrame_columns attrs) = inr f ->
  extract E url attrs s =
    (inr (length (heap s)),
     mkState
       (inr (lines ++ [log_line E (ticks s) "Starting data extraction";
                       log_line E (S (ticks s)) "Data extraction complete"]))
       (S (S (ticks s))) (stdout s) (heap s ++ [f])
       (csv_files s) (db s) (conns s) (globals s)).
Proof.
  intros Hlog Hsoup Htb Hrows. unfold extract.
  rewrite (bind_ok _ _ _ _ _ (log_progress_writable _ _ _ _ Hlog)).
  unfold lift, bind at 1. rewrite Hsoup.
  unfold bind at 1, py_index. rewrite Htb.
  unfold bind at 1. rewrite Hrows.
  erewrite bind_ok by (apply log_progress_writable; reflexivity).
  unfold new_frame. simpl. rewrite <- app_assoc. reflexivity.
Qed.

Lemma extract_inv E url attrs s df s' soup tbody :
  extract E url attrs s = (inr df, s') ->
  get_soup E url = inr soup ->
  find_all "tbody" soup !! 0 = Some tbody ->
  exists f,
    extract_rows E (find_all "tr" tbody) (DataFrame_columns attrs) = inr f /\
    heap s' !! df = Some f.
Proof.
  intros Hex Hsoup Htb. unfold extract in Hex.
  destruct (log_sink s) as [e|lines] eqn:Hlog.
  { rewrite (bind_raise _ _ _ _ _ (log_progress_broken _ _ _ _ Hlog)) in Hex.
    discriminate Hex. }
  rewrite (bind_ok _ _ _ _ _ (log_progress_writable _ _ _ _ Hlog)) in Hex.
  unfold lift, bind at 1 in Hex. rewrite Hsoup in Hex.
  unfold bind at 1, py_index in Hex. rewrite Htb in Hex.
  unfold bind at 1 in Hex.
  destruct (extract_rows E (find_all "tr" tbody) (DataFrame_columns attrs))
    as [|f] eqn:Hrows; [discriminate Hex|].
  erewrite bind_ok in Hex by (apply log_progress_writable; reflexivity).
  unfold new_frame in Hex. simpl in Hex. injection Hex as <- <-.
  exists f. split; [reflexivity|]. simpl.
  rewrite lookup_app_r by lia. rewrite Nat.sub_diag. reflexivity.
Qed.

(** What [extract_rows] leaves in a frame that started empty. *)
Lemma extract_rows_records E attrs tbody f :
  extract_rows E (find_all "tr" tbody) (DataFrame_columns attrs) = inr f ->
  nrows f = length (data_rows tbody) /\
  forall k row, data_rows tbody !! k = Some row ->
    exists name mc,
      data_dict E (find_all "td" row) = inr (row_frame name mc) /\
      cell f "Name" k = Some (CStr name) /\
      cell f "MC_USD_Billion" k = Some (CNum mc).
Proof.
  intros Hrows.
  destruct (DataFrame_columns_empty attrs) as (Hrect & Hn & _ & Hnan).
  destruct (extract_rows_inv _ _ _ _ Hrect Hrows) as (_ & recs & Hall & Hlen & Hcols).
  fold (data_rows tbody) in Hall. split.
  { rewrite Hlen, Hn. simpl. symmetry. eapply Forall2_length, Hall. }
  intros k row Hk.
  destruct (Forall2_lookup_l _ _ _ _ _ Hall Hk) as ([name mc] & Hr & Hrow).
  exists name, mc. split; [exact Hrow|].
  destruct Hcols as [[-> _]|[Hname Hmc]]; [discriminate Hr|].
  unfold cell. rewrite Hname, Hmc, !Hnan. simpl.
  rewrite !list_lookup_fmap, Hr. split; reflexivity.
Qed.

(** C3: in the frame [extract] returns, the record of the k-th row with
    data cells has as [Name] the [title] attribute of the second hyperlink
    inside the row's second data cell, and as [MC_USD_Billion] the
    [float] of the text that opens the row's third data cell with its last
    character dropped.  Conversely a row that has these parts yields
    exactly that record. *)
Theorem extract_record_fields
    (E : Env) (url : string) (attrs : list string) (s s' : State) (df : nat)
    (f : Frame) (soup tbody : Node) :
  extract E url attrs s = (inr df, s') ->
  heap s' !! df = Some f ->
  get_soup E url = inr soup ->
  find_all "tbody" soup !! 0 = Some tbody ->
  (forall k row, data_rows tbody !! k = Some row ->
     find_all "td" row <> [] /\
     exists c1 a title c2 text mc,
       find_all "td" row !! 1 = Some c1 /\
       find_all "a" c1 !! 1 = Some a /\
       get_attr a "title" = inr title /\
       find_all "td" row !! 2 = Some c2 /\
       contents c2 !! 0 = Some (NavigableString text) /\
       py_float E (drop_last text) = Some mc /\
       cell f "Name" k = Some (CStr title) /\
       cell f "MC_USD_Billion" k = Some (CNum mc)) /\
  (forall row c1 a title c2 text mc,
     find_all "td" row !! 1 = Some c1 ->
     find_all "a" c1 !! 1 = Some a ->
     get_attr a "title" = inr title ->
     find_all "td" row !! 2 = Some c2 ->
     contents c2 !! 0 = Some (NavigableString text) ->
     py_float E (drop_last text) = Some mc ->
     data_dict E (find_all "td" row)
     = inr [("Name", [CStr title]); ("MC_USD_Billion", [CNum mc])]).
Proof.
  intros Hex Hf Hsoup Htb. split.
  - intros k row Hk.
    destruct (extract_inv _ _ _ _ _ _ _ _ Hex Hsoup Htb) as (f0 & Hrows & Hf0).
    assert (f0 = f) as -> by congruence.
    destruct (proj2 (extract_rows_records _ _ _ _ Hrows) k row Hk)
      as (name & mc & Hrow & Hname & Hmc).
    split.
    { apply list_elem_of_lookup_2, list_elem_of_In, filter_In in Hk as [_ Hk].
      intros Hnil. rewrite Hnil in Hk. discriminate Hk. }
    apply data_dict_inv in Hrow
      as (c1 & a & title & c2 & text & x & H1 & H2 & H3 & H4 & H5 & H6 & [= -> ->]).
    exists c1, a, title, c2, text, x. repeat split; assumption.
  - intros row c1 a title c2 text mc H1 H2 H3 H4 H5 H6.
    apply data_dict_inv. exists c1, a, title, c2, text, mc. repeat split; assumption.
Qed.

(** C4: on a page whose first [tbody] has well-formed data rows (rows on
    which [data_dict] succeeds), [extract] returns a frame with exactly one
    record per row that has data cells, rows without data cells leaving no
    record, and the k-th record is the record of the k-th such row: the
    order of the page is kept. *)
Theorem extract_one_record_per_data_row
    (E : Env) (url : string) (attrs : list string) (s : State)
    (lines : list string) (soup tbody : Node) :
  log_sink s = inr lines ->
  NoDup attrs ->
  get_soup E url = inr soup ->
  find_all "tbody" soup !! 0 = Some tbody ->
  (forall row, row ∈ data_rows tbody ->
     exists fr, data_dict E (find_all "td" row) = inr fr) ->
  exists df s' f,
    extract E url attrs s = (inr df, s') /\
    heap s' !! df = Some f /\
    nrows f = length (data_rows tbody) /\
    forall k row, data_rows tbody !! k = Some row ->
      exists name mc,
        data_dict E (find_all "td" row)
        = inr [("Name", [CStr name]); ("MC_USD_Billion", [CNum mc])] /\
        cell f "Name" k = Some (CStr name) /\
        cell f "MC_USD_Billion" k = Some (CNum mc).
Proof.
  intros Hlog Hnd Hsoup Htb Hvalid.
  destruct (DataFrame_columns_empty attrs) as (Hrect & _ & Hcols & _).
  destruct (extract_rows_total E (find_all "tr" tbody) (DataFrame_columns attrs))
    as [f Hrows]; [exact Hrect|rewrite Hcols; exact Hnd|exact Hvalid|].
  exists (length (heap s)). eexists. exists f.
  split; [eapply extract_returns; eassumption|].
  split; [simpl; rewrite lookup_app_r by lia; rewrite Nat.sub_diag; reflexivity|].
  apply (extract_rows_records _ _ _ _ Hrows).
Qed.

Lemma extract_record_fields_witness :
  (forall k row, data_rows Sample.table_body !! k = Some row ->
     find_all "td" row <> [] /\
     exists c1 a title c2 text mc,
       find_all "td" row !! 1 = Some c1 /\
       find_all "a" c1 !! 1 = Some a /\
       get_attr a "title" = inr title /\
       find_all "td" row !! 2 = Some c2 /\
       contents c2 !! 0 = Some (NavigableString text) /\
       py_float Sample.world (drop_last text)
       = Some mc /\
       cell (Sample.extracted ["JPMorgan Chase"; "Bank of America"; "ICBC"]
               [100%float; 50%float; 10%float]) "Name" k = Some (CStr title) /\
       cell (Sample.extracted ["JPMorgan Chase"; "Bank of America"; "ICBC"]
               [100%float; 50%float; 10%float]) "MC_USD_Billion" k
       = Some (CNum mc)) /\
  (forall row c1 a title c2 text mc,
     find_all "td" row !! 1 = Some c1 ->
     find_all "a" c1 !! 1 = Some a ->
     get_attr a "title" = inr title ->
     find_all "td" row !! 2 = Some c2 ->
     contents c2 !! 0 = Some (NavigableString text) ->
     py_float Sample.world (drop_last text)
     = Some mc ->
     data_dict Sample.world (find_all "td" row)
     = inr [("Name", [CStr title]); ("MC_USD_Billion", [CNum mc])]).
Proof.
  apply (extract_record_fields
           Sample.world url table_attribs
           Sample.start
           (snd (extract Sample.world
                   url table_attribs Sample.start))
           0 _ Sample.page Sample.table_body);
    reflexivity.
Defined.

Lemma extract_one_record_per_data_row_witness :
  exists df s' f,
    extract Sample.world url table_attribs
      Sample.start = (inr df, s') /\
    heap s' !! df = Some f /\
    nrows f = length (data_rows Sample.table_body) /\
    forall k row, data_rows Sample.table_body !! k = Some row ->
      exists name mc,
        data_dict Sample.world
          (find_all "td" row)
        = inr [("Name", [CStr name]); ("MC_USD_Billion", [CNum mc])] /\
        cell f "Name" k = Some (CStr name) /\
        cell f "MC_USD_Billion" k = Some (CNum mc).
Proof.
  apply (extract_one_record_per_data_row
           Sample.world url table_attribs
           Sample.start [] Sample.page Sample.table_body);
    try reflexivity.
  - unfold table_attribs. exact NoDup_record_labels.
  - intros row Hrow. vm_compute in Hrow.
    repeat (apply elem_of_cons in Hrow as [->|Hrow]; [eexists; reflexivity|]).
    inversion Hrow.
Defined.

(** ** Stages that log and re-raise *)

(** The handler shared by the stages, after a body that raised [e]: the
    line is logged and [e] raised again; or the log file refuses the line
    and the error of the logger is raised in place of [e]. *)
Lemma handler_logs_then_raises {A} E (body : M A) (msg : Exn -> string) s e s1 :
  body s = (inl e, s1) ->
  exists s2,
    match log_sink s1 with
    | inr lines =>
        try_except body (fun e => log_progress E (msg e) ;; raise e) s = (inl e, s2) /\
        log_sink s2 = inr (lines ++ [log_line E (ticks s1) (msg e)])
    | inl refused =>
        try_except body (fun e => log_progress E (msg e) ;; raise e) s
        = (inl refused, s2) /\
        log_sink s2 = inl refused
    end.
Proof.
  intros Hbody. rewrite (try_except_handles _ _ _ _ _ Hbody).
  destruct (log_sink s1) as [refused|lines] eqn:Hlog.
  - rewrite (bind_raise _ _ _ _ _ (log_progress_broken _ _ _ _ Hlog)).
    eexists. split; [reflexivity|exact Hlog].
  - rewrite (log_then_raise _ _ _ _ _ Hlog). eexists. split; reflexivity.
Qed.

(** C6, as the code has it: [transform], [load_to_csv], [load_to_db] and
    [run_queries] run their body under a handler.  Whenever the body of one
    of them raises [e], the stage appends its error message, carrying
    [str(e)], to the log and raises that same [e] to its caller;
    [run_queries] prints the message as well.  When the log file refuses
    the line, the stage raises the error of the logger in place of [e],
    and nothing is logged or printed. *)
Theorem failing_stage_logs_then_reraises (E : Env) :
  (forall df csv_path s e s1,
     transform_body E df csv_path s = (inl e, s1) ->
     exists s2,
       match log_sink s1 with
       | inr lines =>
           transform E df csv_path s = (inl e, s2) /\
           log_sink s2 =
             inr (lines ++ [log_line E (ticks s1)
                              ("Error during transformation: " +:+ exn_str e)])
       | inl refused =>
           transform E df csv_path s = (inl refused, s2) /\
           log_sink s2 = inl refused
       end) /\
  (forall df output_path s e s1,
     load_to_csv_body E df output_path s = (inl e, s1) ->
     exists s2,
       match log_sink s1 with
       | inr lines =>
           load_to_csv E df output_path s = (inl e, s2) /\
           log_sink s2 =
             inr (lines ++ [log_line E (ticks s1)
                              ("Error while saving to CSV: " +:+ exn_str e)])
       | inl refused =>
           load_to_csv E df output_path s = (inl refused, s2) /\
           log_sink s2 = inl refused
       end) /\
  (forall df conn table_name s e s1,
     load_to_db_body E df conn table_name s = (inl e, s1) ->
     exists s2,
       match log_sink s1 with
       | inr lines =>
           load_to_db E df conn table_name s = (inl e, s2) /\
           log_sink s2 =
             inr (lines ++ [log_line E (ticks s1)
                              ("Error loading data to database: " +:+ exn_str e)])
       | inl refused =>
           load_to_db E df conn table_name s = (inl refused, s2) /\
           log_sink s2 = inl refused
       end) /\
  (forall query conn s e s1,
     run_queries_body E query conn s = (inl e, s1) ->
     exists s2,
       match log_sink s1 with
       | inr lines =>
           run_queries E query conn s = (inl e, s2) /\
           log_sink s2 =
             inr (lines ++ [log_line E (ticks s1) ("Query failed: " +:+ exn_str e)]) /\
           stdout s2 =
             stdout s1 ++ [OutStr ("Error executing query: " +:+ exn_str e)]
       | inl refused =>
           run_queries E query conn s = (inl refused, s2) /\
           log_sink s2 = inl refused /\
           stdout s2 = stdout s1
       end).
Proof.
  repeat split.
  - intros df csv_path s e s1 Hbody.
    apply (handler_logs_then_raises E _
             (fun e => "Error during transformation: " +:+ exn_str e) _ _ _ Hbody).
  - intros df output_path s e s1 Hbody.
    apply (handler_logs_then_raises E _
             (fun e => "Error while saving to CSV: " +:+ exn_str e) _ _ _ Hbody).
  - intros df conn table_name s e s1 Hbody.
    apply (handler_logs_then_raises E _
             (fun e => "Error loading data to database: " +:+ exn_str e)
             _ _ _ Hbody).
  - intros query conn s e s1 Hbody. unfold run_queries.
    rewrite (try_except_handles _ _ _ _ _ Hbody).
    destruct (log_sink s1) as [refused|lines] eqn:Hlog.
    + rewrite (bind_raise _ _ _ _ _ (log_progress_broken _ _ _ _ Hlog)).
      eexists. split; [reflexivity|]. split; [exact Hlog|reflexivity].
    + rewrite (bind_ok _ _ _ _ _ (log_progress_writable _ _ _ _ Hlog)).
      eexists. repeat split.
Qed.

Lemma failing_stage_logs_then_reraises_witness :
  (let s := Sample.holding Sample.one_bank in
   let e := mkExn KeyError "'EUR'" in
   let s1 := snd (transform_body Sample.world_gbp_only 0 "exchange_rate.csv" s) in
   exists s2,
     transform Sample.world_gbp_only 0 "exchange_rate.csv" s = (inl e, s2) /\
     log_sink s2 =
       inr (log_lines s1
            ++ [log_line Sample.world_gbp_only (ticks s1)
                  ("Error during transformation: " +:+ exn_str e)])) /\
  (let s := Sample.holding Sample.one_bank in
   let s1 := snd (load_to_csv_body Sample.world_disk_full 0 output_csv_path s) in
   exists s2,
     load_to_csv Sample.world_disk_full 0 output_csv_path s
     = (inl Sample.disk_full, s2) /\
     log_sink s2 =
       inr (log_lines s1
            ++ [log_line Sample.world_disk_full (ticks s1)
                  ("Error while saving to CSV: " +:+ exn_str Sample.disk_full)])) /\
  (let s := Sample.holding Sample.one_bank in
   let s1 := snd (load_to_db_body Sample.world 0 0 "Largest_banks" s) in
   exists s2,
     load_to_db Sample.world 0 0 "Largest_banks" s = (inl closed_database, s2) /\
     log_sink s2 =
       inr (log_lines s1
            ++ [log_line Sample.world (ticks s1)
                  ("Error loading data to database: "
                   +:+ exn_str closed_database)])) /\
  (let s := Sample.connected Sample.one_bank in
   let e := execution_failed query1 (no_such_table "Largest_banks") in
   let s1 := snd (run_queries_body Sample.world query1 0 s) in
   exists s2,
     run_queries Sample.world query1 0 s = (inl e, s2) /\
     log_sink s2 =
       inr (log_lines s1
            ++ [log_line Sample.world (ticks s1) ("Query failed: " +:+ exn_str e)]) /\
     stdout s2 = stdout s1 ++ [OutStr ("Error executing query: " +:+ exn_str e)]) /\
  (let s := set_log (inl Sample.permission_denied)
              (Sample.connected Sample.one_bank) in
   exists s2,
     run_queries Sample.world query1 0 s = (inl Sample.permission_denied, s2) /\
     log_sink s2 = inl Sample.permission_denied /\
     stdout s2 = stdout (snd (run_queries_body Sample.world query1 0 s))).
Proof.
  split; [|split; [|split; [|split]]]; cbv zeta.
  - refine (proj1 (failing_stage_logs_then_reraises Sample.world_gbp_only)
              0 "exchange_rate.csv" (Sample.holding Sample.one_bank)
              (mkExn KeyError "'EUR'")
              (snd (transform_body Sample.world_gbp_only 0 "exchange_rate.csv"
                      (Sample.holding Sample.one_bank))) _).
    vm_compute. reflexivity.
  - refine (proj1 (proj2 (failing_stage_logs_then_reraises Sample.world_disk_full))
              0 output_csv_path (Sample.holding Sample.one_bank) Sample.disk_full
              (snd (load_to_csv_body Sample.world_disk_full 0 output_csv_path
                      (Sample.holding Sample.one_bank))) _).
    vm_compute. reflexivity.
  - refine (proj1 (proj2 (proj2 (failing_stage_logs_then_reraises Sample.world)))
              0 0 "Largest_banks" (Sample.holding Sample.one_bank) closed_database
              (snd (load_to_db_body Sample.world 0 0 "Largest_banks"
                      (Sample.holding Sample.one_bank))) _).
    vm_compute. reflexivity.
  - refine (proj2 (proj2 (proj2 (failing_stage_logs_then_reraises Sample.world)))
              query1 0 (Sample.connected Sample.one_bank)
              (execution_failed query1 (no_such_table "Largest_banks"))
              (snd (run_queries_body Sample.world query1 0
                      (Sample.connected Sample.one_bank))) _).
    vm_compute. reflexivity.
  - refine (proj2 (proj2 (proj2 (failing_stage_logs_then_reraises Sample.world)))
              query1 0
              (set_log (inl Sample.permission_denied)
                 (Sample.connected Sample.one_bank))
              Sample.permission_denied
              (snd (run_queries_body Sample.world query1 0
                      (set_log (inl Sample.permission_denied)
                         (Sample.connected Sample.one_bank)))) _).
    vm_compute. reflexivity.
Defined.

(** C6 fails as stated.  [extract] has no handler: on a page without
    [tbody] it raises [IndexError] and the log holds its opening line only,
    no error message.  And a stage that has a handler cannot log either when
    the log file rejects the write: [transform] then raises the logger's
    [OSError] and the log stays empty. *)
Lemma extract_failure_is_not_logged :
  (exists s',
     extract Sample.world_empty_page url
       table_attribs Sample.start
     = (inl (mkExn IndexError "list index out of range"), s') /\
     log_sink s' = inr ["2023-Sep-08-09:16:00 : Starting data extraction" +:+ nl]) /\
  (exists s',
     transform Sample.world 0 "exchange_rate.csv"
       (set_log (inl Sample.permission_denied)
          (Sample.holding Sample.one_bank))
     = (inl Sample.permission_denied, s') /\
     log_lines s' = []).
Proof.
  split; eexists; split; reflexivity.
Qed.

(** ** Loading to the database *)

(** The table a load leaves, if it gets as far as [to_sql]. *)
Lemma load_to_db_effect E df conn table_name s :
  let s1 := snd (load_to_db E df conn table_name s) in
  heap s1 = heap s /\ conns s1 = conns s /\
  (forall e, log_sink s = inl e -> log_sink s1 = inl e) /\
  (writable s -> writable s1) /\
  db s1 =
    match log_sink s, heap s !! df, conns s !! conn with
    | inr _, Some f, Some true => <[table_name := sql_table f]> (db s)
    | _, _, _ => db s
    end.
Proof.
  destruct s as [lg tk out hp csv d cn g].
  unfold load_to_db, try_except, load_to_db_body, to_sql_replace, read_sql,
    check_open, get_frame, lift, bind, log_progress, datetime_now_strftime,
    log_file_append, raise, writable.
  simpl.
  destruct lg as [e|lines]; simpl.
  { repeat split; eauto; congruence. }
  destruct (hp !! df) as [f|]; simpl; [|repeat split; eauto; congruence].
  destruct (cn !! conn) as [[|]|] eqn:Hc; simpl; rewrite ?Hc; simpl;
    [|repeat split; eauto; congruence..].
  match goal with
  | |- context [match select ?d ?q with Some r => r | None => ?o end] =>
      destruct (match select d q with Some r => r | None => o end)
        as [e|result]; simpl; [repeat split; eauto; congruence|]
  end.
  destruct (iloc00 (fetched result)) as [e|c]; simpl;
    repeat split; eauto; congruence.
Qed.

Lemma nrows_sql_table f : nrows (sql_table f) = nrows f.
Proof. destruct f as [|[c v] rest]; simpl; [reflexivity|apply length_map]. Qed.

(** C7: loading the same frame into the same table twice in a row leaves
    the store exactly as loading it once: every table, so every query, is
    the same after the second load as after the first.  When the load gets
    through (log file writable, open connection) the table holds the rows
    of the frame and nothing else, whatever it held before: as many rows as
    the frame has, after one load and after two. *)
Theorem load_to_db_twice_is_once
    (E : Env) (df conn : nat) (table_name : string) (s : State) :
  let s1 := snd (load_to_db E df conn table_name s) in
  let s2 := snd (load_to_db E df conn table_name s1) in
  db s2 = db s1 /\
  (forall query, select (db s2) query = select (db s1) query) /\
  (forall lines f,
     log_sink s = inr lines -> heap s !! df = Some f -> conns s !! conn = Some true ->
     db s1 !! table_name = Some (sql_table f) /\
     db s2 !! table_name = Some (sql_table f) /\
     nrows (sql_table f) = nrows f).
Proof.
  intros s1 s2.
  destruct (load_to_db_effect E df conn table_name s)
    as (Hheap & Hconns & Hbroken & Hkeeps & Hdb).
  destruct (load_to_db_effect E df conn table_name s1)
    as (_ & _ & _ & _ & Hdb2).
  fold s1 in Hheap, Hconns, Hbroken, Hkeeps, Hdb. fold s2 in Hdb2.
  rewrite Hheap, Hconns in Hdb2.
  assert (Heq : db s2 = db s1).
  { destruct (log_sink s) as [e|lines] eqn:Hlog.
    - rewrite (Hbroken e eq_refl) in Hdb2. exact Hdb2.
    - destruct (Hkeeps (ex_intro _ lines Hlog)) as [lines1 Hlog1].
      rewrite Hlog1 in Hdb2.
      destruct (heap s !! df) as [f|]; [|exact Hdb2].
      destruct (conns s !! conn) as [[|]|]; try exact Hdb2.
      rewrite Hdb2, Hdb. apply insert_insert_eq. }
  split; [exact Heq|]. split; [intros query; rewrite Heq; reflexivity|].
  intros lines f Hlog Hf Hc. rewrite Heq, Hdb, Hlog, Hf, Hc.
  rewrite lookup_insert_eq. repeat split. apply nrows_sql_table.
Qed.

Lemma load_to_db_twice_is_once_witness :
  db (snd (load_to_db Sample.world 0 0
             "Largest_banks"
             (Sample.connected Sample.one_bank)))
    !! "Largest_banks"
  = Some (sql_table Sample.one_bank) /\
  db (snd (load_to_db Sample.world 0 0
             "Largest_banks"
             (snd (load_to_db Sample.world 0 0
                     "Largest_banks"
                     (Sample.connected Sample.one_bank)))))
    !! "Largest_banks"
  = Some (sql_table Sample.one_bank) /\
  nrows (sql_table Sample.one_bank)
  = nrows Sample.one_bank.
Proof.
  apply (proj2 (proj2 (load_to_db_twice_is_once
                         Sample.world 0 0
                         "Largest_banks"
                         (Sample.connected Sample.one_bank)))
           []);
    reflexivity.
Defined.

(** ** Writability of the log through the script *)

Create HintDb script.

Lemma keeps_untouched {A} (m : M A) :
  (forall s, log_sink (snd (m s)) = log_sink s) -> keeps m.
Proof. intros H s [l Hl]. exists l. rewrite H. exact Hl. Qed.

Lemma keeps_ret {A} (a : A) : keeps (ret a).
Proof. apply keeps_untouched. reflexivity. Qed.

Lemma keeps_raise {A} e : keeps (@raise A e).
Proof. apply keeps_untouched. reflexivity. Qed.

Lemma keeps_lift {A} (r : Exn + A) : keeps (lift r).
Proof. apply keeps_untouched. reflexivity. Qed.

Lemma keeps_print o : keeps (print o).
Proof. apply keeps_untouched. reflexivity. Qed.

Lemma keeps_assign name x : keeps (assign name x).
Proof. apply keeps_untouched. reflexivity. Qed.

Lemma keeps_global name : keeps (global name).
Proof.
  apply keeps_untouched. intros s. unfold global.
  destruct (globals s !! name); reflexivity.
Qed.

Lemma keeps_check_open conn : keeps (check_open conn).
Proof.
  apply keeps_untouched. intros s. unfold check_open.
  destruct (conns s !! conn) as [[|]|]; reflexivity.
Qed.

Lemma keeps_get_frame df : keeps (get_frame df).
Proof.
  apply keeps_untouched. intros s. unfold get_frame.
  destruct (heap s !! df); reflexivity.
Qed.

Lemma keeps_sqlite3_connect E : keeps (sqlite3_connect E).
Proof.
  apply keeps_untouched. intros s. unfold sqlite3_connect.
  destruct (connect_fault E); reflexivity.
Qed.

Lemma keeps_connection_close conn : keeps (connection_close conn).
Proof. apply keeps_untouched. reflexivity. Qed.

Lemma keeps_log_progress E message : keeps (log_progress E message).
Proof.
  intros s [l Hl]. rewrite (log_progress_writable _ _ _ _ Hl). eexists. reflexivity.
Qed.

Lemma keeps_bind {A B} (m : M A) (k : A -> M B) :
  keeps m -> (forall a, keeps (k a)) -> keeps (bind m k).
Proof.
  intros Hm Hk s Hs. unfold bind. specialize (Hm s Hs).
  destruct (m s) as [[e|a] s1]; [exact Hm|]. apply Hk, Hm.
Qed.

Lemma keeps_try_except {A} (body : M A) handler :
  keeps body -> (forall e, keeps (handler e)) -> keeps (try_except body handler).
Proof.
  intros Hb Hh s Hs. unfold try_except. specialize (Hb s Hs).
  destruct (body s) as [[e|a] s1]; [apply Hh, Hb|exact Hb].
Qed.

#[export] Hint Resolve keeps_ret keeps_raise keeps_lift keeps_print keeps_assign
  keeps_global keeps_check_open keeps_get_frame keeps_sqlite3_connect
  keeps_connection_close keeps_log_progress : script.

Ltac keeps_step :=
  first
    [ solve [auto with script]
    | apply keeps_try_except; [|intros ?]
    | apply keeps_bind; [|intros ?]
    | apply keeps_untouched; reflexivity
    | progress cbv zeta ].

Lemma keeps_read_sql E query conn : keeps (read_sql E query conn).
Proof. unfold read_sql. repeat keeps_step. Qed.

Lemma keeps_to_sql_replace df conn table_name : keeps (to_sql_replace df conn table_name).
Proof. unfold to_sql_replace. repeat keeps_step. Qed.

#[export] Hint Resolve keeps_read_sql keeps_to_sql_replace : script.

Lemma keeps_load_to_db E df conn table_name : keeps (load_to_db E df conn table_name).
Proof. unfold load_to_db, load_to_db_body. repeat keeps_step. Qed.

Lemma keeps_run_queries E query conn : keeps (run_queries E query conn).
Proof. unfold run_queries, run_queries_body. repeat keeps_step. Qed.

#[export] Hint Resolve keeps_load_to_db keeps_run_queries : script.

Lemma keeps_store_load_body E : keeps (store_load_body E).
Proof. unfold store_load_body. repeat keeps_step. Qed.

Lemma keeps_queries_body E : keeps (queries_body E).
Proof. unfold queries_body. repeat keeps_step. Qed.

(** ** Blocks that cannot raise *)

Lemma safe_bind {A B} (m : M A) (k : A -> M B) :
  safe m -> (forall a, safe (k a)) -> safe (bind m k).
Proof.
  intros Hm Hk s Hs. destruct (Hm s Hs) as (a & s1 & Hrun & Hs1).
  rewrite (bind_ok _ _ _ _ _ Hrun). apply Hk, Hs1.
Qed.

Lemma safe_log_progress E message : safe (log_progress E message).
Proof.
  intros s [l Hl]. rewrite (log_progress_writable _ _ _ _ Hl).
  eexists _, _. split; [reflexivity|]. eexists. reflexivity.
Qed.

Lemma safe_print o : safe (print o).
Proof. intros s Hs. eexists _, _. split; [reflexivity|exact Hs]. Qed.

Lemma safe_connection_close conn : safe (connection_close conn).
Proof. intros s Hs. eexists _, _. split; [reflexivity|exact Hs]. Qed.

Lemma safe_try_except {A} (body : M A) handler :
  keeps body -> (forall e, safe (handler e)) -> safe (try_except body handler).
Proof.
  intros Hb Hh s Hs. unfold try_except. specialize (Hb s Hs).
  destruct (body s) as [[e|a] s1]; [apply Hh, Hb|eauto].
Qed.

Lemma safe_try_finally (body final : M unit) :
  safe body -> safe final -> safe (try_finally body final).
Proof.
  intros Hb Hf s Hs. unfold try_finally.
  destruct (Hb s Hs) as (a & s1 & -> & Hs1).
  destruct (Hf s1 Hs1) as ([] & s2 & -> & Hs2). eauto.
Qed.

Lemma safe_if_bound_global name (k : nat -> M unit) :
  (forall c, safe (k c)) -> safe (if_bound name (bind (global name) k)).
Proof.
  intros Hk s Hs. unfold if_bound, bind, global.
  destruct (globals s !! name) as [c|]; [apply Hk, Hs|].
  exists tt, s. split; [reflexivity|exact Hs].
Qed.

#[export] Hint Resolve safe_log_progress safe_print safe_connection_close : script.

Ltac safe_step :=
  first [ solve [auto with script] | apply safe_bind; [|intros ?] ].

Lemma safe_store_load E : safe (store_load E).
Proof.
  unfold store_load, store_load_finally. apply safe_try_finally.
  - apply safe_try_except; [apply keeps_store_load_body|].
    intros e. repeat safe_step.
  - apply safe_if_bound_global. intros c.
    repeat safe_step.
Qed.

Lemma safe_queries E : safe (queries E).
Proof.
  unfold queries, queries_finally. apply safe_try_finally.
  - apply safe_try_except; [apply keeps_queries_body|].
    intros e. auto with script.
  - apply safe_if_bound_global. intros c.
    repeat safe_step.
Qed.

(** What the [finally] blocks do to the log and to the output: they only
    add to them. *)
Lemma store_load_finally_grows E s :
  writable s ->
  exists s', store_load_finally E s = (inr tt, s') /\
    (forall l, l ∈ log_lines s -> l ∈ log_lines s') /\
    (forall o, o ∈ stdout s -> o ∈ stdout s').
Proof.
  intros [lines Hl]. unfold store_load_finally, if_bound, bind, global, connection_close.
  destruct (globals s !! "sql_connection") as [c|]; [|eauto].
  simpl. erewrite log_progress_writable by exact Hl.
  unfold print, log_lines. simpl. rewrite Hl.
  eexists. split; [reflexivity|]. simpl.
  split; intros x Hx; apply elem_of_app; left; exact Hx.
Qed.

Lemma queries_finally_grows E s :
  writable s ->
  exists s', queries_finally E s = (inr tt, s') /\
    (forall l, l ∈ log_lines s -> l ∈ log_lines s').
Proof.
  intros [lines Hl]. unfold queries_finally, if_bound, bind, global, connection_close.
  destruct (globals s !! "sql_connection") as [c|]; [|eauto].
  simpl. erewrite log_progress_writable by exact Hl.
  unfold log_lines. simpl. rewrite Hl.
  eexists. split; [reflexivity|]. simpl.
  intros x Hx; apply elem_of_app; left; exact Hx.
Qed.

(** C9, as the code has it: the transformation block, the store-load block
    and the query block each catch what is raised inside them.  The
    transformation block prints ["Error during transformation: <e>"] and
    always completes.  With a writable log file, the store-load block logs
    ["Database operation failed: <e>"], prints ["Error: <e>"] and completes,
    and the query block logs ["Database query error: <e>"] and completes. *)
Theorem guarded_blocks_catch_their_errors (E : Env) :
  (forall s, exists s', transformation E s = (inr tt, s')) /\
  (forall s e s1,
     transformation_body E s = (inl e, s1) ->
     transformation E s =
       (inr tt,
        set_stdout (stdout s1 ++ [OutStr ("Error during transformation: " +:+ exn_str e)])
          s1)) /\
  (forall s, writable s -> exists s', store_load E s = (inr tt, s') /\ writable s') /\
  (forall s e s1,
     store_load_body E s = (inl e, s1) -> writable s1 ->
     exists s', store_load E s = (inr tt, s') /\
       log_line E (ticks s1) ("Database operation failed: " +:+ exn_str e)
         ∈ log_lines s' /\
       OutStr ("Error: " +:+ exn_str e) ∈ stdout s') /\
  (forall s, writable s -> exists s', queries E s = (inr tt, s') /\ writable s') /\
  (forall s e s1,
     queries_body E s = (inl e, s1) -> writable s1 ->
     exists s', queries E s = (inr tt, s') /\
       log_line E (ticks s1) ("Database query error: " +:+ exn_str e)
         ∈ log_lines s').
Proof.
  split; [|split; [|split; [|split; [|split]]]].
  - intros s. unfold transformation, try_except.
    destruct (transformation_body E s) as [[e|[]] s1]; eexists; reflexivity.
  - intros s e s1 Hbody. unfold transformation.
    rewrite (try_except_handles _ _ _ _ _ Hbody). reflexivity.
  - intros s Hs. destruct (safe_store_load E s Hs) as ([] & s' & Hrun & Hs'). eauto.
  - intros s e s1 Hbody [lines Hl]. unfold store_load, try_finally.
    rewrite (try_except_handles _ _ _ _ _ Hbody).
    rewrite (bind_ok _ _ _ _ _ (log_progress_writable _ _ _ _ Hl)).
    unfold print. 
    match goal with |- context [store_load_finally E ?s2] =>
      destruct (store_load_finally_grows E s2) as (s' & -> & Hlog & Hout);
        [eexists; reflexivity|]
    end.
    exists s'. split; [reflexivity|]. split.
    + apply Hlog. unfold log_lines. simpl. apply elem_of_app. right. left.
    + apply Hout. simpl. apply elem_of_app. right. left.
  - intros s Hs. destruct (safe_queries E s Hs) as ([] & s' & Hrun & Hs'). eauto.
  - intros s e s1 Hbody [lines Hl]. unfold queries, try_finally.
    rewrite (try_except_handles _ _ _ _ _ Hbody).
    rewrite (log_progress_writable _ _ _ _ Hl).
    match goal with |- context [queries_finally E ?s2] =>
      destruct (queries_finally_grows E s2) as (s' & -> & Hlog);
        [eexists; reflexivity|]
    end.
    exists s'. split; [reflexivity|].
    apply Hlog. unfold log_lines. simpl. apply elem_of_app. right. left.
Qed.

Lemma guarded_blocks_catch_their_errors_witness :
  (exists s',
     store_load Sample.world_without_database Sample.start = (inr tt, s') /\
     writable s') /\
  (exists s',
     store_load Sample.world_without_database Sample.start = (inr tt, s') /\
     log_line Sample.world_without_database 1
       ("Database operation failed: " +:+ exn_str Sample.unable_to_open)
       ∈ log_lines s' /\
     OutStr ("Error: " +:+ exn_str Sample.unable_to_open) ∈ stdout s') /\
  (exists s',
     queries Sample.world_without_database Sample.start = (inr tt, s') /\
     writable s') /\
  (exists s',
     queries Sample.world_without_database Sample.start = (inr tt, s') /\
     log_line Sample.world_without_database 1
       ("Database query error: " +:+ exn_str Sample.unable_to_open)
       ∈ log_lines s').
Proof.
  split; [|split; [|split]].
  - apply (proj1 (proj2 (proj2
             (guarded_blocks_catch_their_errors Sample.world_without_database)))
             Sample.start).
    eexists. reflexivity.
  - apply (proj1 (proj2 (proj2 (proj2
             (guarded_blocks_catch_their_errors Sample.world_without_database))))
             Sample.start Sample.unable_to_open
             (snd (store_load_body Sample.world_without_database Sample.start))).
    + vm_compute. reflexivity.
    + eexists. vm_compute. reflexivity.
  - apply (proj1 (proj2 (proj2 (proj2 (proj2
             (guarded_blocks_catch_their_errors Sample.world_without_database)))))
             Sample.start).
    eexists. reflexivity.
  - apply (proj2 (proj2 (proj2 (proj2 (proj2
             (guarded_blocks_catch_their_errors Sample.world_without_database)))))
             Sample.start Sample.unable_to_open
             (snd (queries_body Sample.world_without_database Sample.start))).
    + vm_compute. reflexivity.
    + eexists. vm_compute. reflexivity.
Defined.

(** C9 fails as stated.  The calls of [extract] and of [load_to_csv] stand
    outside any [try]: on a page without [tbody] the [IndexError] of
    [extract] ends the script, nothing having been printed.  And a
    transformation error, though caught and printed, leaves
    [df_transformed] unbound, so that the script ends at the next statement
    with a [NameError]. *)
Lemma uncaught_errors_end_the_script :
  (exists s',
     script Sample.world_empty_page Sample.start
     = (inl (mkExn IndexError "list index out of range"), s') /\
     stdout s' = []) /\
  (exists s',
     script Sample.world_gbp_only Sample.start
     = (inl (mkExn NameError "name 'df_transformed' is not defined"), s') /\
     last (stdout s') = Some (OutStr "Error during transformation: 'EUR'")).
Proof.
  split; eexists; (split; [vm_compute; reflexivity|reflexivity]).
Qed.

(** ** The end-to-end scenario *)

(** C10, as the code has it: from the three extracted records with
    [MC_USD_Billion = [100.0, 50.0, 10.0]] and the rates
    [{GBP: 0.8, EUR: 0.93, INR: 82.5}], [transform] yields the first record
    [(Name, 100.0, 80.0, 93.0, 8250.0)]; once the frame is loaded, the query
    for the mean of [MC_GBP_Billion] returns [(80.0 + 40.0 + 8.0) / 3], the
    binary64 number 42.666666666666664, and the query for the [Name] of the
    first 5 rows returns the three names in extraction order. *)
Theorem end_to_end_scenario (E : Env) (n1 n2 n3 : string) :
  read_rates E "exchange_rate.csv" = inr Sample.rates ->
  connect_fault E = None ->
  exists s1 conn s2 s3 s4 s5,
    transform E 0 "exchange_rate.csv"
      (Sample.holding
         (Sample.extracted [n1; n2; n3] [100%float; 50%float; 10%float]))
    = (inr 0, s1) /\
    heap s1 !! 0 =
      Some [("Name", [CStr n1; CStr n2; CStr n3]);
            ("MC_USD_Billion", [CNum 100%float; CNum 50%float; CNum 10%float]);
            ("MC_GBP_Billion", [CNum 80%float; CNum 40%float; CNum 8%float]);
            ("MC_EUR_Billion", [CNum 93%float; CNum 46.5%float; CNum 9.3%float]);
            ("MC_INR_Billion", [CNum 8250%float; CNum 4125%float; CNum 825%float])] /\
    sqlite3_connect E s1 = (inr conn, s2) /\
    load_to_db E 0 conn "Largest_banks" s2 = (inr tt, s3) /\
    run_queries E query2 conn s3
    = (inr [("Avg_MC_GBP_Billion", [CNum 42.666666666666664%float])], s4) /\
    run_queries E query3 conn s4
    = (inr [("Name", [CStr n1; CStr n2; CStr n3])], s5).
Proof.
  intros Hrates Hconn.
  destruct E as [nw gs pf fs rr tf cf]. simpl in Hrates, Hconn. subst cf.
  eexists _, _, _, _, _, _. split.
  { unfold transform. apply try_except_returns.
    apply (transform_body_returns _ _ _ _ []
             (Sample.extracted [n1; n2; n3] [100%float; 50%float; 10%float])
             [100%float; 50%float; 10%float] Sample.rates
             0.8%float 0.93%float 82.5%float);
      first [exact Hrates | reflexivity]. }
  split; [vm_compute; reflexivity|]. split; [vm_compute; reflexivity|].
  split; [vm_compute; reflexivity|]. split; vm_compute; reflexivity.
Qed.

Lemma end_to_end_scenario_witness :
  exists s1 conn s2 s3 s4 s5,
    transform Sample.world 0 "exchange_rate.csv"
      (Sample.holding
         (Sample.extracted ["JPMorgan Chase"; "Bank of America"; "ICBC"]
            [100%float; 50%float; 10%float]))
    = (inr 0, s1) /\
    heap s1 !! 0 =
      Some [("Name", [CStr "JPMorgan Chase"; CStr "Bank of America"; CStr "ICBC"]);
            ("MC_USD_Billion", [CNum 100%float; CNum 50%float; CNum 10%float]);
            ("MC_GBP_Billion", [CNum 80%float; CNum 40%float; CNum 8%float]);
            ("MC_EUR_Billion", [CNum 93%float; CNum 46.5%float; CNum 9.3%float]);
            ("MC_INR_Billion", [CNum 8250%float; CNum 4125%float; CNum 825%float])] /\
    sqlite3_connect Sample.world s1 = (inr conn, s2) /\
    load_to_db Sample.world 0 conn
      "Largest_banks" s2 = (inr tt, s3) /\
    run_queries Sample.world query2 conn s3
    = (inr [("Avg_MC_GBP_Billion", [CNum 42.666666666666664%float])], s4) /\
    run_queries Sample.world query3 conn s4
    = (inr [("Name", [CStr "JPMorgan Chase"; CStr "Bank of America"; CStr "ICBC"])], s5).
Proof.
  apply (end_to_end_scenario Sample.world
           "JPMorgan Chase" "Bank of America" "ICBC");
    reflexivity.
Defined.

(** C10 fails as stated: in the scenario the query for the mean of
    [MC_GBP_Billion] returns 42.666666666666664, the mean of 80.0, 40.0 and
    8.0, and not 56.0. *)
Lemma mean_of_gbp_is_not_56 :
  exists s1 conn s2 s3 x s4,
    transform Sample.world 0 "exchange_rate.csv"
      (Sample.holding
         (Sample.extracted ["JPMorgan Chase"; "Bank of America"; "ICBC"]
            [100%float; 50%float; 10%float]))
    = (inr 0, s1) /\
    sqlite3_connect Sample.world s1 = (inr conn, s2) /\
    load_to_db Sample.world 0 conn
      "Largest_banks" s2 = (inr tt, s3) /\
    run_queries Sample.world query2 conn s3
    = (inr [("Avg_MC_GBP_Billion", [CNum x])], s4) /\
    x = 42.666666666666664%float /\
    x <> 56%float.
Proof.
  eexists _, _, _, _, _, _.
  split; [vm_compute; reflexivity|]. split; [vm_compute; reflexivity|].
  split; [vm_compute; reflexivity|]. split; [vm_compute; reflexivity|].
  split; [reflexivity|].
  intros H.
  assert (Heq : PrimFloat.eqb 42.666666666666664%float 56%float = true)
    by (rewrite H; reflexivity).
  discriminate Heq.
Qed.

(** * Further properties of the stages and of the script *)

(** ** What a computation leaves alone *)

Create HintDb frame.

Lemma untouched_ret {A X} (proj : State -> X) (a : A) : untouched proj (ret a).
Proof. intros s. reflexivity. Qed.

Lemma untouched_raise {A X} (proj : State -> X) e : untouched proj (@raise A e).
Proof. intros s. reflexivity. Qed.

Lemma untouched_lift {A X} (proj : State -> X) (r : Exn + A) : untouched proj (lift r).
Proof. intros s. reflexivity. Qed.

Lemma untouched_bind {A B X} (proj : State -> X) (m : M A) (k : A -> M B) :
  untouched proj m -> (forall a, untouched proj (k a)) -> untouched proj (bind m k).
Proof.
  intros Hm Hk s. unfold bind. specialize (Hm s).
  destruct (m s) as [[e|a] s1]; [exact Hm|]. rewrite Hk. exact Hm.
Qed.

Lemma untouched_try_except {A X} (proj : State -> X) (body : M A) handler :
  untouched proj body -> (forall e, untouched proj (handler e)) ->
  untouched proj (try_except body handler).
Proof.
  intros Hb Hh s. unfold try_except. specialize (Hb s).
  destruct (body s) as [[e|a] s1]; [|exact Hb]. rewrite Hh. exact Hb.
Qed.

Lemma untouched_try_finally {X} (proj : State -> X) (body final : M unit) :
  untouched proj body -> untouched proj final ->
  untouched proj (try_finally body final).
Proof.
  intros Hb Hf s. unfold try_finally. specialize (Hb s).
  destruct (body s) as [r s1]. specialize (Hf s1).
  destruct (final s1) as [[e|[]] s2]; simpl in *; congruence.
Qed.

Lemma untouched_if_bound {X} (proj : State -> X) name body :
  untouched proj body -> untouched proj (if_bound name body).
Proof.
  intros Hb s. unfold if_bound. destruct (globals s !! name); [apply Hb|reflexivity].
Qed.

Lemma untouched_for_each {A X} (proj : State -> X) (l : list A) body :
  (forall a, untouched proj (body a)) -> untouched proj (for_each l body).
Proof.
  intros Hb. induction l as [|a l IH]; simpl.
  - apply untouched_ret.
  - apply untouched_bind; [apply Hb|intros _; exact IH].
Qed.

Lemma untouched_get_frame {X} (proj : State -> X) df : untouched proj (get_frame df).
Proof. intros s. unfold get_frame. destruct (heap s !! df); reflexivity. Qed.

Lemma untouched_global {X} (proj : State -> X) name : untouched proj (global name).
Proof. intros s. unfold global. destruct (globals s !! name); reflexivity. Qed.

Lemma untouched_check_open {X} (proj : State -> X) conn :
  untouched proj (check_open conn).
Proof.
  intros s. unfold check_open. destruct (conns s !! conn) as [[|]|]; reflexivity.
Qed.

Lemma untouched_log_progress {X} (proj : State -> X) E message :
  ignores set_log proj -> ignores set_ticks proj ->
  untouched proj (log_progress E message).
Proof.
  intros Hl Ht s. destruct (log_sink s) as [e|lines] eqn:Hs.
  - rewrite (log_progress_broken _ _ _ _ Hs). apply Ht.
  - rewrite (log_progress_writable _ _ _ _ Hs). simpl. rewrite Hl. apply Ht.
Qed.

Lemma untouched_print {X} (proj : State -> X) o :
  ignores set_stdout proj -> untouched proj (print o).
Proof. intros H s. apply H. Qed.

Lemma untouched_assign {X} (proj : State -> X) name x :
  ignores set_globals proj -> untouched proj (assign name x).
Proof. intros H s. apply H. Qed.

Lemma untouched_put_frame {X} (proj : State -> X) df f :
  ignores set_heap proj -> untouched proj (put_frame df f).
Proof. intros H s. apply H. Qed.

Lemma untouched_new_frame {X} (proj : State -> X) f :
  ignores set_heap proj -> untouched proj (new_frame f).
Proof. intros H s. apply H. Qed.

Lemma untouched_sqlite3_connect {X} (proj : State -> X) E :
  ignores set_conns proj -> untouched proj (sqlite3_connect E).
Proof.
  intros H s. unfold sqlite3_connect. destruct (connect_fault E); [reflexivity|apply H].
Qed.

Lemma untouched_connection_close {X} (proj : State -> X) conn :
  ignores set_conns proj -> untouched proj (connection_close conn).
Proof. intros H s. apply H. Qed.

Lemma untouched_store {A X} (proj : State -> X) (f : State -> Exn + A) :
  untouched proj (fun s => (f s, s)).
Proof. intros s. reflexivity. Qed.

Lemma untouched_set_db {X} (proj : State -> X) (d : State -> gmap string Frame) :
  ignores set_db proj -> untouched proj (fun s => (inr tt, set_db (d s) s)).
Proof. intros H s. apply H. Qed.

Lemma untouched_to_csv {X} (proj : State -> X) E df path :
  ignores set_csv_files proj -> untouched proj (to_csv E df path).
Proof.
  intros H s. unfold to_csv, bind, get_frame.
  destruct (heap s !! df); [|reflexivity].
  destruct (to_csv_fault E path); [reflexivity|apply H].
Qed.

#[export] Hint Resolve untouched_ret untouched_raise untouched_lift
  untouched_get_frame untouched_global untouched_check_open
  untouched_log_progress untouched_print untouched_assign untouched_put_frame
  untouched_new_frame untouched_sqlite3_connect untouched_connection_close
  untouched_store untouched_set_db untouched_to_csv : frame.

#[export] Hint Extern 1 (ignores _ _) => (intros ? ?; reflexivity) : frame.

Ltac frame_step :=
  first
    [ solve [auto with frame]
    | apply untouched_try_finally
    | apply untouched_try_except; [|intros ?]
    | apply untouched_if_bound
    | apply untouched_for_each; intros ?
    | apply untouched_bind; [|intros ?]
    | progress cbv zeta ].

Ltac frame := repeat frame_step.

Lemma untouched_read_sql {X} (proj : State -> X) E query conn :
  untouched proj (read_sql E query conn).
Proof. unfold read_sql. frame. Qed.

#[export] Hint Resolve untouched_read_sql : frame.

(** A frame other than [df] is not reached by an assignment to [df]. *)
Lemma untouched_other_frame df f other :
  other <> df -> untouched (fun s => heap s !! other) (put_frame df f).
Proof. intros Hne s. simpl. apply list_lookup_insert_ne. congruence. Qed.

Lemma untouched_heap_size df f :
  untouched (fun s => length (heap s)) (put_frame df f).
Proof. intros s. simpl. apply length_insert. Qed.

#[export] Hint Resolve untouched_other_frame untouched_heap_size : frame.

Lemma untouched_convert {X} (proj : State -> X) df rates c :
  (forall f, untouched proj (put_frame df f)) ->
  untouched proj (convert df rates c).
Proof. intros H. unfold convert, setitem. frame. Qed.

Lemma untouched_transform {X} (proj : State -> X) E df csv_path :
  ignores set_log proj -> ignores set_ticks proj ->
  (forall f, untouched proj (put_frame df f)) ->
  untouched proj (transform E df csv_path).
Proof.
  intros Hl Ht Hp. unfold transform, transform_body.
  repeat first
    [ apply untouched_convert; exact Hp
    | apply untouched_log_progress; assumption
    | frame_step ].
Qed.

(** X1: [transform] works on the frame it is given and on the log, and on
    nothing else, whether it returns or raises: the other frames, the files,
    the tables, the connections, the names and the output are what they
    were, and no frame is created. *)
Theorem transform_touches_only_its_frame
    (E : Env) (df : nat) (csv_path : string) (s : State) :
  let s' := snd (transform E df csv_path s) in
  length (heap s') = length (heap s) /\
  (forall other, other <> df -> heap s' !! other = heap s !! other) /\
  csv_files s' = csv_files s /\ db s' = db s /\ conns s' = conns s /\
  globals s' = globals s /\ stdout s' = stdout s.
Proof.
  intros s'. subst s'. split; [|split; [|repeat split]].
  - apply (untouched_transform (fun s => length (heap s))); auto with frame.
  - intros other Hne.
    apply (untouched_transform (fun s => heap s !! other)); auto with frame.
  - apply (untouched_transform csv_files); auto with frame.
  - apply (untouched_transform db); auto with frame.
  - apply (untouched_transform conns); auto with frame.
  - apply (untouched_transform globals); auto with frame.
  - apply (untouched_transform stdout); auto with frame.
Qed.

Lemma untouched_run_queries {X} (proj : State -> X) E query conn :
  ignores set_log proj -> ignores set_ticks proj -> ignores set_stdout proj ->
  untouched proj (run_queries E query conn).
Proof. intros Hl Ht Ho. unfold run_queries, run_queries_body. frame. Qed.

(** X2: [run_queries] only reads.  For a [SELECT] statement, whatever
    it selects and whether it succeeds or fails, the tables, the frames, the
    files, the connections and the names are the same afterwards: the
    connection it was given is still open. *)
Theorem run_queries_reads_only
    (E : Env) (query : string) (conn : nat) (s : State) (rest : list string) :
  String.words query = "SELECT" :: rest ->
  let s' := snd (run_queries E query conn s) in
  db s' = db s /\ heap s' = heap s /\ csv_files s' = csv_files s /\
  conns s' = conns s /\ globals s' = globals s.
Proof.
  intros _ s'. subst s'. repeat split.
  - apply (untouched_run_queries db); auto with frame.
  - apply (untouched_run_queries heap); auto with frame.
  - apply (untouched_run_queries csv_files); auto with frame.
  - apply (untouched_run_queries conns); auto with frame.
  - apply (untouched_run_queries globals); auto with frame.
Qed.

Lemma run_queries_reads_only_witness :
  let s := snd (to_sql_replace 0 0 "Largest_banks"
                  (Sample.connected Sample.one_bank)) in
  let s' := snd (run_queries Sample.world query1 0 s) in
  db s' = db s /\ heap s' = heap s /\ csv_files s' = csv_files s /\
  conns s' = conns s /\ globals s' = globals s.
Proof.
  intros s.
  apply (run_queries_reads_only Sample.world query1 0 s
           ["*"; "FROM"; "Largest_banks"]).
  reflexivity.
Defined.

Lemma untouched_to_sql_replace {X} (proj : State -> X) df conn table_name :
  ignores set_db proj -> untouched proj (to_sql_replace df conn table_name).
Proof. intros H. unfold to_sql_replace. frame. Qed.

Lemma untouched_load_to_db {X} (proj : State -> X) E df conn table_name :
  ignores set_log proj -> ignores set_ticks proj ->
  untouched proj (to_sql_replace df conn table_name) ->
  untouched proj (load_to_db E df conn table_name).
Proof.
  intros Hl Ht Hs. unfold load_to_db, load_to_db_body.
  repeat first [ exact Hs | frame_step ].
Qed.

(** X3: [load_to_db] works on the database and on the log, and on nothing
    else.  Whether it returns or raises, the frames, the one it loads
    included, the files, the connections, the names and the output are what
    they were: the connection it was given is not closed. *)
Theorem load_to_db_leaves_frame_and_connection
    (E : Env) (df conn : nat) (table_name : string) (s : State) :
  let s' := snd (load_to_db E df conn table_name s) in
  heap s' = heap s /\ csv_files s' = csv_files s /\ conns s' = conns s /\
  globals s' = globals s /\ stdout s' = stdout s.
Proof.
  intros s'. subst s'. repeat split.
  - apply (untouched_load_to_db heap); auto with frame.
    apply untouched_to_sql_replace; auto with frame.
  - apply (untouched_load_to_db csv_files); auto with frame.
    apply untouched_to_sql_replace; auto with frame.
  - apply (untouched_load_to_db conns); auto with frame.
    apply untouched_to_sql_replace; auto with frame.
  - apply (untouched_load_to_db globals); auto with frame.
    apply untouched_to_sql_replace; auto with frame.
  - apply (untouched_load_to_db stdout); auto with frame.
    apply untouched_to_sql_replace; auto with frame.
Qed.

(** ** Edges of the extraction *)

Lemma find_all_tags name n x :
  x ∈ find_all name n -> exists attrs cs, x = Tag name attrs cs.
Proof.
  intros Hin. apply list_elem_of_In, filter_In in Hin as [_ Htag].
  destruct x as [t attrs cs|]; [|discriminate].
  simpl in Htag. apply String.eqb_eq in Htag as ->. eauto.
Qed.

(** X4: an error of [data_dict] tells what the row lacks; there are four
    defects and nothing else makes it raise.  [IndexError]: fewer than three
    data cells, fewer than two hyperlinks in the second cell, or an empty
    third cell.  [KeyError('title')]: a second hyperlink without [title].
    A third cell that opens with a tag and not with text, on which the
    slice is not defined.  [ValueError]: text that [float] rejects. *)
Theorem data_dict_error_tells_the_defect (E : Env) (row : Node) (e : Exn) :
  data_dict E (find_all "td" row) = inl e ->
  (exn_class e = IndexError /\
   (length (find_all "td" row) < 3 \/
    (exists c1, find_all "td" row !! 1 = Some c1 /\ length (find_all "a" c1) < 2) \/
    (exists c2, find_all "td" row !! 2 = Some c2 /\ contents c2 = []))) \/
  (e = mkExn KeyError "'title'" /\
   exists c1 name attrs cs,
     find_all "td" row !! 1 = Some c1 /\
     find_all "a" c1 !! 1 = Some (Tag name attrs cs) /\ attrs !! "title" = None) \/
  (exists c2 name attrs cs rest,
     find_all "td" row !! 2 = Some c2 /\ contents c2 = Tag name attrs cs :: rest) \/
  (exn_class e = ValueError /\
   exists c2 text rest,
     find_all "td" row !! 2 = Some c2 /\
     contents c2 = NavigableString text :: rest /\
     py_float E (drop_last text) = None).
Proof.
  unfold data_dict, py_index, float_of_str.
  destruct (find_all "td" row !! 1) as [c1|] eqn:H1.
  2:{ intros [= <-]. left. split; [reflexivity|]. left.
      apply lookup_ge_None in H1. lia. }
  destruct (find_all "a" c1 !! 1) as [a|] eqn:H2.
  2:{ intros [= <-]. left. split; [reflexivity|]. right. left. exists c1.
      split; [reflexivity|]. apply lookup_ge_None in H2. lia. }
  destruct (find_all_tags "a" c1 a) as (attrs & cs & ->).
  { eapply list_elem_of_lookup_2, H2. }
  simpl. destruct (attrs !! "title") as [title|] eqn:H3.
  2:{ intros [= <-]. right. left. split; [reflexivity|].
      exists c1, "a", attrs, cs. auto. }
  destruct (find_all "td" row !! 2) as [c2|] eqn:H4.
  2:{ intros [= <-]. left. split; [reflexivity|]. left.
      apply lookup_ge_None in H4. lia. }
  destruct (contents c2) as [|first rest] eqn:H5.
  { intros [= <-]. left. split; [reflexivity|]. right. right. exists c2. auto. }
  simpl. destruct first as [name attrs' cs'|text]; simpl.
  { intros _. right. right. left. exists c2, name, attrs', cs', rest. auto. }
  destruct (py_float E (drop_last text)) as [mc|] eqn:H6; [discriminate|].
  intros [= <-]. right. right. right. split; [reflexivity|].
  exists c2, text, rest. auto.
Qed.

Lemma data_dict_error_tells_the_defect_witness :
  let row := Sample.elem "tr" [Sample.elem "td" [Sample.text "1"]] in
  let e := mkExn IndexError "list index out of range" in
  (exn_class e = IndexError /\
   (length (find_all "td" row) < 3 \/
    (exists c1, find_all "td" row !! 1 = Some c1 /\ length (find_all "a" c1) < 2) \/
    (exists c2, find_all "td" row !! 2 = Some c2 /\ contents c2 = []))) \/
  (e = mkExn KeyError "'title'" /\
   exists c1 name attrs cs,
     find_all "td" row !! 1 = Some c1 /\
     find_all "a" c1 !! 1 = Some (Tag name attrs cs) /\ attrs !! "title" = None) \/
  (exists c2 name attrs cs rest,
     find_all "td" row !! 2 = Some c2 /\ contents c2 = Tag name attrs cs :: rest) \/
  (exn_class e = ValueError /\
   exists c2 text rest,
     find_all "td" row !! 2 = Some c2 /\
     contents c2 = NavigableString text :: rest /\
     py_float Sample.world (drop_last text) = None).
Proof.
  intros row e.
  apply (data_dict_error_tells_the_defect Sample.world row e).
  reflexivity.
Defined.

(** X5: a row with one or two data cells cannot be extracted: [data_dict]
    raises a [LookupError] on it, whatever the cells hold. *)
Theorem data_dict_needs_three_cells (E : Env) (col : list Node) :
  0 < length col < 3 ->
  exists e, data_dict E col = inl e /\ is_LookupError e = true.
Proof.
  intros [_ Hlen]. unfold data_dict, py_index.
  destruct (col !! 1) as [c1|] eqn:H1; [|eauto].
  destruct (find_all "a" c1 !! 1) as [a|] eqn:H2; [|eauto].
  destruct (find_all_tags "a" c1 a) as (attrs & cs & ->).
  { eapply list_elem_of_lookup_2, H2. }
  simpl. destruct (attrs !! "title"); [|eauto].
  rewrite (proj2 (lookup_ge_None col 2)) by lia. eauto.
Qed.

Lemma data_dict_needs_three_cells_witness :
  exists e, data_dict Sample.world [Sample.elem "td" [Sample.text "1"]] = inl e /\
    is_LookupError e = true.
Proof.
  apply (data_dict_needs_three_cells Sample.world [Sample.elem "td" [Sample.text "1"]]).
  simpl. lia.
Defined.

Lemma extract_rows_raises E rows : forall pre row post df e,
  rectangular df -> NoDup (columns df) ->
  List.filter has_td rows = pre ++ row :: post ->
  (forall r, r ∈ pre -> exists fr, data_dict E (find_all "td" r) = inr fr) ->
  data_dict E (find_all "td" row) = inl e ->
  extract_rows E rows df = inl e.
Proof.
  induction rows as [|row0 rest IH]; intros pre row post df e Hrect Hnd Hsplit Hpre Hbad.
  - destruct pre; discriminate Hsplit.
  - simpl in *.
    destruct (negb (Nat.eqb (length (find_all "td" row0)) 0)).
    2:{ eapply IH; eassumption. }
    destruct pre as [|p pre]; simpl in Hsplit; injection Hsplit as -> Hsplit.
    + rewrite Hbad. reflexivity.
    + destruct (Hpre p) as [fr Hrow]; [left|]. rewrite Hrow.
      pose proof (proj1 (data_dict_inv _ _ _) Hrow)
        as (_ & _ & t & _ & _ & x & _ & _ & _ & _ & _ & _ & ->).
      destruct (concat_row_total df t x Hnd) as [d1 Hcat]. rewrite Hcat.
      destruct (concat_row _ _ _ _ Hrect Hcat) as (Hr1 & Hnd1 & _).
      eapply IH; try eassumption. intros r Hr. apply Hpre. right. exact Hr.
Qed.

(** X6: [extract] gives up on the first data row it cannot read: the error
    of that row reaches the caller as it is, no frame is made of the rows
    read before it, and the log holds the opening line only, neither an
    error entry nor "Data extraction complete". *)
Theorem extract_stops_at_first_bad_row
    (E : Env) (url : string) (attrs : list string) (s : State)
    (lines : list string) (soup tbody : Node)
    (pre : list Node) (row : Node) (post : list Node) (e : Exn) :
  log_sink s = inr lines ->
  NoDup attrs ->
  get_soup E url = inr soup ->
  find_all "tbody" soup !! 0 = Some tbody ->
  data_rows tbody = pre ++ row :: post ->
  (forall r, r ∈ pre -> exists fr, data_dict E (find_all "td" r) = inr fr) ->
  data_dict E (find_all "td" row) = inl e ->
  exists s',
    extract E url attrs s = (inl e, s') /\
    heap s' = heap s /\
    log_sink s' = inr (lines ++ [log_line E (ticks s) "Starting data extraction"]).
Proof.
  intros Hlog Hnd Hsoup Htb Hsplit Hpre Hbad.
  destruct (DataFrame_columns_empty attrs) as (Hrect & _ & Hcols & _).
  assert (Hrows : extract_rows E (find_all "tr" tbody) (DataFrame_columns attrs) = inl e).
  { eapply extract_rows_raises; try eassumption. rewrite Hcols. exact Hnd. }
  unfold extract.
  rewrite (bind_ok _ _ _ _ _ (log_progress_writable _ _ _ _ Hlog)).
  unfold lift, bind at 1. rewrite Hsoup.
  unfold bind at 1, py_index. rewrite Htb.
  unfold bind at 1. rewrite Hrows.
  eexists. split; [reflexivity|]. split; reflexivity.
Qed.

Lemma extract_stops_at_first_bad_row_witness :
  exists s',
    extract
      (Sample.env
         (inr (Sample.elem "[document]"
                 [Sample.elem "tbody"
                    [Sample.bank_row "1" "China" "ICBC" "10.0";
                     Sample.elem "tr" [Sample.elem "td" [Sample.text "2"]]]]))
         (inr Sample.rates))
      url table_attribs Sample.start
    = (inl (mkExn IndexError "list index out of range"), s') /\
    heap s' = heap Sample.start /\
    log_sink s' =
      inr ([] ++ [log_line
                    (Sample.env
                       (inr (Sample.elem "[document]"
                               [Sample.elem "tbody"
                                  [Sample.bank_row "1" "China" "ICBC" "10.0";
                                   Sample.elem "tr" [Sample.elem "td" [Sample.text "2"]]]]))
                       (inr Sample.rates))
                    (ticks Sample.start) "Starting data extraction"]).
Proof.
  apply (extract_stops_at_first_bad_row _ url table_attribs Sample.start []
           (Sample.elem "[document]"
              [Sample.elem "tbody"
                 [Sample.bank_row "1" "China" "ICBC" "10.0";
                  Sample.elem "tr" [Sample.elem "td" [Sample.text "2"]]]])
           (Sample.elem "tbody"
              [Sample.bank_row "1" "China" "ICBC" "10.0";
               Sample.elem "tr" [Sample.elem "td" [Sample.text "2"]]])
           [Sample.bank_row "1" "China" "ICBC" "10.0"]
           (Sample.elem "tr" [Sample.elem "td" [Sample.text "2"]]) []);
    try reflexivity.
  - unfold table_attribs. exact NoDup_record_labels.
  - intros r Hr. apply list_elem_of_singleton in Hr as ->. eexists. reflexivity.
Defined.

(** X7: when the page cannot be fetched, or has no [tbody], [extract] raises
    (the fetch error, or [IndexError]) having logged its opening line only,
    and makes no frame. *)
Theorem extract_without_table
    (E : Env) (url : string) (attrs : list string) (s : State) (lines : list string) :
  log_sink s = inr lines ->
  (forall e, get_soup E url = inl e ->
     exists s', extract E url attrs s = (inl e, s') /\ heap s' = heap s /\
       log_sink s' = inr (lines ++ [log_line E (ticks s) "Starting data extraction"])) /\
  (forall soup, get_soup E url = inr soup -> find_all "tbody" soup = [] ->
     exists s',
       extract E url attrs s = (inl (mkExn IndexError "list index out of range"), s') /\
       heap s' = heap s /\
       log_sink s' = inr (lines ++ [log_line E (ticks s) "Starting data extraction"])).
Proof.
  intros Hlog. split.
  - intros e Hsoup. unfold extract.
    rewrite (bind_ok _ _ _ _ _ (log_progress_writable _ _ _ _ Hlog)).
    unfold lift, bind at 1. rewrite Hsoup. eexists. repeat split.
  - intros soup Hsoup Hnone. unfold extract.
    rewrite (bind_ok _ _ _ _ _ (log_progress_writable _ _ _ _ Hlog)).
    unfold lift, bind at 1. rewrite Hsoup.
    unfold bind at 1, py_index. rewrite Hnone. eexists. repeat split.
Qed.

Lemma extract_without_table_witness :
  exists s',
    extract Sample.world_empty_page url table_attribs Sample.start
    = (inl (mkExn IndexError "list index out of range"), s') /\
    heap s' = heap Sample.start /\
    log_sink s' =
      inr ([] ++ [log_line Sample.world_empty_page (ticks Sample.start)
                    "Starting data extraction"]).
Proof.
  apply (proj2 (extract_without_table Sample.world_empty_page url table_attribs
                  Sample.start [] eq_refl) Sample.empty_page);
    reflexivity.
Defined.

Lemma untouched_extract {X} (proj : State -> X) E url attrs :
  ignores set_log proj -> ignores set_ticks proj -> ignores set_heap proj ->
  untouched proj (extract E url attrs).
Proof. intros Hl Ht Hh. unfold extract. frame. Qed.

(** X8: [extract] makes a new frame and touches no frame that exists: when
    it returns, its result is a reference no frame had before, and the
    frames that were there are unchanged; when it raises, the frames are as
    they were.  Files, tables, connections, names and output are never
    touched. *)
Theorem extract_makes_a_new_frame
    (E : Env) (url : string) (attrs : list string) (s : State) :
  match extract E url attrs s with
  | (inr df, s') =>
      heap s !! df = None /\ exists f, heap s' = heap s ++ [f] /\ heap s' !! df = Some f
  | (inl _, s') => heap s' = heap s
  end /\
  (let s' := snd (extract E url attrs s) in
   csv_files s' = csv_files s /\ db s' = db s /\ conns s' = conns s /\
   globals s' = globals s /\ stdout s' = stdout s).
Proof.
  split.
  - unfold extract, bind at 1.
    destruct (log_progress E "Starting data extraction" s) as [[e|[]] s1] eqn:H1.
    { apply (f_equal snd) in H1. simpl in H1. subst s1.
      apply (untouched_log_progress heap); auto with frame. }
    assert (Hs1 : heap s1 = heap s).
    { apply (f_equal snd) in H1. simpl in H1. subst s1.
      apply (untouched_log_progress heap); auto with frame. }
    unfold lift, bind at 1. destruct (get_soup E url) as [e|soup]; [exact Hs1|].
    unfold bind at 1. destruct (py_index (find_all "tbody" soup) 0) as [e|tbody];
      [exact Hs1|].
    unfold bind at 1. destruct (extract_rows E _ _) as [e|f]; [exact Hs1|].
    unfold bind.
    destruct (log_progress E "Data extraction complete" s1) as [[e|[]] s2] eqn:H2.
    { apply (f_equal snd) in H2. simpl in H2. subst s2. rewrite <- Hs1.
      apply (untouched_log_progress heap); auto with frame. }
    assert (Hs2 : heap s2 = heap s).
    { apply (f_equal snd) in H2. simpl in H2. subst s2. rewrite <- Hs1.
      apply (untouched_log_progress heap); auto with frame. }
    unfold new_frame. simpl. rewrite Hs2. split.
    + apply lookup_ge_None. lia.
    + exists f. split; [reflexivity|].
      rewrite lookup_app_r by lia. rewrite Nat.sub_diag. reflexivity.
  - simpl. repeat split.
    + apply (untouched_extract csv_files); auto with frame.
    + apply (untouched_extract db); auto with frame.
    + apply (untouched_extract conns); auto with frame.
    + apply (untouched_extract globals); auto with frame.
    + apply (untouched_extract stdout); auto with frame.
Qed.

(** ** Edges of the transformation *)

(** The handler of [transform] on a raising body. *)
Lemma transform_raises E df csv_path s e s1 lines :
  transform_body E df csv_path s = (inl e, s1) ->
  log_sink s1 = inr lines ->
  transform E df csv_path s =
    (inl e,
     set_log (inr (lines ++ [log_line E (ticks s1)
                               ("Error during transformation: " +:+ exn_str e)]))
       (set_ticks (S (ticks s1)) s1)).
Proof.
  intros Hbody Hlog. unfold transform.
  rewrite (try_except_handles _ _ _ _ _ Hbody). apply log_then_raise, Hlog.
Qed.

(** X9: when the exchange-rate file cannot be read, [transform] logs the
    error and raises it, and no frame is changed. *)
Theorem transform_without_rates
    (E : Env) (df : nat) (csv_path : string) (s : State) (lines : list string)
    (e : Exn) :
  log_sink s = inr lines ->
  read_rates E csv_path = inl e ->
  exists s',
    transform E df csv_path s = (inl e, s') /\
    heap s' = heap s /\
    log_sink s' =
      inr (lines ++ [log_line E (ticks s) "Starting data transformation";
                     log_line E (S (ticks s))
                       ("Error during transformation: " +:+ exn_str e)]).
Proof.
  intros Hlog Hr. eexists. split.
  - eapply transform_raises.
    + unfold transform_body.
      rewrite (bind_ok _ _ _ _ _ (log_progress_writable _ _ _ _ Hlog)).
      unfold lift, bind at 1. rewrite Hr. reflexivity.
    + reflexivity.
  - simpl. rewrite <- app_assoc. split; reflexivity.
Qed.

Lemma transform_without_rates_witness :
  exists s',
    transform
      (Sample.env (inr Sample.page)
         (inl (mkExn OSError "[Errno 2] No such file or directory: 'exchange_rate.csv'")))
      0 "exchange_rate.csv" (Sample.holding Sample.one_bank)
    = (inl (mkExn OSError "[Errno 2] No such file or directory: 'exchange_rate.csv'"), s') /\
    heap s' = heap (Sample.holding Sample.one_bank) /\
    log_sink s' =
      inr ([] ++
           [log_line
              (Sample.env (inr Sample.page)
                 (inl (mkExn OSError
                         "[Errno 2] No such file or directory: 'exchange_rate.csv'")))
              (ticks (Sample.holding Sample.one_bank)) "Starting data transformation";
            log_line
              (Sample.env (inr Sample.page)
                 (inl (mkExn OSError
                         "[Errno 2] No such file or directory: 'exchange_rate.csv'")))
              (S (ticks (Sample.holding Sample.one_bank)))
              ("Error during transformation: "
               +:+ exn_str (mkExn OSError
                              "[Errno 2] No such file or directory: 'exchange_rate.csv'"))]).
Proof.
  apply (transform_without_rates
           (Sample.env (inr Sample.page)
              (inl (mkExn OSError
                      "[Errno 2] No such file or directory: 'exchange_rate.csv'")))
           0 "exchange_rate.csv" (Sample.holding Sample.one_bank) []);
    reflexivity.
Defined.

(** X10: on a frame that has no column [MC_USD_Billion], [transform] logs and
    raises [KeyError('MC_USD_Billion')], whatever the rates, and leaves the
    frame as it was. *)
Theorem transform_without_usd_column
    (E : Env) (df : nat) (csv_path : string) (s : State) (lines : list string)
    (f : Frame) (rates : gmap string float) :
  log_sink s = inr lines ->
  heap s !! df = Some f ->
  column f "MC_USD_Billion" = None ->
  read_rates E csv_path = inr rates ->
  exists s',
    transform E df csv_path s = (inl (mkExn KeyError "'MC_USD_Billion'"), s') /\
    heap s' = heap s /\
    log_sink s' =
      inr (lines ++ [log_line E (ticks s) "Starting data transformation";
                     log_line E (S (ticks s))
                       "Error during transformation: 'MC_USD_Billion'"]).
Proof.
  intros Hlog Hf Hc Hr. eexists. split.
  - eapply transform_raises.
    + unfold transform_body.
      rewrite (bind_ok _ _ _ _ _ (log_progress_writable _ _ _ _ Hlog)).
      unfold lift at 1, bind at 1. rewrite Hr.
      unfold currencies. cbn [for_each]. rewrite bind_assoc.
      apply bind_raise. unfold convert, bind, get_frame, lift, getitem. simpl.
      rewrite Hf, Hc. reflexivity.
    + reflexivity.
  - simpl. rewrite <- app_assoc. split; reflexivity.
Qed.

Lemma transform_without_usd_column_witness :
  exists s',
    transform Sample.world 0 "exchange_rate.csv"
      (Sample.holding [("Name", [CStr "ICBC"])])
    = (inl (mkExn KeyError "'MC_USD_Billion'"), s') /\
    heap s' = heap (Sample.holding [("Name", [CStr "ICBC"])]) /\
    log_sink s' =
      inr ([] ++
           [log_line Sample.world (ticks (Sample.holding [("Name", [CStr "ICBC"])]))
              "Starting data transformation";
            log_line Sample.world (S (ticks (Sample.holding [("Name", [CStr "ICBC"])])))
              "Error during transformation: 'MC_USD_Billion'"]).
Proof.
  apply (transform_without_usd_column Sample.world 0 "exchange_rate.csv"
           (Sample.holding [("Name", [CStr "ICBC"])]) []
           [("Name", [CStr "ICBC"])] Sample.rates);
    reflexivity.
Defined.

Lemma series_mul_rejects v rate :
  (exists t, CStr t ∈ v) ->
  exists e, series_mul v rate = inl e /\ exn_class e = TypeError.
Proof.
  intros (t & Hin). induction v as [|c0 v IH]; [inversion Hin|].
  simpl. destruct c0 as [t0|x|n|]; simpl; [eauto|..];
    (apply elem_of_cons in Hin as [Hin|Hin]; [discriminate Hin|];
     destruct (IH Hin) as (e & -> & He); eauto).
Qed.

(** X11: a market capitalisation that is text cannot be converted: if some
    cell of [MC_USD_Billion] is a string, [transform] logs and raises a
    [TypeError] at the first currency and leaves the frame as it was. *)
Theorem transform_rejects_text_values
    (E : Env) (df : nat) (csv_path : string) (s : State) (lines : list string)
    (f : Frame) (cells : list Cell) (rates : gmap string float) (gbp : float) :
  log_sink s = inr lines ->
  heap s !! df = Some f ->
  column f "MC_USD_Billion" = Some cells ->
  (exists t, CStr t ∈ cells) ->
  read_rates E csv_path = inr rates ->
  rates !! "GBP" = Some gbp ->
  exists e s',
    transform E df csv_path s = (inl e, s') /\
    exn_class e = TypeError /\
    heap s' = heap s /\
    log_sink s' =
      inr (lines ++ [log_line E (ticks s) "Starting data transformation";
                     log_line E (S (ticks s))
                       ("Error during transformation: " +:+ exn_str e)]).
Proof.
  intros Hlog Hf Hc [t Hin] Hr Hg.
  destruct (series_mul_rejects cells gbp) as (e & Hmul & He).
  { exists t. exact Hin. }
  exists e. eexists. split; [|split; [exact He|]].
  - eapply transform_raises.
    + unfold transform_body.
      rewrite (bind_ok _ _ _ _ _ (log_progress_writable _ _ _ _ Hlog)).
      unfold lift at 1, bind at 1. rewrite Hr.
      unfold currencies. cbn [for_each]. rewrite bind_assoc.
      apply bind_raise. unfold convert, bind, get_frame, lift, getitem, rate_of. simpl.
      rewrite Hf, Hc, Hg, Hmul. reflexivity.
    + reflexivity.
  - simpl. rewrite <- app_assoc. split; reflexivity.
Qed.

Lemma transform_rejects_text_values_witness :
  exists e s',
    transform Sample.world 0 "exchange_rate.csv"
      (Sample.holding [("Name", [CStr "ICBC"]); ("MC_USD_Billion", [CStr "n/a"])])
    = (inl e, s') /\
    exn_class e = TypeError /\
    heap s' = heap (Sample.holding
                      [("Name", [CStr "ICBC"]); ("MC_USD_Billion", [CStr "n/a"])]) /\
    log_sink s' =
      inr ([] ++
           [log_line Sample.world
              (ticks (Sample.holding
                        [("Name", [CStr "ICBC"]); ("MC_USD_Billion", [CStr "n/a"])]))
              "Starting data transformation";
            log_line Sample.world
              (S (ticks (Sample.holding
                           [("Name", [CStr "ICBC"]); ("MC_USD_Billion", [CStr "n/a"])])))
              ("Error during transformation: " +:+ exn_str e)]).
Proof.
  apply (transform_rejects_text_values Sample.world 0 "exchange_rate.csv"
           (Sample.holding [("Name", [CStr "ICBC"]); ("MC_USD_Billion", [CStr "n/a"])])
           [] [("Name", [CStr "ICBC"]); ("MC_USD_Billion", [CStr "n/a"])]
           [CStr "n/a"] Sample.rates 0.8%float);
    try reflexivity.
  exists "n/a". left.
Defined.

(** ** Shape of the transformed frame *)

Lemma set_column_same f c v : column f c = Some v -> set_column f c v = f.
Proof.
  induction f as [|[c0 v0] rest IH]; simpl; [discriminate|].
  destruct (String.eqb_spec c0 c) as [->|Hne].
  - intros [= ->]. reflexivity.
  - intros H. rewrite (IH H). reflexivity.
Qed.

Lemma column_None_not_in f c : column f c = None <-> c ∉ columns f.
Proof.
  induction f as [|[c0 v0] rest IH]; simpl.
  - split; [intros _ H; inversion H|reflexivity].
  - destruct (String.eqb_spec c0 c) as [->|Hne].
    + split; [discriminate|]. intros H. exfalso. apply H. left.
    + rewrite IH. split.
      * intros H Hin. apply elem_of_cons in Hin as [->|Hin]; [congruence|auto].
      * intros H Hin. apply H. right. exact Hin.
Qed.

Lemma columns_set_column_new f c v :
  c ∉ columns f -> columns (set_column f c v) = columns f ++ [c].
Proof.
  induction f as [|[c0 v0] rest IH]; simpl; [reflexivity|].
  intros Hnin. destruct (String.eqb_spec c0 c) as [->|Hne].
  - exfalso. apply Hnin. left.
  - simpl. rewrite IH; [reflexivity|]. intros Hin. apply Hnin. right. exact Hin.
Qed.

Lemma columns_set_column_old f c v :
  c ∈ columns f -> columns (set_column f c v) = columns f.
Proof.
  induction f as [|[c0 v0] rest IH]; simpl; [intros H; inversion H|].
  intros Hin. destruct (String.eqb_spec c0 c) as [->|Hne]; [reflexivity|].
  simpl. rewrite IH; [reflexivity|].
  apply elem_of_cons in Hin as [->|Hin]; [congruence|exact Hin].
Qed.

Lemma set_column_NoDup f c v :
  NoDup (columns f) -> NoDup (columns (set_column f c v)).
Proof.
  intros Hnd. destruct (decide (c ∈ columns f)) as [Hin|Hnin].
  - rewrite columns_set_column_old by exact Hin. exact Hnd.
  - rewrite columns_set_column_new by exact Hnin.
    apply NoDup_app. split; [exact Hnd|]. split; [|apply NoDup_singleton].
    intros x Hx Hc. apply list_elem_of_singleton in Hc as ->. auto.
Qed.

Lemma set_column_lengths f c v n :
  Forall (fun p : string * list Cell => length (snd p) = n) f -> length v = n ->
  Forall (fun p : string * list Cell => length (snd p) = n) (set_column f c v).
Proof.
  intros Hf Hv. induction f as [|[c0 v0] rest IH]; simpl.
  - constructor; [exact Hv|constructor].
  - apply Forall_cons in Hf as [H0 Hrest].
    destruct (String.eqb c0 c); constructor; auto.
Qed.

Lemma set_column_shape f c v :
  f <> [] -> rectangular f -> length v = nrows f ->
  nrows (set_column f c v) = nrows f /\ rectangular (set_column f c v).
Proof.
  intros Hne Hrect Hlen.
  assert (Hn : nrows (set_column f c v) = nrows f).
  { destruct f as [|[c0 v0] rest]; [congruence|]. simpl.
    destruct (String.eqb c0 c); simpl; [exact Hlen|reflexivity]. }
  split; [exact Hn|]. unfold rectangular. rewrite Hn.
  apply set_column_lengths; assumption.
Qed.

Lemma set_column_nonempty f c v : set_column f c v <> [].
Proof.
  destruct f as [|[c0 v0] rest]; simpl; [discriminate|].
  destruct (String.eqb c0 c); discriminate.
Qed.

Lemma length_derived usd rate : length (derived usd rate) = length usd.
Proof. unfold derived. apply length_map. Qed.

Lemma length_usd_column f usd :
  rectangular f -> column f "MC_USD_Billion" = Some (map CNum usd) ->
  length usd = nrows f /\ f <> [].
Proof.
  intros Hrect Hc. split.
  - pose proof (length_column_or_nan f "MC_USD_Billion" Hrect) as H.
    unfold column_or_nan in H. rewrite Hc, length_map in H. exact H.
  - intros ->. discriminate Hc.
Qed.

(** X12: [transform] keeps the frame a table.  On a frame whose labels are
    distinct and whose columns all have one length, the result has the same
    number of rows, its labels are distinct and its columns still have one
    length; and when the frame had none of the three derived columns, they
    come after the columns it had, in the order GBP, EUR, INR: from
    [Name, MC_USD_Billion] this is the column order of the file and of the
    table written next. *)
Theorem transform_keeps_the_shape
    (E : Env) (df : nat) (csv_path : string) (s : State) (lines : list string)
    (f : Frame) (usd : list float) (rates : gmap string float)
    (gbp eur inr_ : float) :
  log_sink s = inr lines ->
  heap s !! df = Some f ->
  rectangular f ->
  NoDup (columns f) ->
  column f "MC_USD_Billion" = Some (map CNum usd) ->
  read_rates E csv_path = inr rates ->
  rates !! "GBP" = Some gbp ->
  rates !! "EUR" = Some eur ->
  rates !! "INR" = Some inr_ ->
  exists s' f',
    transform E df csv_path s = (inr df, s') /\
    heap s' !! df = Some f' /\
    nrows f' = nrows f /\
    rectangular f' /\
    NoDup (columns f') /\
    ((forall c, c ∈ ["MC_GBP_Billion"; "MC_EUR_Billion"; "MC_INR_Billion"] ->
        c ∉ columns f) ->
     columns f' =
       columns f ++ ["MC_GBP_Billion"; "MC_EUR_Billion"; "MC_INR_Billion"]).
Proof.
  intros Hlog Hf Hrect Hnd Husd Hr Hg He Hi.
  destruct (length_usd_column f usd Hrect Husd) as [Hlen Hne].
  eexists _, _. split.
  { unfold transform. apply try_except_returns.
    eapply transform_body_returns; eassumption. }
  simpl. split; [eapply heap_insert_lookup, Hf|].
  destruct (set_column_shape f "MC_GBP_Billion" (derived usd gbp) Hne Hrect)
    as [Hn1 Hr1]; [rewrite length_derived; exact Hlen|].
  destruct (set_column_shape _ "MC_EUR_Billion" (derived usd eur)
              (set_column_nonempty f _ _) Hr1)
    as [Hn2 Hr2]; [rewrite length_derived, Hn1; exact Hlen|].
  destruct (set_column_shape _ "MC_INR_Billion" (derived usd inr_)
              (set_column_nonempty _ _ _) Hr2)
    as [Hn3 Hr3]; [rewrite length_derived, Hn2, Hn1; exact Hlen|].
  split; [congruence|]. split; [exact Hr3|].
  split; [repeat apply set_column_NoDup; exact Hnd|].
  intros Hnew.
  rewrite columns_set_column_new, columns_set_column_new, columns_set_column_new.
  - rewrite <- !app_assoc. reflexivity.
  - apply Hnew. left.
  - rewrite columns_set_column_new by (apply Hnew; left).
    intros Hin. apply elem_of_app in Hin as [Hin|Hin].
    + revert Hin. apply Hnew. right. left.
    + apply list_elem_of_singleton in Hin. discriminate Hin.
  - rewrite columns_set_column_new, columns_set_column_new.
    + intros Hin. rewrite <- app_assoc in Hin. apply elem_of_app in Hin as [Hin|Hin].
      * revert Hin. apply Hnew. right. right. left.
      * apply elem_of_cons in Hin as [Hin|Hin]; [discriminate Hin|].
        apply list_elem_of_singleton in Hin. discriminate Hin.
    + apply Hnew. left.
    + rewrite columns_set_column_new by (apply Hnew; left).
      intros Hin. apply elem_of_app in Hin as [Hin|Hin].
      * revert Hin. apply Hnew. right. left.
      * apply list_elem_of_singleton in Hin. discriminate Hin.
Qed.

Lemma transform_keeps_the_shape_witness :
  exists s' f',
    transform Sample.world 0 "exchange_rate.csv" (Sample.holding Sample.one_bank)
    = (inr 0, s') /\
    heap s' !! 0 = Some f' /\
    nrows f' = nrows Sample.one_bank /\
    rectangular f' /\
    NoDup (columns f') /\
    ((forall c, c ∈ ["MC_GBP_Billion"; "MC_EUR_Billion"; "MC_INR_Billion"] ->
        c ∉ columns Sample.one_bank) ->
     columns f' =
       columns Sample.one_bank
       ++ ["MC_GBP_Billion"; "MC_EUR_Billion"; "MC_INR_Billion"]).
Proof.
  apply (transform_keeps_the_shape Sample.world 0 "exchange_rate.csv"
           (Sample.holding Sample.one_bank) [] Sample.one_bank [10%float]
           Sample.rates 0.8%float 0.93%float 82.5%float);
    try reflexivity.
  - unfold rectangular. repeat constructor.
  - exact NoDup_record_labels.
Defined.

(** X13: transforming a frame that has been transformed changes nothing in
    it: on a frame with distinct labels, a second [transform] with the same
    rates returns the same frame, column for column; only the log gets
    longer. *)
Theorem transform_twice_is_once
    (E : Env) (df : nat) (csv_path : string) (s : State) (lines : list string)
    (f : Frame) (usd : list float) (rates : gmap string float)
    (gbp eur inr_ : float) :
  log_sink s = inr lines ->
  heap s !! df = Some f ->
  NoDup (columns f) ->
  column f "MC_USD_Billion" = Some (map CNum usd) ->
  read_rates E csv_path = inr rates ->
  rates !! "GBP" = Some gbp ->
  rates !! "EUR" = Some eur ->
  rates !! "INR" = Some inr_ ->
  exists s1 s2,
    transform E df csv_path s = (inr df, s1) /\
    transform E df csv_path s1 = (inr df, s2) /\
    heap s2 = heap s1.
Proof.
  intros Hlog Hf _ Husd Hr Hg He Hi.
  eexists _, _. split.
  { unfold transform. apply try_except_returns.
    eapply transform_body_returns; eassumption. }
  set (f3 := set_column _ "MC_INR_Billion" _).
  assert (H3 : <[df := f3]> (heap s) !! df = Some f3)
    by (eapply heap_insert_lookup, Hf).
  assert (Hu3 : column f3 "MC_USD_Billion" = Some (map CNum usd))
    by (unfold f3; rewrite !column_set_column; exact Husd).
  split.
  { unfold transform. apply try_except_returns.
    eapply transform_body_returns; try eassumption; reflexivity. }
  cbn [heap]. fold f3. rewrite list_insert_insert_eq. f_equal.
  assert (Hg3 : column f3 "MC_GBP_Billion" = Some (derived usd gbp))
    by (unfold f3; rewrite !column_set_column; reflexivity).
  rewrite (set_column_same f3 _ _ Hg3).
  assert (He3 : column f3 "MC_EUR_Billion" = Some (derived usd eur))
    by (unfold f3; rewrite !column_set_column; reflexivity).
  rewrite (set_column_same f3 _ _ He3).
  apply set_column_same. unfold f3. rewrite !column_set_column. reflexivity.
Qed.

Lemma transform_twice_is_once_witness :
  exists s1 s2,
    transform Sample.world 0 "exchange_rate.csv" (Sample.holding Sample.one_bank)
    = (inr 0, s1) /\
    transform Sample.world 0 "exchange_rate.csv" s1 = (inr 0, s2) /\
    heap s2 = heap s1.
Proof.
  apply (transform_twice_is_once Sample.world 0 "exchange_rate.csv"
           (Sample.holding Sample.one_bank) [] Sample.one_bank [10%float]
           Sample.rates 0.8%float 0.93%float 82.5%float);
    try reflexivity.
  exact NoDup_record_labels.
Defined.

(** ** The file and the table *)

Lemma untouched_load_to_csv {X} (proj : State -> X) E df path :
  ignores set_log proj -> ignores set_ticks proj ->
  untouched proj (to_csv E df path) ->
  untouched proj (load_to_csv E df path).
Proof.
  intros Hl Ht Hs. unfold load_to_csv, load_to_csv_body.
  repeat first [ exact Hs | frame_step ].
Qed.

Lemma load_to_csv_returns E df output_path s lines f :
  log_sink s = inr lines -> heap s !! df = Some f ->
  to_csv_fault E output_path = None ->
  load_to_csv E df output_path s =
    (inr tt,
     mkState
       (inr (lines ++ [log_line E (ticks s) "Saving data to CSV file";
                       log_line E (S (ticks s))
                         ("Data saved to CSV file: " +:+ output_path)]))
       (S (S (ticks s))) (stdout s) (heap s)
       (<[output_path := f]> (csv_files s)) (db s) (conns s) (globals s)).
Proof.
  intros Hlog Hf Hok.
  unfold load_to_csv. apply try_except_returns. unfold load_to_csv_body.
  rewrite (bind_ok _ _ _ _ _ (log_progress_writable _ _ _ _ Hlog)).
  unfold to_csv, get_frame. unfold bind at 1 2. simpl. rewrite Hf, Hok.
  erewrite log_progress_writable by reflexivity.
  simpl. rewrite <- app_assoc. reflexivity.
Qed.

(** X14: [load_to_csv] writes the file and the log, and nothing else.  When
    the frame can be written, the file at [output_path] holds that frame
    afterwards, whatever it held before, and two lines are logged.  In
    every case, also when it raises, the frames, the tables, the
    connections, the names and the output are what they were. *)
Theorem load_to_csv_writes_the_file
    (E : Env) (df : nat) (output_path : string) (s : State) :
  let s' := snd (load_to_csv E df output_path s) in
  (forall lines f,
     log_sink s = inr lines -> heap s !! df = Some f ->
     to_csv_fault E output_path = None ->
     fst (load_to_csv E df output_path s) = inr tt /\
     csv_files s' !! output_path = Some f /\
     log_sink s' =
       inr (lines ++ [log_line E (ticks s) "Saving data to CSV file";
                      log_line E (S (ticks s))
                        ("Data saved to CSV file: " +:+ output_path)])) /\
  heap s' = heap s /\ db s' = db s /\ conns s' = conns s /\
  globals s' = globals s /\ stdout s' = stdout s.
Proof.
  intros s'. subst s'. split; [|repeat split].
  - intros lines f Hlog Hf Hok.
    rewrite (load_to_csv_returns _ _ _ _ _ _ Hlog Hf Hok). simpl.
    rewrite lookup_insert_eq. repeat split.
  - apply (untouched_load_to_csv heap); auto with frame.
  - apply (untouched_load_to_csv db); auto with frame.
  - apply (untouched_load_to_csv conns); auto with frame.
  - apply (untouched_load_to_csv globals); auto with frame.
  - apply (untouched_load_to_csv stdout); auto with frame.
Qed.

Lemma load_to_csv_writes_the_file_witness :
  fst (load_to_csv Sample.world 0 output_csv_path (Sample.holding Sample.one_bank))
  = inr tt /\
  csv_files (snd (load_to_csv Sample.world 0 output_csv_path
                    (Sample.holding Sample.one_bank))) !! output_csv_path
  = Some Sample.one_bank /\
  log_sink (snd (load_to_csv Sample.world 0 output_csv_path
                   (Sample.holding Sample.one_bank)))
  = inr ([] ++ [log_line Sample.world (ticks (Sample.holding Sample.one_bank))
                  "Saving data to CSV file";
                log_line Sample.world (S (ticks (Sample.holding Sample.one_bank)))
                  ("Data saved to CSV file: " +:+ output_csv_path)]).
Proof.
  apply (proj1 (load_to_csv_writes_the_file Sample.world 0 output_csv_path
                  (Sample.holding Sample.one_bank)) [] Sample.one_bank);
    reflexivity.
Defined.

(** The statements of the script, word by word. *)
Lemma words_count_query :
  String.words ("SELECT COUNT(*) AS row_count FROM " +:+ "Largest_banks")
  = ["SELECT"; "COUNT(*)"; "AS"; "row_count"; "FROM"; "Largest_banks"].
Proof. vm_compute. reflexivity. Qed.

Lemma select_count (d : gmap string Frame) tbl :
  d !! "Largest_banks" = Some tbl ->
  select d ("SELECT COUNT(*) AS row_count FROM " +:+ "Largest_banks")
  = Some (inr [("row_count", [CInt (nrows tbl)])]).
Proof.
  intros Hd. unfold select. rewrite words_count_query.
  cbn [String.eqb Ascii.eqb Bool.eqb]. unfold table_of. rewrite Hd. reflexivity.
Qed.



Lemma load_to_db_returns E df conn s lines f :
  log_sink s = inr lines ->
  heap s !! df = Some f ->
  conns s !! conn = Some true ->
  load_to_db E df conn "Largest_banks" s =
    (inr tt,
     mkState
       (inr (lines ++
             [log_line E (ticks s) "Starting to load data to Largest_banks table";
              log_line E (S (ticks s)) "Data successfully loaded to Largest_banks table";
              log_line E (S (S (ticks s)))
                ("Verified " +:+ string_of_nat (nrows f)
                 +:+ " rows loaded to Largest_banks")]))
       (S (S (S (ticks s)))) (stdout s) (heap s) (csv_files s)
       (<["Largest_banks" := sql_table f]> (db s)) (conns s) (globals s)).
Proof.
  intros Hlog Hf Hc. unfold load_to_db. apply try_except_returns.
  unfold load_to_db_body.
  erewrite bind_ok by (apply log_progress_writable; exact Hlog).
  unfold to_sql_replace, get_frame, check_open. unfold bind at 1 2 3.
  cbn [heap conns set_log set_ticks]. rewrite Hf.
  cbn [heap conns set_log set_ticks]. rewrite Hc.
  erewrite bind_ok by (apply log_progress_writable; reflexivity).
  cbv zeta. unfold read_sql, check_open. unfold bind at 1 2.
  cbn [heap conns db set_log set_ticks set_db]. rewrite Hc.
  rewrite (select_count _ (sql_table f)) by apply lookup_insert_eq.
  change (fetched [("row_count", [CInt (nrows (sql_table f))])])
    with [("row_count", [CInt (nrows (sql_table f))])].
  unfold lift, iloc00. unfold bind at 1.
  erewrite log_progress_writable by reflexivity.
  cbn [cell_str]. rewrite nrows_sql_table.
  f_equal. unfold set_log, set_ticks, set_db. cbn [log_sink ticks stdout heap csv_files
    db conns globals]. rewrite <- !app_assoc. reflexivity.
Qed.

(** X15: [load_to_db] checks what it wrote: loading a frame of bank records
    into [Largest_banks] over an open connection returns, leaves the rows of
    the frame as the table, and logs
    ["Verified n rows loaded to Largest_banks"] where [n] is the number of
    records of the frame. *)
Theorem load_to_db_verifies_the_count
    (E : Env) (df conn : nat) (s : State) (lines : list string) (f : Frame)
    (names : list string) :
  log_sink s = inr lines ->
  heap s !! df = Some f ->
  conns s !! conn = Some true ->
  bank_records f names ->
  exists s',
    load_to_db E df conn "Largest_banks" s = (inr tt, s') /\
    db s' !! "Largest_banks" = Some (sql_table f) /\
    log_sink s' =
      inr (lines ++
           [log_line E (ticks s) "Starting to load data to Largest_banks table";
            log_line E (S (ticks s)) "Data successfully loaded to Largest_banks table";
            log_line E (S (S (ticks s)))
              ("Verified " +:+ string_of_nat (nrows f)
               +:+ " rows loaded to Largest_banks")]).
Proof.
  intros Hlog Hf Hc _. eexists. split; [apply load_to_db_returns; eassumption|].
  simpl. rewrite lookup_insert_eq. split; reflexivity.
Qed.

Lemma load_to_db_verifies_the_count_witness :
  exists s',
    load_to_db Sample.world 0 0 "Largest_banks" (Sample.connected Sample.one_bank)
    = (inr tt, s') /\
    db s' !! "Largest_banks" = Some (sql_table Sample.one_bank) /\
    log_sink s' =
      inr ([] ++
           [log_line Sample.world (ticks (Sample.connected Sample.one_bank))
              "Starting to load data to Largest_banks table";
            log_line Sample.world (S (ticks (Sample.connected Sample.one_bank)))
              "Data successfully loaded to Largest_banks table";
            log_line Sample.world (S (S (ticks (Sample.connected Sample.one_bank))))
              ("Verified " +:+ string_of_nat (nrows Sample.one_bank)
               +:+ " rows loaded to Largest_banks")]).
Proof.
  apply (load_to_db_verifies_the_count Sample.world 0 0
           (Sample.connected Sample.one_bank) [] Sample.one_bank ["ICBC"]);
    try reflexivity.
  split; [exact NoDup_record_labels|].
  split; [unfold rectangular; repeat constructor|].
  split; [reflexivity|].
  intros c v Hin Hne.
  apply elem_of_cons in Hin as [[= -> ->]|Hin]; [congruence|].
  apply list_elem_of_singleton in Hin as [= -> ->].
  exists [10%float]. reflexivity.
Defined.


Lemma sql_table_without_nan f :
  (forall c v x, (c, v) ∈ f -> CNum x ∈ v -> PrimFloat.is_nan x = false) ->
  sql_table f = f.
Proof.
  intros H. unfold sql_table. induction f as [|[c v] rest IH]; [reflexivity|].
  simpl. f_equal.
  - f_equal. assert (Hv : forall x, CNum x ∈ v -> PrimFloat.is_nan x = false).
    { intros x Hx. apply (H c v x); [left|exact Hx]. }
    clear H IH. induction v as [|c0 v IHv]; [reflexivity|]. simpl. f_equal.
    + destruct c0 as [|x| |]; try reflexivity. simpl. rewrite Hv; [reflexivity|left].
    + apply IHv. intros x Hx. apply Hv. right. exact Hx.
  - apply IH. intros c' v' x Hin. apply (H c' v' x). right. exact Hin.
Qed.












(** ** The log and the output only get longer *)

Lemma grows_untouched {A X} (proj : State -> list X) (m : M A) :
  untouched proj m -> grows proj m.
Proof. intros H s. rewrite H. reflexivity. Qed.

Lemma grows_bind {A B X} (proj : State -> list X) (m : M A) (k : A -> M B) :
  grows proj m -> (forall a, grows proj (k a)) -> grows proj (bind m k).
Proof.
  intros Hm Hk s. unfold bind. specialize (Hm s).
  destruct (m s) as [[e|a] s1]; [exact Hm|].
  etransitivity; [exact Hm|apply Hk].
Qed.

Lemma grows_try_except {A X} (proj : State -> list X) (body : M A) handler :
  grows proj body -> (forall e, grows proj (handler e)) ->
  grows proj (try_except body handler).
Proof.
  intros Hb Hh s. unfold try_except. specialize (Hb s).
  destruct (body s) as [[e|a] s1]; [|exact Hb].
  etransitivity; [exact Hb|apply Hh].
Qed.

Lemma grows_try_finally {X} (proj : State -> list X) (body final : M unit) :
  grows proj body -> grows proj final -> grows proj (try_finally body final).
Proof.
  intros Hb Hf s. unfold try_finally. specialize (Hb s).
  destruct (body s) as [r s1]. specialize (Hf s1).
  destruct (final s1) as [[e|[]] s2]; simpl in *; etransitivity; eassumption.
Qed.

Lemma grows_if_bound {X} (proj : State -> list X) name body :
  grows proj body -> grows proj (if_bound name body).
Proof.
  intros Hb s. unfold if_bound. destruct (globals s !! name); [apply Hb|reflexivity].
Qed.

Lemma grows_for_each {A X} (proj : State -> list X) (l : list A) body :
  (forall a, grows proj (body a)) -> grows proj (for_each l body).
Proof.
  intros Hb. induction l as [|a l IH]; simpl.
  - apply grows_untouched, untouched_ret.
  - apply grows_bind; [apply Hb|intros _; exact IH].
Qed.

Lemma grows_log_progress E message : grows log_lines (log_progress E message).
Proof.
  intros s. unfold log_lines at 1. destruct (log_sink s) as [e|lines] eqn:Hs.
  - apply prefix_nil.
  - rewrite (log_progress_writable _ _ _ _ Hs). apply prefix_app_r. reflexivity.
Qed.

Lemma grows_print o : grows stdout (print o).
Proof. intros s. simpl. apply prefix_app_r. reflexivity. Qed.

Lemma grows_verify_log : grows stdout verify_log /\ grows log_lines verify_log.
Proof.
  split; intros s; unfold verify_log, log_lines; destruct (log_sink s) eqn:Hs;
    simpl; rewrite ?Hs; try reflexivity.
  apply prefix_app_r. reflexivity.
Qed.

#[export] Hint Resolve grows_log_progress grows_print : frame.

Ltac grows_step :=
  first
    [ solve [auto with frame]
    | solve [apply grows_untouched; auto with frame]
    | apply grows_try_finally
    | apply grows_try_except; [|intros ?]
    | apply grows_if_bound
    | apply grows_for_each; intros ?
    | apply grows_bind; [|intros ?]
    | progress cbv zeta ].

Ltac grows_tac := repeat grows_step.

Lemma grows_read_sql {X} (proj : State -> list X) E query conn :
  grows proj (read_sql E query conn).
Proof. apply grows_untouched. auto with frame. Qed.

#[export] Hint Resolve grows_read_sql : frame.

Lemma stages_extend_the_log E :
  (forall url attrs, grows log_lines (extract E url attrs)) /\
  (forall df p, grows log_lines (transform E df p)) /\
  (forall df p, grows log_lines (load_to_csv E df p)) /\
  (forall df c t, grows log_lines (load_to_db E df c t)) /\
  (forall q c, grows log_lines (run_queries E q c)).
Proof.
  repeat split; intros.
  - unfold extract. grows_tac.
  - unfold transform, transform_body, convert, setitem. grows_tac.
  - unfold load_to_csv, load_to_csv_body. grows_tac.
  - unfold load_to_db, load_to_db_body, to_sql_replace. grows_tac.
  - unfold run_queries, run_queries_body. grows_tac.
Qed.

Lemma stages_extend_the_output E :
  (forall url attrs, grows stdout (extract E url attrs)) /\
  (forall df p, grows stdout (transform E df p)) /\
  (forall df p, grows stdout (load_to_csv E df p)) /\
  (forall df c t, grows stdout (load_to_db E df c t)) /\
  (forall q c, grows stdout (run_queries E q c)).
Proof.
  repeat split; intros.
  - unfold extract. grows_tac.
  - unfold transform, transform_body, convert, setitem. grows_tac.
  - unfold load_to_csv, load_to_csv_body. grows_tac.
  - unfold load_to_db, load_to_db_body, to_sql_replace. grows_tac.
  - unfold run_queries, run_queries_body. grows_tac.
Qed.

Lemma grows_log_extract E url attrs : grows log_lines (extract E url attrs).
Proof. apply stages_extend_the_log. Qed.
Lemma grows_log_transform E df p : grows log_lines (transform E df p).
Proof. apply stages_extend_the_log. Qed.
Lemma grows_log_load_to_csv E df p : grows log_lines (load_to_csv E df p).
Proof. apply stages_extend_the_log. Qed.
Lemma grows_log_load_to_db E df c t : grows log_lines (load_to_db E df c t).
Proof. apply stages_extend_the_log. Qed.
Lemma grows_log_run_queries E q c : grows log_lines (run_queries E q c).
Proof. apply stages_extend_the_log. Qed.
Lemma grows_out_extract E url attrs : grows stdout (extract E url attrs).
Proof. apply stages_extend_the_output. Qed.
Lemma grows_out_transform E df p : grows stdout (transform E df p).
Proof. apply stages_extend_the_output. Qed.
Lemma grows_out_load_to_csv E df p : grows stdout (load_to_csv E df p).
Proof. apply stages_extend_the_output. Qed.
Lemma grows_out_load_to_db E df c t : grows stdout (load_to_db E df c t).
Proof. apply stages_extend_the_output. Qed.
Lemma grows_out_run_queries E q c : grows stdout (run_queries E q c).
Proof. apply stages_extend_the_output. Qed.

#[export] Hint Resolve grows_log_extract grows_log_transform grows_log_load_to_csv
  grows_log_load_to_db grows_log_run_queries grows_out_extract grows_out_transform
  grows_out_load_to_csv grows_out_load_to_db grows_out_run_queries : frame.

Lemma script_extends_log_and_output E :
  grows log_lines (script E) /\ grows stdout (script E).
Proof.
  split.
  - unfold script, extraction, transformation, transformation_body, file_save,
      store_load, store_load_body, store_load_finally, queries, queries_body,
      queries_finally, print_frame.
    repeat first [ apply (proj2 grows_verify_log) | grows_step ].
  - unfold script, extraction, transformation, transformation_body, file_save,
      store_load, store_load_body, store_load_finally, queries, queries_body,
      queries_finally, print_frame.
    repeat first [ apply (proj1 grows_verify_log) | grows_step ].
Qed.

(** X17: the log file and the output are append-only.  Through each stage
    and through the whole script, whether it ends well or not, the lines
    that the log held are still there, in place, and so is what had been
    printed: nothing is rewritten or dropped. *)
Theorem log_and_output_only_grow (E : Env) :
  (forall url attrs s,
     log_lines s `prefix_of` log_lines (snd (extract E url attrs s)) /\
     stdout s `prefix_of` stdout (snd (extract E url attrs s))) /\
  (forall df csv_path s,
     log_lines s `prefix_of` log_lines (snd (transform E df csv_path s)) /\
     stdout s `prefix_of` stdout (snd (transform E df csv_path s))) /\
  (forall df output_path s,
     log_lines s `prefix_of` log_lines (snd (load_to_csv E df output_path s)) /\
     stdout s `prefix_of` stdout (snd (load_to_csv E df output_path s))) /\
  (forall df conn table_name s,
     log_lines s `prefix_of` log_lines (snd (load_to_db E df conn table_name s)) /\
     stdout s `prefix_of` stdout (snd (load_to_db E df conn table_name s))) /\
  (forall query conn s,
     log_lines s `prefix_of` log_lines (snd (run_queries E query conn s)) /\
     stdout s `prefix_of` stdout (snd (run_queries E query conn s))) /\
  (forall s,
     log_lines s `prefix_of` log_lines (snd (script E s)) /\
     stdout s `prefix_of` stdout (snd (script E s))).
Proof.
  destruct (script_extends_log_and_output E) as [Hlog Hout].
  repeat split; intros;
    first [ apply Hlog | apply Hout
          | apply grows_log_extract | apply grows_out_extract
          | apply grows_log_transform | apply grows_out_transform
          | apply grows_log_load_to_csv | apply grows_out_load_to_csv
          | apply grows_log_load_to_db | apply grows_out_load_to_db
          | apply grows_log_run_queries | apply grows_out_run_queries ].
Qed.

(** ** Connections are closed *)

Lemma try_except_bind_ok {A B} (m : M A) (k : A -> M B) handler s a s1 :
  m s = (inr a, s1) ->
  try_except (bind m k) handler s = try_except (k a) handler s1.
Proof. intros H. unfold try_except. rewrite (bind_ok _ _ _ _ _ H). reflexivity. Qed.

#[export] Hint Resolve untouched_to_sql_replace untouched_load_to_db
  untouched_run_queries : frame.

Lemma close_last (cs : list bool) :
  <[length cs := false]> (cs ++ [true]) = cs ++ [false].
Proof.
  rewrite insert_app_r_alt by lia. rewrite Nat.sub_diag. reflexivity.
Qed.

Lemma guarded_bind_ok {A} (m : M A) (k : A -> M unit) handler final s a s1 :
  m s = (inr a, s1) ->
  try_finally (try_except (bind m k) handler) final s
  = try_finally (try_except (k a) handler) final s1.
Proof.
  intros H. unfold try_finally. rewrite (try_except_bind_ok _ _ _ _ _ _ H).
  reflexivity.
Qed.

(** After the connection is bound: whatever the rest of a block does, the
    handler and the [finally] block leave the block with that connection
    closed. *)
Lemma block_closes_connection (rest : M unit) handler (tail : M unit) s c cs :
  writable s ->
  conns s = cs ++ [true] -> c = length cs ->
  globals s !! "sql_connection" = Some c ->
  untouched conns rest -> (forall e, untouched conns (handler e)) ->
  untouched (fun s => globals s !! "sql_connection") rest ->
  (forall e, untouched (fun s => globals s !! "sql_connection") (handler e)) ->
  keeps rest -> (forall e, safe (handler e)) ->
  untouched conns tail -> safe tail ->
  exists s',
    try_finally (try_except rest handler)
      (if_bound "sql_connection"
         (let* sql_connection := global "sql_connection" in
          connection_close sql_connection ;; tail)) s = (inr tt, s') /\
    conns s' = cs ++ [false] /\ writable s'.
Proof.
  intros Hw Hc -> Hg Hrc Hhc Hrg Hhg Hk Hs Hac Hsafe.
  destruct (safe_try_except rest handler Hk Hs s Hw) as ([] & s1 & Hrun & Hw1).
  assert (Hc1 : conns s1 = cs ++ [true]).
  { rewrite <- Hc. change s1 with (snd (inr tt : Exn + unit, s1)). rewrite <- Hrun.
    apply (untouched_try_except conns); assumption. }
  assert (Hg1 : globals s1 !! "sql_connection" = Some (length cs)).
  { rewrite <- Hg. change s1 with (snd (inr tt : Exn + unit, s1)). rewrite <- Hrun.
    apply (untouched_try_except (fun s => globals s !! "sql_connection")); assumption. }
  unfold try_finally. rewrite Hrun.
  unfold if_bound, global. rewrite Hg1. unfold bind at 1. rewrite Hg1.
  unfold connection_close. unfold bind at 1.
  match goal with |- context [tail ?s2] =>
    destruct (Hsafe s2) as ([] & s' & Hrun' & Hw'); [exact Hw1|];
    pose proof (Hac s2) as Hconns; rewrite Hrun' in *
  end.
  exists s'. split; [reflexivity|]. split; [|exact Hw'].
  simpl in Hconns. rewrite Hconns, Hc1. apply close_last.
Qed.

Lemma store_load_closes E s :
  writable s -> connect_fault E = None ->
  exists s', store_load E s = (inr tt, s') /\ conns s' = conns s ++ [false] /\
    writable s'.
Proof.
  intros [lines Hl] Hconn.
  unfold store_load, store_load_body, store_load_finally.
  erewrite guarded_bind_ok by (apply log_progress_writable; exact Hl).
  erewrite guarded_bind_ok
    by (unfold sqlite3_connect; rewrite Hconn; reflexivity).
  erewrite guarded_bind_ok by reflexivity.
  match goal with
  |- context [try_finally (try_except ?r ?h)
                (if_bound _ (bind _ (fun c => bind _ (fun _ => ?t)))) ?s3] =>
    apply (block_closes_connection r h t s3 (length (conns s)) (conns s))
  end; try reflexivity.
  - eexists. reflexivity.
  - simpl. apply lookup_insert_eq.
  - frame.
  - intros e. frame.
  - frame.
  - intros e. frame.
  - repeat keeps_step.
  - intros e. repeat safe_step.
  - frame.
  - repeat safe_step.
Qed.

Lemma queries_closes E s :
  writable s -> connect_fault E = None ->
  exists s', queries E s = (inr tt, s') /\ conns s' = conns s ++ [false] /\
    writable s'.
Proof.
  intros [lines Hl] Hconn.
  unfold queries, queries_body, queries_finally.
  erewrite guarded_bind_ok by (apply log_progress_writable; exact Hl).
  erewrite guarded_bind_ok
    by (unfold sqlite3_connect; rewrite Hconn; reflexivity).
  erewrite guarded_bind_ok by reflexivity.
  match goal with
  |- context [try_finally (try_except ?r ?h)
                (if_bound _ (bind _ (fun c => bind _ (fun _ => ?t)))) ?s3] =>
    apply (block_closes_connection r h t s3 (length (conns s)) (conns s))
  end; try reflexivity.
  - eexists. reflexivity.
  - simpl. apply lookup_insert_eq.
  - frame.
  - intros e. frame.
  - frame.
  - intros e. frame.
  - repeat keeps_step.
  - intros e. repeat safe_step.
  - frame.
  - repeat safe_step.
Qed.

(** X18: each guarded block closes the connection it opens.  With a writable
    log file and [Banks.db] within reach, the store-load block and the query
    block open one connection and leave it closed, whether the work
    between succeeded or raised; the connections that existed are not
    touched. *)
Theorem guarded_blocks_close_their_connection (E : Env) (s : State) :
  writable s ->
  connect_fault E = None ->
  (exists s', store_load E s = (inr tt, s') /\ conns s' = conns s ++ [false]) /\
  (exists s', queries E s = (inr tt, s') /\ conns s' = conns s ++ [false]).
Proof.
  intros Hw Hconn. split.
  - destruct (store_load_closes E s Hw Hconn) as (s' & H1 & H2 & _). eauto.
  - destruct (queries_closes E s Hw Hconn) as (s' & H1 & H2 & _). eauto.
Qed.

Lemma guarded_blocks_close_their_connection_witness :
  (exists s', store_load Sample.world Sample.start = (inr tt, s') /\
     conns s' = conns Sample.start ++ [false]) /\
  (exists s', queries Sample.world Sample.start = (inr tt, s') /\
     conns s' = conns Sample.start ++ [false]).
Proof.
  apply (guarded_blocks_close_their_connection Sample.world Sample.start).
  - eexists. reflexivity.
  - reflexivity.
Defined.

(** ** The transformation block of the script *)

Lemma transformation_returns
    (E : Env) (s : State) (lines : list string) (df : nat) (f : Frame)
    (usd : list float) (rates : gmap string float) (gbp eur inr_ : float) :
  log_sink s = inr lines ->
  globals s !! "df_extracted" = Some df ->
  heap s !! df = Some f ->
  column f "MC_USD_Billion" = Some (map CNum usd) ->
  read_rates E "exchange_rate.csv" = inr rates ->
  rates !! "GBP" = Some gbp ->
  rates !! "EUR" = Some eur ->
  rates !! "INR" = Some inr_ ->
  exists s' f',
    transformation E s = (inr tt, s') /\
    globals s' !! "df_transformed" = Some df /\
    globals s' !! "df_extracted" = Some df /\
    heap s' !! df = Some f' /\
    f' = set_column
           (set_column (set_column f "MC_GBP_Billion" (derived usd gbp))
              "MC_EUR_Billion" (derived usd eur))
           "MC_INR_Billion" (derived usd inr_) /\
    writable s' /\ csv_files s' = csv_files s /\ db s' = db s /\
    conns s' = conns s /\
    stdout s' =
      stdout s ++
      [OutFrame f';
       match usd !! 4 with
       | Some x =>
           OutCell (nl +:+ "5th bank EUR value:") (CNum (round2 (PrimFloat.mul x eur)))
       | None =>
           OutStr "Error during transformation: single positional indexer is out-of-bounds"
       end].
Proof.
  intros Hlog Hg Hf Husd Hr Hgbp Heur Hinr.
  unfold transformation, transformation_body.
  erewrite try_except_bind_ok by (unfold global; rewrite Hg; reflexivity).
  erewrite try_except_bind_ok
    by (unfold transform; apply try_except_returns;
        eapply transform_body_returns; eassumption).
  erewrite try_except_bind_ok by reflexivity.
  set (f3 := set_column _ "MC_INR_Billion" _).
  assert (H3 : <[df := f3]> (heap s) !! df = Some f3)
    by (eapply heap_insert_lookup, Hf).
  assert (He3 : column f3 "MC_EUR_Billion" = Some (derived usd eur))
    by (unfold f3; rewrite !column_set_column; reflexivity).
  erewrite try_except_bind_ok
    by (unfold global; cbn [globals set_globals]; rewrite lookup_insert_eq;
        reflexivity).
  erewrite try_except_bind_ok
    by (unfold print_frame, get_frame, bind, print;
        cbn [heap set_globals set_stdout]; rewrite H3; reflexivity).
  erewrite try_except_bind_ok
    by (unfold global; cbn [globals set_globals set_stdout];
        rewrite lookup_insert_eq; reflexivity).
  erewrite try_except_bind_ok
    by (unfold get_frame; cbn [heap set_globals set_stdout]; rewrite H3;
        reflexivity).
  erewrite try_except_bind_ok
    by (unfold lift, getitem; rewrite He3; reflexivity).
  unfold iloc, derived. rewrite list_lookup_fmap.
  unfold try_except, bind, lift, print.
  destruct (usd !! 4) as [x|]; cbn [fmap option_fmap option_map].
  - eexists _, f3. split; [reflexivity|].
    cbn [globals heap stdout set_globals set_stdout].
    split; [apply lookup_insert_eq|].
    split; [rewrite lookup_insert_ne by discriminate; exact Hg|].
    split; [exact H3|]. split; [reflexivity|].
    split; [eexists; reflexivity|]. repeat (split; [reflexivity|]).
    rewrite <- app_assoc. reflexivity.
  - eexists _, f3. split; [reflexivity|].
    cbn [globals heap stdout set_globals set_stdout].
    split; [apply lookup_insert_eq|].
    split; [rewrite lookup_insert_ne by discriminate; exact Hg|].
    split; [exact H3|]. split; [reflexivity|].
    split; [eexists; reflexivity|]. repeat (split; [reflexivity|]).
    rewrite <- app_assoc. reflexivity.
Qed.

(** X19: the transformation block binds [df_transformed] to the very frame
    that [df_extracted] names, prints it, and then looks for the fifth bank.
    With five records or more it prints that bank's EUR value.  With fewer,
    [iloc[4]] is out of bounds: the block prints
    ["Error during transformation: single positional indexer is
    out-of-bounds"] although the transformation went through, and
    [df_transformed] stays bound, so that the script goes on. *)
Theorem transformation_looks_for_the_fifth_bank
    (E : Env) (s : State) (lines : list string) (df : nat) (f : Frame)
    (usd : list float) (rates : gmap string float) (gbp eur inr_ : float) :
  log_sink s = inr lines ->
  globals s !! "df_extracted" = Some df ->
  heap s !! df = Some f ->
  NoDup (columns f) ->
  column f "MC_USD_Billion" = Some (map CNum usd) ->
  read_rates E "exchange_rate.csv" = inr rates ->
  rates !! "GBP" = Some gbp ->
  rates !! "EUR" = Some eur ->
  rates !! "INR" = Some inr_ ->
  exists s' f',
    transformation E s = (inr tt, s') /\
    globals s' !! "df_transformed" = Some df /\
    globals s' !! "df_extracted" = Some df /\
    heap s' !! df = Some f' /\
    column f' "MC_EUR_Billion" = Some (derived usd eur) /\
    stdout s' =
      stdout s ++
      [OutFrame f';
       match usd !! 4 with
       | Some x =>
           OutCell (nl +:+ "5th bank EUR value:") (CNum (round2 (PrimFloat.mul x eur)))
       | None =>
           OutStr "Error during transformation: single positional indexer is out-of-bounds"
       end].
Proof.
  intros Hlog Hg Hf _ Husd Hr Hgbp Heur Hinr.
  destruct (transformation_returns E s lines df f usd rates gbp eur inr_
              Hlog Hg Hf Husd Hr Hgbp Heur Hinr)
    as (s' & f' & Hrun & Hdt & Hde & Hh & -> & _ & _ & _ & _ & Hout).
  eexists s', _. repeat (split; [eassumption|]).
  split; [|exact Hout]. rewrite !column_set_column. reflexivity.
Qed.

Lemma transformation_looks_for_the_fifth_bank_witness :
  exists s' f',
    transformation Sample.world
      (set_globals (<["df_extracted" := 0]> ∅) (Sample.holding Sample.one_bank))
    = (inr tt, s') /\
    globals s' !! "df_transformed" = Some 0 /\
    globals s' !! "df_extracted" = Some 0 /\
    heap s' !! 0 = Some f' /\
    column f' "MC_EUR_Billion" = Some (derived [10%float] 0.93%float) /\
    stdout s' =
      stdout (set_globals (<["df_extracted" := 0]> ∅) (Sample.holding Sample.one_bank))
      ++ [OutFrame f';
          match [10%float] !! 4 with
          | Some x =>
              OutCell (nl +:+ "5th bank EUR value:")
                (CNum (round2 (PrimFloat.mul x 0.93%float)))
          | None =>
              OutStr "Error during transformation: single positional indexer is out-of-bounds"
          end].
Proof.
  apply (transformation_looks_for_the_fifth_bank Sample.world
           (set_globals (<["df_extracted" := 0]> ∅) (Sample.holding Sample.one_bank))
           [] 0 Sample.one_bank [10%float] Sample.rates
           0.8%float 0.93%float 82.5%float);
    try reflexivity.
  exact NoDup_record_labels.
Defined.

(** ** The script from end to end *)

Lemma concat_row_columns a t x a' :
  columns a = ["Name"; "MC_USD_Billion"] ->
  concat a (row_frame t x) = inr a' ->
  columns a' = ["Name"; "MC_USD_Billion"].
Proof.
  intros Hcols. unfold concat.
  rewrite bool_decide_eq_true_2 by exact Hcols.
  intros [= <-]. rewrite <- Hcols. unfold columns. rewrite map_map.
  apply map_ext. intros [c v]. reflexivity.
Qed.

Lemma extract_rows_columns E rows : forall df df',
  columns df = ["Name"; "MC_USD_Billion"] ->
  extract_rows E rows df = inr df' ->
  columns df' = ["Name"; "MC_USD_Billion"].
Proof.
  induction rows as [|row rest IH]; intros df df' Hcols; simpl.
  - intros [= <-]. exact Hcols.
  - destruct (negb (Nat.eqb (length (find_all "td" row)) 0)); [|apply IH, Hcols].
    destruct (data_dict E (find_all "td" row)) as [|df1] eqn:Hrow; [discriminate|].
    pose proof (proj1 (data_dict_inv _ _ _) Hrow)
      as (_ & _ & t & _ & _ & x & _ & _ & _ & _ & _ & _ & ->).
    destruct (concat df (row_frame t x)) as [|d1] eqn:Hcat; [discriminate|].
    apply IH. eapply concat_row_columns; eassumption.
Qed.

(** The extraction statement of the script on valid markup. *)
Lemma extraction_returns E s lines soup tbody :
  log_sink s = inr lines ->
  get_soup E url = inr soup ->
  find_all "tbody" soup !! 0 = Some tbody ->
  (forall row, row ∈ data_rows tbody ->
     exists fr, data_dict E (find_all "td" row) = inr fr) ->
  exists s1 f usd,
    extraction E s = (inr tt, s1) /\
    globals s1 !! "df_extracted" = Some (length (heap s)) /\
    heap s1 !! length (heap s) = Some f /\
    nrows f = length (data_rows tbody) /\
    columns f = ["Name"; "MC_USD_Billion"] /\
    column f "MC_USD_Billion" = Some (map CNum usd) /\
    writable s1 /\ conns s1 = conns s.
Proof.
  intros Hlog Hsoup Htb Hvalid.
  destruct (DataFrame_columns_empty table_attribs) as (Hrect & _ & Hcols & Hnan).
  destruct (extract_rows_total E (find_all "tr" tbody) (DataFrame_columns table_attribs))
    as [f Hrows]; [exact Hrect|rewrite Hcols; exact NoDup_record_labels|exact Hvalid|].
  pose proof (extract_returns E url table_attribs s lines soup tbody f
                Hlog Hsoup Htb Hrows) as Hex.
  destruct (extract_rows_inv _ _ _ _ Hrect Hrows) as (_ & recs & _ & _ & Hcol).
  exists (set_stdout (stdout s ++ [OutFrame f])
            (set_globals (<["df_extracted" := length (heap s)]> (globals s))
               (snd (extract E url table_attribs s)))),
    f, (map snd recs).
  split.
  { unfold extraction. rewrite (bind_ok _ _ _ _ _ Hex).
    unfold assign. unfold bind at 1. unfold global. unfold bind at 1.
    cbn [globals set_globals]. rewrite lookup_insert_eq.
    unfold print_frame, get_frame, bind, print. cbn [heap set_globals].
    rewrite lookup_app_r by lia. rewrite Nat.sub_diag. cbn [lookup list_lookup].
    rewrite Hex. reflexivity. }
  rewrite Hex. cbn [snd globals heap conns set_stdout set_globals].
  split; [apply lookup_insert_eq|].
  split; [rewrite lookup_app_r by lia; rewrite Nat.sub_diag; reflexivity|].
  split; [apply (extract_rows_records _ _ _ _ Hrows)|].
  split; [eapply extract_rows_columns; [|exact Hrows]; exact Hcols|].
  split.
  { destruct Hcol as [[-> ->]|[_ Hmc]]; [reflexivity|].
    rewrite Hmc, Hnan, map_map. reflexivity. }
  split; [eexists; reflexivity|reflexivity].
Qed.

Lemma file_save_returns E s lines df f :
  log_sink s = inr lines ->
  globals s !! "df_transformed" = Some df ->
  heap s !! df = Some f ->
  to_csv_fault E output_csv_path = None ->
  exists s',
    file_save E s = (inr tt, s') /\
    csv_files s' !! output_csv_path = Some f /\
    writable s' /\ heap s' = heap s /\ globals s' = globals s /\
    conns s' = conns s.
Proof.
  intros Hlog Hg Hf Hok. unfold file_save.
  erewrite bind_ok by (unfold global; rewrite Hg; reflexivity).
  rewrite (load_to_csv_returns _ _ _ _ _ _ Hlog Hf Hok).
  eexists. split; [reflexivity|]. cbn [csv_files heap globals conns].
  split; [apply lookup_insert_eq|]. split; [eexists; reflexivity|].
  repeat split.
Qed.

Lemma store_load_loads E s lines df f :
  log_sink s = inr lines ->
  connect_fault E = None ->
  globals s !! "df_transformed" = Some df ->
  heap s !! df = Some f ->
  exists s',
    store_load E s = (inr tt, s') /\
    db s' !! "Largest_banks" = Some (sql_table f) /\
    conns s' = conns s ++ [false] /\
    writable s' /\ heap s' = heap s /\ csv_files s' = csv_files s.
Proof.
  intros Hlog Hconn Hg Hf.
  unfold store_load, store_load_body, store_load_finally.
  erewrite guarded_bind_ok by (apply log_progress_writable; exact Hlog).
  erewrite guarded_bind_ok
    by (unfold sqlite3_connect; rewrite Hconn; reflexivity).
  erewrite guarded_bind_ok by reflexivity.
  erewrite guarded_bind_ok by (apply log_progress_writable; reflexivity).
  erewrite guarded_bind_ok
    by (unfold global; cbn [globals set_globals set_log set_ticks set_conns];
        rewrite lookup_insert_ne by discriminate; rewrite Hg; reflexivity).
  erewrite guarded_bind_ok
    by (unfold global; cbn [globals set_globals set_log set_ticks set_conns];
        rewrite lookup_insert_eq; reflexivity).
  erewrite guarded_bind_ok.
  2:{ eapply load_to_db_returns; [reflexivity|exact Hf|].
      cbn [conns set_globals set_log set_ticks set_conns].
      rewrite lookup_app_r by lia. rewrite Nat.sub_diag. reflexivity. }
  match goal with |- context [try_finally (try_except ?r ?h) ?fin ?st] =>
    set (rest := r); set (handler := h); set (final := fin); set (s7 := st)
  end.
  assert (Hclose : exists s', try_finally (try_except rest handler) final s7 = (inr tt, s')
                     /\ conns s' = conns s ++ [false] /\ writable s').
  { subst rest handler final.
    match goal with |- context [if_bound _ (bind _ (fun c => bind _ (fun _ => ?t)))] =>
      eapply (block_closes_connection _ _ t s7 (length (conns s)) (conns s))
    end; try reflexivity.
    - eexists. reflexivity.
    - subst s7. cbn [globals set_globals set_log set_ticks set_conns].
      apply lookup_insert_eq.
    - frame.
    - intros e. frame.
    - frame.
    - intros e. frame.
    - repeat keeps_step.
    - intros e. repeat safe_step.
    - frame.
    - repeat safe_step. }
  destruct Hclose as (s' & Hrun & Hc & Hw).
  exists s'. split; [exact Hrun|].
  assert (Hs' : s' = snd (try_finally (try_except rest handler) final s7))
    by (rewrite Hrun; reflexivity).
  split.
  { rewrite Hs'.
    assert (Hu : untouched (fun s => db s !! "Largest_banks")
                   (try_finally (try_except rest handler) final))
      by (subst rest handler final; frame).
    rewrite Hu. subst s7. cbn [db]. apply lookup_insert_eq. }
  split; [exact Hc|]. split; [exact Hw|]. split.
  { rewrite Hs'.
    assert (Hu : untouched heap (try_finally (try_except rest handler) final))
      by (subst rest handler final; frame).
    rewrite Hu. reflexivity. }
  rewrite Hs'.
  assert (Hu : untouched csv_files (try_finally (try_except rest handler) final))
    by (subst rest handler final; frame).
  rewrite Hu. reflexivity.
Qed.

Lemma untouched_queries {X} (proj : State -> X) E :
  ignores set_log proj -> ignores set_ticks proj -> ignores set_stdout proj ->
  ignores set_conns proj -> ignores set_globals proj ->
  untouched proj (queries E).
Proof.
  intros. unfold queries, queries_body, queries_finally. frame.
Qed.

Lemma enriched_two_columns f usd a b c :
  columns f = ["Name"; "MC_USD_Billion"] ->
  column f "MC_USD_Billion" = Some (map CNum usd) ->
  let f' := set_column (set_column (set_column f "MC_GBP_Billion" a)
                          "MC_EUR_Billion" b) "MC_INR_Billion" c in
  nrows f' = nrows f /\
  columns f' = ["Name"; "MC_USD_Billion"; "MC_GBP_Billion"; "MC_EUR_Billion";
                "MC_INR_Billion"] /\
  column f' "Name" = column f "Name" /\
  column f' "MC_USD_Billion" = Some (map CNum usd) /\
  column f' "MC_GBP_Billion" = Some a /\
  column f' "MC_EUR_Billion" = Some b /\
  column f' "MC_INR_Billion" = Some c.
Proof.
  destruct f as [|[c1 v1] [|[c2 v2] [|? ?]]]; try discriminate.
  intros [= -> ->]. simpl. intros [= ->]. repeat split.
Qed.

(** X20: on a page whose first table body has only well-formed data rows,
    with the three rates present and neither the CSV writer nor the
    database failing, the script runs to its end: the frame it extracted
    has one row per data row and the five columns, each converted column
    holding one number for every market capitalisation, the same frame is
    in the CSV file and in the table [Largest_banks], and both connections
    are closed. *)
Theorem script_runs_to_its_end
    (E : Env) (s : State) (lines : list string) (soup tbody : Node)
    (rates : gmap string float) (gbp eur inr_ : float) :
  log_sink s = inr lines ->
  get_soup E url = inr soup ->
  find_all "tbody" soup !! 0 = Some tbody ->
  (forall row, row ∈ data_rows tbody ->
     exists fr, data_dict E (find_all "td" row) = inr fr) ->
  read_rates E "exchange_rate.csv" = inr rates ->
  rates !! "GBP" = Some gbp ->
  rates !! "EUR" = Some eur ->
  rates !! "INR" = Some inr_ ->
  to_csv_fault E output_csv_path = None ->
  connect_fault E = None ->
  exists s' f,
    script E s = (inr tt, s') /\
    heap s' !! length (heap s) = Some f /\
    nrows f = length (data_rows tbody) /\
    columns f = ["Name"; "MC_USD_Billion"; "MC_GBP_Billion"; "MC_EUR_Billion";
                 "MC_INR_Billion"] /\
    (exists usd in_gbp in_eur in_inr,
       column f "MC_USD_Billion" = Some (map CNum usd) /\
       column f "MC_GBP_Billion" = Some (map CNum in_gbp) /\
       column f "MC_EUR_Billion" = Some (map CNum in_eur) /\
       column f "MC_INR_Billion" = Some (map CNum in_inr) /\
       length in_gbp = length usd /\ length in_eur = length usd /\
       length in_inr = length usd) /\
    csv_files s' !! output_csv_path = Some f /\
    db s' !! "Largest_banks" = Some (sql_table f) /\
    conns s' = conns s ++ [false; false] /\
    writable s'.
Proof.
  intros Hlog Hsoup Htb Hvalid Hrates Hgbp Heur Hinr Hcsv Hconn.
  destruct (extraction_returns E s lines soup tbody Hlog Hsoup Htb Hvalid)
    as (s1 & f & usd & Hrun1 & Hg1 & Hh1 & Hn1 & Hcols1 & Hmc1 & [l1 Hw1] & Hc1).
  destruct (transformation_returns E s1 l1 _ f usd rates gbp eur inr_
              Hw1 Hg1 Hh1 Hmc1 Hrates Hgbp Heur Hinr)
    as (s2 & f' & Hrun2 & Hg2 & _ & Hh2 & Hf' & [l2 Hw2] & _ & _ & Hc2 & _).
  destruct (file_save_returns E s2 l2 _ f' Hw2 Hg2 Hh2 Hcsv)
    as (s3 & Hrun3 & Hcsv3 & [l3 Hw3] & Hh3 & Hg3 & Hc3).
  destruct (store_load_loads E s3 l3 (length (heap s)) f' Hw3 Hconn)
    as (s4 & Hrun4 & Hdb4 & Hc4 & Hw4 & Hh4 & Hcsv4);
    [rewrite Hg3; exact Hg2|rewrite Hh3; exact Hh2|].
  destruct (queries_closes E s4 Hw4 Hconn) as (s5 & Hrun5 & Hc5 & [l5 Hw5]).
  assert (Hs5 : s5 = snd (queries E s4)) by (rewrite Hrun5; reflexivity).
  destruct (enriched_two_columns f usd (derived usd gbp) (derived usd eur)
              (derived usd inr_) Hcols1 Hmc1)
    as (Hn & Hcols & _ & Husd & Hcg & Hce & Hci).
  rewrite <- Hf' in Hn, Hcols, Husd, Hcg, Hce, Hci.
  exists (set_stdout (stdout s5 ++ [OutStr (String.concat "" l5)]) s5), f'.
  split.
  { unfold script.
    rewrite (bind_ok _ _ _ _ _ Hrun1), (bind_ok _ _ _ _ _ Hrun2),
      (bind_ok _ _ _ _ _ Hrun3), (bind_ok _ _ _ _ _ Hrun4),
      (bind_ok _ _ _ _ _ Hrun5).
    unfold verify_log. rewrite Hw5. reflexivity. }
  cbn [heap csv_files db conns set_stdout].
  split.
  { rewrite Hs5, (untouched_queries heap) by (intros ? ?; reflexivity).
    rewrite Hh4, Hh3. exact Hh2. }
  split; [rewrite Hn; exact Hn1|].
  split; [exact Hcols|].
  split.
  { exists usd, (map (fun x => round2 (PrimFloat.mul x gbp)) usd),
      (map (fun x => round2 (PrimFloat.mul x eur)) usd),
      (map (fun x => round2 (PrimFloat.mul x inr_)) usd).
    rewrite !map_map, !length_map. unfold derived in Hcg, Hce, Hci. auto 10. }
  split.
  { rewrite Hs5, (untouched_queries csv_files) by (intros ? ?; reflexivity).
    rewrite Hcsv4. exact Hcsv3. }
  split.
  { rewrite Hs5, (untouched_queries db) by (intros ? ?; reflexivity).
    exact Hdb4. }
  split.
  { rewrite Hc5, Hc4, Hc3, Hc2, Hc1, <- app_assoc. reflexivity. }
  exists l5. exact Hw5.
Qed.

Lemma script_runs_to_its_end_witness :
  exists s' f,
    script Sample.world Sample.start = (inr tt, s') /\
    heap s' !! length (heap Sample.start) = Some f /\
    nrows f = length (data_rows Sample.table_body) /\
    columns f = ["Name"; "MC_USD_Billion"; "MC_GBP_Billion"; "MC_EUR_Billion";
                 "MC_INR_Billion"] /\
    (exists usd in_gbp in_eur in_inr,
       column f "MC_USD_Billion" = Some (map CNum usd) /\
       column f "MC_GBP_Billion" = Some (map CNum in_gbp) /\
       column f "MC_EUR_Billion" = Some (map CNum in_eur) /\
       column f "MC_INR_Billion" = Some (map CNum in_inr) /\
       length in_gbp = length usd /\ length in_eur = length usd /\
       length in_inr = length usd) /\
    csv_files s' !! output_csv_path = Some f /\
    db s' !! "Largest_banks" = Some (sql_table f) /\
    conns s' = conns Sample.start ++ [false; false] /\
    writable s'.
Proof.
  apply (script_runs_to_its_end Sample.world Sample.start [] Sample.page
           Sample.table_body Sample.rates 0.8%float 0.93%float 82.5%float);
    try reflexivity.
  intros row Hrow. vm_compute in Hrow.
  repeat (apply elem_of_cons in Hrow as [->|Hrow]; [eexists; vm_compute; reflexivity|]).
  inversion Hrow.
Defined.

(** ** The log read back *)

Lemma bind_returns_inv {A B} (m : M A) (k : A -> M B) s b s' :
  bind m k s = (inr b, s') ->
  exists a s1, m s = (inr a, s1) /\ k a s1 = (inr b, s').
Proof.
  unfold bind. destruct (m s) as [[e|a] s1]; [discriminate|]. eauto.
Qed.

(** X21: a script that runs to its end ends by printing the log file: the
    last thing on the output is the text of the file as it stands then, all
    its lines in their order, the lines that were there before the run
    first. *)
Theorem script_ends_by_printing_the_log (E : Env) (s s' : State) :
  script E s = (inr tt, s') ->
  exists lines,
    log_sink s' = inr lines /\
    log_lines s `prefix_of` lines /\
    last (stdout s') = Some (OutStr (String.concat "" lines)).
Proof.
  intros Hrun.
  pose proof (proj1 (script_extends_log_and_output E) s) as Hpre.
  rewrite Hrun in Hpre. cbn [snd] in Hpre.
  unfold script in Hrun.
  do 5 (apply bind_returns_inv in Hrun as (? & ? & ? & Hrun)).
  unfold verify_log in Hrun.
  match type of Hrun with context [log_sink ?s5] =>
    destruct (log_sink s5) as [e|lines] eqn:Hlog; [discriminate|]
  end.
  injection Hrun as <-. exists lines.
  unfold log_lines in Hpre at 2. cbn [log_sink set_stdout] in Hpre |- *.
  rewrite Hlog in Hpre.
  split; [exact Hlog|]. split; [exact Hpre|]. apply last_snoc.
Qed.

Lemma script_ends_by_printing_the_log_witness :
  exists lines,
    log_sink (snd (script Sample.world Sample.start)) = inr lines /\
    log_lines Sample.start `prefix_of` lines /\
    last (stdout (snd (script Sample.world Sample.start)))
    = Some (OutStr (String.concat "" lines)).
Proof.
  apply (script_ends_by_printing_the_log Sample.world Sample.start
           (snd (script Sample.world Sample.start))).
  vm_compute. reflexivity.
Defined.
